(** * Symbol SDK infrastructure layer: value codecs, alias decoding,
      query defaulting and the repository factory's shared network identity.

    Shallow embedding of [src/infrastructure/AccountHttp.ts],
    [src/infrastructure/BlockHttp.ts] and [src/infrastructure/NamespaceHttp.ts],
    the last of which also holds the class [RepositoryFactoryHttp].

    Thrown JavaScript exceptions are values of a sum type; the rxjs
    observables the factory builds are a state machine over subscriptions,
    responses and promise callbacks; the HTTP traffic is a log of the
    requests sent. Classes of the repository whose sources are not at hand
    ([Http], [UInt64], [Address], [MosaicId], ...) are modelled from the
    specification and marked as such. *)

From Stdlib Require Import ZArith NArith String Ascii Bool Lia Arith List.
From Stdlib Require Import Decimal DecimalString DecimalN DecimalFacts.
From Stdlib.Strings Require Byte.
From Equations Require Import Equations.
Import ListNotations.

Local Open Scope string_scope.
Local Open Scope Z_scope.

(* ================================================================= *)
(** ** Outcomes of code that may throw *)

Inductive result (E A : Type) : Type :=
| Ok (a : A)
| Throw (e : E).
Arguments Ok {E A} a.
Arguments Throw {E A} e.

Definition bind {E A B} (r : result E A) (k : A -> result E B) : result E B :=
  match r with
  | Ok a => k a
  | Throw e => Throw e
  end.

Definition fmap {E A B} (f : A -> B) (r : result E A) : result E B :=
  bind r (fun a => Ok (f a)).

Declare Scope result_scope.
Delimit Scope result_scope with result.
Notation "x <- r ;; k" := (bind r (fun x => k))
  (at level 61, r at next level, right associativity) : result_scope.

(** Decode-time errors of the value codec and the variant decoder
    (spec section 7). *)
Inductive DecodeError : Type :=
| MalformedValue
| MissingAliasPayload.

(* ================================================================= *)
(** ** UInt64: the unsigned 64-bit value codec *)

Module UInt64.

(** Two 32-bit unsigned words, as the wire format splits the value. *)
Record t : Type := mk { lower : Z; higher : Z }.

Definition two32 : Z := 2 ^ 32.
Definition two64 : Z := 2 ^ 64.

Definition compact (u : t) : Z := higher u * two32 + lower u.

Definition fromUint (n : Z) : t := mk (n mod two32) (n / two32).

(** The canonical decimal numeral of a non-negative integer. *)
Definition decimal (n : Z) : string :=
  NilEmpty.string_of_uint (N.to_uint (Z.to_N n)).

(** A numeral with a leading zero is only accepted when it is ["0"]. *)
Definition leadingZero (s : string) : bool :=
  match s with
  | String "0" (String _ _) => true
  | _ => false
  end.

Definition isEmpty (s : string) : bool :=
  match s with
  | EmptyString => true
  | _ => false
  end.

(** Modelled from the spec: [UInt64.fromNumericString] of
    [src/model/UInt64.ts], which is not among the sources (only its callers
    in [toAccountInfo], [toBlockInfo] and [toNamespaceInfo] are).
    Section 4.1: "decodeUnsigned64(decimalString) -> Unsigned64, fails with
    MalformedValue if the string is not a valid non-negative base-10 integer
    representable in 64 bits"; section 3: the value "must support
    construction from a decimal-string wire encoding and round-trip back to
    the identical decimal string", which makes the valid strings the
    canonical numerals: digits only, not empty, no superfluous leading
    zero. *)
Definition fromNumericString (s : string) : result DecodeError t :=
  match NilEmpty.uint_of_string s with
  | None => Throw MalformedValue
  | Some d =>
      if isEmpty s || leadingZero s then Throw MalformedValue
      else
        let n := Z.of_N (N.of_uint d) in
        if (n <? two64)%Z then Ok (fromUint n) else Throw MalformedValue
  end.

(** Modelled from the spec: [UInt64.toString], the encoder of section 4.1
    ("encode(Unsigned64) -> decimalString is the exact inverse"). *)
Definition toString (u : t) : string := decimal (compact u).

End UInt64.

(* ================================================================= *)
(** ** Bits, bytes and text *)

Definition byte : Type := Byte.byte.

Definition bit (b : bool) : nat := if b then 1%nat else 0%nat.

(** Big-endian value of a bit string and the [k]-bit big-endian digits of
    a number. *)
Definition bits_value (l : list bool) : nat :=
  fold_left (fun acc b => (2 * acc + bit b)%nat) l 0%nat.

Fixpoint value_bits (k n : nat) : list bool :=
  match k with
  | O => []
  | S k' => value_bits k' (Nat.div2 n) ++ [Nat.odd n]
  end.

Definition byte_bits (b : byte) : list bool :=
  value_bits 8 (N.to_nat (Byte.to_N b)).

Definition bits_byte (l : list bool) : byte :=
  match Byte.of_N (N.of_nat (bits_value l)) with
  | Some b => b
  | None => Byte.x00
  end.

(** [chunks k l] cuts [l] into consecutive pieces of [k] elements (the
    last one may be shorter). *)
Equations chunks {A : Type} (k : nat) (l : list A) : list (list A)
  by wf (List.length l) lt :=
  chunks _ [] := [];
  chunks O _ := [];
  chunks (S k) (x :: l) :=
    (x :: firstn k l) :: chunks (S k) (skipn k l).
Next Obligation.
  rewrite length_skipn. lia.
Qed.

Fixpoint mapM {E A B : Type} (f : A -> result E B) (l : list A)
  : result E (list B) :=
  match l with
  | [] => Ok []
  | a :: l' =>
      match f a with
      | Throw e => Throw e
      | Ok b =>
          match mapM f l' with
          | Throw e => Throw e
          | Ok bs => Ok (b :: bs)
          end
      end
  end.

Definition between (lo n hi : N) : bool := ((lo <=? n) && (n <=? hi))%N.

(** Modelled from the spec: the [Convert] helpers of [src/core/format],
    not among the sources; [getLinkedAddress] turns the encoded wire form of
    an address into bytes with [convert.hexToUint8]. Section 2 names the
    encoded forms "hex-encoded". *)
Module Convert.

Definition hexValue (c : ascii) : option N :=
  let n := N_of_ascii c in
  if between 48 n 57 then Some (n - 48)%N
  else if between 65 n 70 then Some (n - 55)%N
  else if between 97 n 102 then Some (n - 87)%N
  else None.

Definition hexDigit (n : N) : ascii :=
  if (n <? 10)%N then ascii_of_N (48 + n) else ascii_of_N (55 + n).

Fixpoint hexToUint8 (input : string) : result DecodeError (list byte) :=
  match input with
  | EmptyString => Ok []
  | String _ EmptyString => Throw MalformedValue
  | String c1 (String c2 rest) =>
      match hexValue c1, hexValue c2 with
      | Some h, Some l =>
          match Byte.of_N (h * 16 + l), hexToUint8 rest with
          | Some b, Ok bs => Ok (b :: bs)
          | _, _ => Throw MalformedValue
          end
      | _, _ => Throw MalformedValue
      end
  end.

Fixpoint uint8ToHex (input : list byte) : string :=
  match input with
  | [] => EmptyString
  | b :: rest =>
      let n := Byte.to_N b in
      String (hexDigit (n / 16)) (String (hexDigit (n mod 16)) (uint8ToHex rest))
  end.

End Convert.

(** Modelled from the spec: the base-32 text form of address bytes
    ([Base32] of [src/core/format], not among the sources): five bytes make
    eight characters of the alphabet A-Z, 2-7. *)
Module Base32.

Definition Alphabet : list ascii :=
  list_ascii_of_string "ABCDEFGHIJKLMNOPQRSTUVWXYZ234567".

Definition encodeChar (q : list bool) : ascii :=
  nth (bits_value q) Alphabet "A"%char.

Definition decodeChar (c : ascii) : result DecodeError (list bool) :=
  let n := N_of_ascii c in
  if between 65 n 90 then Ok (value_bits 5 (N.to_nat (n - 65)))
  else if between 50 n 55 then Ok (value_bits 5 (N.to_nat (n - 24)))
  else Throw MalformedValue.

Definition Base32Encode (data : list byte) : result DecodeError string :=
  if (List.length data mod 5 =? 0)%nat
  then Ok (string_of_list_ascii
             (map encodeChar (chunks 5 (flat_map byte_bits data))))
  else Throw MalformedValue.

Definition Base32Decode (encoded : string) : result DecodeError (list byte) :=
  let chars := list_ascii_of_string encoded in
  if (List.length chars mod 8 =? 0)%nat
  then (quintets <- mapM decodeChar chars ;;
        Ok (map bits_byte (chunks 8 (concat quintets))))%result
  else Throw MalformedValue.

End Base32.

(** Modelled from the spec: [RawAddress] of [src/core/format], not among
    the sources; [getLinkedAddress] calls [addressToString] on the decoded
    bytes. *)
Module RawAddress.

Definition addressDecoded : nat := 25.
Definition addressEncoded : nat := 40.

Definition stringToAddress (encoded : string) : result DecodeError (list byte) :=
  if (String.length encoded =? addressEncoded)%nat
  then Base32.Base32Decode encoded
  else Throw MalformedValue.

Definition addressToString (decoded : list byte) : result DecodeError string :=
  if (List.length decoded =? addressDecoded)%nat
  then Base32.Base32Encode decoded
  else Throw MalformedValue.

End RawAddress.

(** Modelled from the spec: [Address] of [src/model/account/Address.ts],
    not among the sources. Section 4.1: "Address decoding supports two wire
    forms - a raw human-facing form and an encoded form - and both must
    normalize to one canonical internal address value". The canonical value
    is the plain text: upper case, no separators. [createFromEncoded] is the
    composition [getLinkedAddress] writes out (NamespaceHttp.ts lines
    237-239). *)
Module Address.

Record t : Type := mk { address : string }.

Definition plain (a : t) : string := address a.

Definition upperChar (c : ascii) : ascii :=
  let n := N_of_ascii c in
  if between 97 n 122 then ascii_of_N (n - 32) else c.

Fixpoint toUpperCase (s : string) : string :=
  match s with
  | EmptyString => EmptyString
  | String c s' => String (upperChar c) (toUpperCase s')
  end.

Fixpoint removeDashes (s : string) : string :=
  match s with
  | EmptyString => EmptyString
  | String c s' =>
      if Ascii.eqb c "-" then removeDashes s' else String c (removeDashes s')
  end.

Definition createFromRawAddress (rawAddress : string) : result DecodeError t :=
  let addressUpperCase := removeDashes (toUpperCase rawAddress) in
  (_ <- RawAddress.stringToAddress addressUpperCase ;;
   Ok (mk addressUpperCase))%result.

Definition createFromEncoded (encoded : string) : result DecodeError t :=
  (decoded <- Convert.hexToUint8 encoded ;;
   raw <- RawAddress.addressToString decoded ;;
   createFromRawAddress raw)%result.

Definition encoded (a : t) : result DecodeError string :=
  fmap Convert.uint8ToHex (RawAddress.stringToAddress (address a)).

End Address.

(* ================================================================= *)
(** ** Identifiers and aliases *)

(** Modelled from the spec: what the constructors of the absent model
    classes ([MosaicId], [Address.createFromEncoded]) do when [extractAlias]
    hands them an undefined payload (its [!] assertions are erased at run
    time). Section 4.2: a discriminator that names a variant "requires
    payload field holding an identifier, else fails with MissingAliasPayload
    ... requires payload field holding an address, else fails the same way". *)
Definition requirePayload (payload : option string) : result DecodeError string :=
  match payload with
  | Some s => Ok s
  | None => Throw MissingAliasPayload
  end.

(** Modelled from the spec: [MosaicId] of [src/model/mosaic/MosaicId.ts], not
    among the sources. Section 3: an identifier is "always stored internally
    in a canonical 64-bit form"; the wire form is a hex-encoded id (section
    2), sixteen hexadecimal digits. *)
Module MosaicId.

Record t : Type := mk { id : UInt64.t }.

Definition bytesValue (bs : list byte) : Z :=
  fold_left (fun acc b => acc * 256 + Z.of_N (Byte.to_N b)) bs 0.

Definition fromHex (hex : string) : result DecodeError t :=
  (bs <- Convert.hexToUint8 hex ;;
   if (length bs =? 8)%nat then Ok (mk (UInt64.fromUint (bytesValue bs)))
   else Throw MalformedValue)%result.

Definition create (id : option string) : result DecodeError t :=
  (hex <- requirePayload id ;; fromHex hex)%result.

End MosaicId.

(** Modelled from the spec: [NamespaceId.createFromEncoded] of
    [src/model/namespace/NamespaceId.ts], not among the sources; an
    identifier like [MosaicId] (section 3), read from its hex-encoded wire
    form. *)
Module NamespaceId.

Record t : Type := mk { id : UInt64.t }.

Definition createFromEncoded (encoded : string) : result DecodeError t :=
  (bs <- Convert.hexToUint8 encoded ;;
   if (length bs =? 8)%nat
   then Ok (mk (UInt64.fromUint (MosaicId.bytesValue bs)))
   else Throw MalformedValue)%result.

End NamespaceId.

(** [AliasType] ([src/model/namespace/AliasType.ts]): the numeric enum the
    wire discriminator is compared with. *)
Module AliasType.
Definition None : Z := 0.
Definition Mosaic : Z := 1.
Definition Address : Z := 2.
End AliasType.

(** The closed alias variant: [EmptyAlias], [MosaicAlias], [AddressAlias]. *)
Inductive Alias : Type :=
| EmptyAlias
| MosaicAlias (mosaicId : MosaicId.t)
| AddressAlias (address : Address.t).

(** The wire objects of the generated client, with the fields the
    repository reads. An optional field is an [option]. *)
Record AliasDTO : Type := {
  alias_type : Z;
  alias_mosaicId : option string;
  alias_address : option string
}.

Record NamespaceDTO : Type := {
  registrationType : Z;
  depth : Z;
  level0 : string;
  level1 : option string;
  level2 : option string;
  alias : option AliasDTO;
  parentId : string;
  ownerPublicKey : string;
  startHeight : string;
  endHeight : string
}.

Record NamespaceMetaDTO : Type := {
  meta_active : bool;
  meta_index : Z;
  meta_id : string
}.

Record NamespaceInfoDTO : Type := {
  meta : NamespaceMetaDTO;
  namespace : option NamespaceDTO
}.

(** What a mapping function can throw. *)
Inductive Thrown : Type :=
| ThrownBody (body : NamespaceInfoDTO)   (* [throw namespaceInfoDTO] *)
| ThrownError (message : string)         (* [throw new Error(message)] *)
| ThrownTypeError                        (* property read on [undefined] *)
| ThrownDecode (e : DecodeError).        (* raised by a value constructor *)

Definition decoded {A : Type} (r : result DecodeError A) : result Thrown A :=
  match r with
  | Ok a => Ok a
  | Throw e => Throw (ThrownDecode e)
  end.

(** JavaScript truthiness of an optional string: [undefined] and the empty
    string are falsy. *)
Definition truthy (s : option string) : bool :=
  match s with
  | Some EmptyString => false
  | Some _ => true
  | None => false
  end.


(* ================================================================= *)
(** ** Requests and the base [Http] helper *)

Inductive Order : Type := ASC | DESC.

(** [QueryParams] as a caller supplies it. *)
Record QueryParams : Type := {
  qp_pageSize : Z;
  qp_id : option string;
  qp_order : Order
}.

(** [TransactionFilter]: the transaction types a caller asks for. *)
Record TransactionFilter : Type := { tf_types : list Z }.

(** The paginated routes of the generated client that the repositories
    call. *)
Inductive ListRoute : Type :=
| AccountRoutesApi_getAccountConfirmedTransactions
| AccountRoutesApi_getAccountIncomingTransactions
| AccountRoutesApi_getAccountOutgoingTransactions
| AccountRoutesApi_getAccountUnconfirmedTransactions
| AccountRoutesApi_getAccountPartialTransactions
| BlockRoutesApi_getBlockTransactions
| NamespaceRoutesApi_getNamespacesFromAccount.

(** One outbound HTTP request, named after the generated client's method
    that issues it. *)
Inductive Request : Type :=
| NetworkIdentityRequest                               (* network-identity endpoint *)
| NodeInfoRequest                                      (* node-info endpoint *)
| AccountInfoRequest (accountId : string)
| AccountsInfoRequest (addresses : list string)
| BlockByHeightRequest (height : string)
| BlocksByHeightWithLimitRequest (height : string) (limit : Z)
| MerkleTransactionRequest (height hash : string)
| NamespaceRequest (namespaceId : string)
| NamespacesFromAccountsRequest (addresses : list string)
| ListRequest (route : ListRoute) (subject : string)
              (pageSize : Z) (id : option string) (ordering : Order)
              (type : option (list Z)).

(** Modelled from the spec: the path table of the generated client
    ([AccountRoutesApi] and the other route classes of
    [symbol-openapi-typescript-node-client]), which is not among the sources:
    the sources only show which route method is called and with what
    arguments. Section 8 gives one path, "[getAccountInfo(addr)] issues
    exactly one HTTP call to [/accounts/{addr}]"; the spec names no path for
    any other route. *)
Definition requestPath (r : Request) : option string :=
  match r with
  | AccountInfoRequest accountId => Some ("/accounts/" ++ accountId)
  | _ => None
  end.

Definition isNetworkIdentity (r : Request) : bool :=
  match r with
  | NetworkIdentityRequest => true
  | _ => false
  end.

(** A request as it leaves the client: the node URL the route API was
    built with, and the route called. *)
Record Sent : Type := { basePath : string; request : Request }.

(** Repository methods run against the log of requests sent so far. *)
Definition Http (X : Type) : Type := list Sent -> X * list Sent.

Definition ret {X : Type} (x : X) : Http X := fun log => (x, log).

Definition seq {X Y : Type} (m : Http X) (k : X -> Http Y) : Http Y :=
  fun log => let (x, log') := m log in k x log'.

Declare Scope http_scope.
Delimit Scope http_scope with http.
Notation "x <~ m ;; k" := (seq m (fun x => k))
  (at level 61, m at next level, right associativity) : http_scope.

Module HttpBase.

(** The object [queryParams] returns: the three values a list route
    takes. *)
Record PagedQuery : Type := {
  pageSize : Z;
  id : option string;
  ordering : Order
}.

Definition defaultQuery : PagedQuery :=
  {| pageSize := 10; id := None; ordering := ASC |}.

(** Modelled from the spec: [Http.queryParams] of
    [src/infrastructure/Http.ts], not among the sources. Section 3:
    "PagedQuery: {pageSize, id, ordering} with fixed defaults when
    unspecified (pageSize default 10, ordering default ascending, id
    absent => no cursor)"; section 4.3: "when an optional PagedQuery is
    not supplied, the normalizer substitutes the fixed defaults". It reads
    nothing of the request log and issues nothing. *)
Definition queryParams (queryParams : option QueryParams) : Http PagedQuery :=
  match queryParams with
  | Some q => ret {| pageSize := qp_pageSize q; id := qp_id q;
                     ordering := qp_order q |}
  | None => ret defaultQuery
  end.

(** Modelled from the spec: [Http.transactionFilter]; section 4.3 "applies
    default pagination/filter parameters": no filter, no type restriction. *)
Definition transactionFilter (filter : option TransactionFilter)
  : Http (option (list Z)) :=
  ret (option_map tf_types filter).

(** Modelled from the spec: [Http.call] of [src/infrastructure/Http.ts].
    Section 4.3: "given a pending request and a mapping function, produce
    a single asynchronous outcome ... Side effects: exactly one outbound
    request per invocation (no implicit retry at this layer)". The
    request is the argument expression of [this.call(...)] (for instance
    [this.call(this.accountRoutesApi.getAccountInfo(address.plain()), ...)],
    AccountHttp.ts line 62), so it is issued when the repository method is
    invoked; the returned observable is bound to that one pending request,
    identified by its position in the log. The mapping function is applied
    to the response body when it arrives; the mapping functions are kept
    apart ([toAccountInfo], [toBlockInfo], [toNamespaceInfo], ...). *)
Definition call (remoteCall : Sent) : Http nat :=
  fun log => (length log, (log ++ [remoteCall])%list).

End HttpBase.

(** [PublicAccount] ([src/model/account/PublicAccount.ts]) is not among the
    sources and the spec does not describe it. The mapping functions call
    [PublicAccount.createFromPublicKey(publicKey, networkType)], which returns
    an account or throws; they are embedded over any such class, given as a
    parameter: the type of its accounts and its constructor. *)
Module PublicAccount.

Record Class : Type := {
  t : Type;
  createFromPublicKey : string -> Z -> result DecodeError t
}.

End PublicAccount.

(** [AccountHttp] (AccountHttp.ts). *)
Module AccountHttp.
Import HttpBase.

(** The account wire object, and the model object [toAccountInfo] builds. *)
Record AccountKeyDTO : Type := { keyType : Z; key : string }.

Record ActivityBucketDTO : Type := {
  bucket_startHeight : string;
  bucket_totalFeesPaid : string;
  bucket_beneficiaryCount : Z;
  bucket_rawScore : string
}.

Record MosaicDTO : Type := { mosaic_id : string; mosaic_amount : string }.

Record AccountDTO : Type := {
  dto_address : string;
  dto_addressHeight : string;
  dto_publicKey : string;
  dto_publicKeyHeight : string;
  dto_accountType : Z;
  dto_supplementalAccountKeys : list AccountKeyDTO;
  dto_activityBuckets : list ActivityBucketDTO;
  dto_mosaics : list MosaicDTO;
  dto_importance : string;
  dto_importanceHeight : string
}.

Record AccountInfoDTO : Type := { account : AccountDTO }.

Record AccountKey : Type := { accountKey_keyType : Z; accountKey_key : string }.

Record ActivityBucket : Type := {
  startHeight : UInt64.t;
  totalFeesPaid : UInt64.t;
  beneficiaryCount : Z;
  rawScore : UInt64.t
}.

Record Mosaic : Type := { id : MosaicId.t; amount : UInt64.t }.

Record AccountInfo : Type := {
  address : Address.t;
  addressHeight : UInt64.t;
  publicKey : string;
  publicKeyHeight : UInt64.t;
  accountType : Z;
  supplementalAccountKeys : list AccountKey;
  activityBucket : list ActivityBucket;
  mosaics : list Mosaic;
  importance : UInt64.t;
  importanceHeight : UInt64.t
}.

(** [toAccountInfo] (lines 83-103): the constructor arguments are
    evaluated in order, the first that throws ends the mapping. *)
Definition toAccountInfo (dto : AccountInfoDTO) : result DecodeError AccountInfo :=
  (address_ <- Address.createFromEncoded (dto_address (account dto)) ;;
   addressHeight_ <- UInt64.fromNumericString (dto_addressHeight (account dto)) ;;
   publicKeyHeight_ <- UInt64.fromNumericString (dto_publicKeyHeight (account dto)) ;;
   buckets <- mapM (fun bucket =>
                      startHeight_ <- UInt64.fromNumericString (bucket_startHeight bucket) ;;
                      totalFeesPaid_ <- UInt64.fromNumericString (bucket_totalFeesPaid bucket) ;;
                      rawScore_ <- UInt64.fromNumericString (bucket_rawScore bucket) ;;
                      Ok {| startHeight := startHeight_;
                            totalFeesPaid := totalFeesPaid_;
                            beneficiaryCount := bucket_beneficiaryCount bucket;
                            rawScore := rawScore_ |})
                   (dto_activityBuckets (account dto)) ;;
   mosaics_ <- mapM (fun mosaicDTO =>
                       id_ <- MosaicId.create (Some (mosaic_id mosaicDTO)) ;;
                       amount_ <- UInt64.fromNumericString (mosaic_amount mosaicDTO) ;;
                       Ok {| id := id_; amount := amount_ |})
                    (dto_mosaics (account dto)) ;;
   importance_ <- UInt64.fromNumericString (dto_importance (account dto)) ;;
   importanceHeight_ <- UInt64.fromNumericString (dto_importanceHeight (account dto)) ;;
   Ok {| address := address_;
         addressHeight := addressHeight_;
         publicKey := dto_publicKey (account dto);
         publicKeyHeight := publicKeyHeight_;
         accountType := dto_accountType (account dto);
         supplementalAccountKeys :=
           map (fun key_ => {| accountKey_keyType := keyType key_;
                               accountKey_key := key key_ |})
               (dto_supplementalAccountKeys (account dto));
         activityBucket := buckets;
         mosaics := mosaics_;
         importance := importance_;
         importanceHeight := importanceHeight_ |})%result.

(** The repository object: its route API is bound to the node URL. *)
Record t : Type := mk { accountRoutesApi : string }.

Definition new (url : string) : t := mk url.

Definition getAccountInfo (this : t) (address_ : Address.t) : Http nat :=
  call {| basePath := accountRoutesApi this;
          request := AccountInfoRequest (Address.plain address_) |}.

Definition getAccountsInfo (this : t) (addresses : list Address.t) : Http nat :=
  call {| basePath := accountRoutesApi this;
          request := AccountsInfoRequest (map Address.plain addresses) |}.

(** The five transaction listings differ in the route only (lines 112-228). *)
Definition accountTransactions (route : ListRoute) (this : t)
    (address_ : Address.t) (queryParams_ : option QueryParams)
    (transactionFilter_ : option TransactionFilter) : Http nat :=
  (p1 <~ queryParams queryParams_ ;;
   p2 <~ queryParams queryParams_ ;;
   p3 <~ queryParams queryParams_ ;;
   f <~ transactionFilter transactionFilter_ ;;
   call {| basePath := accountRoutesApi this;
           request := ListRequest route (Address.plain address_)
                        (pageSize p1) (HttpBase.id p2) (ordering p3) f |})%http.

Definition getAccountTransactions :=
  accountTransactions AccountRoutesApi_getAccountConfirmedTransactions.
Definition getAccountIncomingTransactions :=
  accountTransactions AccountRoutesApi_getAccountIncomingTransactions.
Definition getAccountOutgoingTransactions :=
  accountTransactions AccountRoutesApi_getAccountOutgoingTransactions.
Definition getAccountUnconfirmedTransactions :=
  accountTransactions AccountRoutesApi_getAccountUnconfirmedTransactions.
Definition getAccountPartialTransactions :=
  accountTransactions AccountRoutesApi_getAccountPartialTransactions.

(** The public methods as data, for schedules of calls. *)
Inductive Method : Type :=
| GetAccountInfo (address : Address.t)
| GetAccountsInfo (addresses : list Address.t)
| GetTransactions (route : ListRoute) (address : Address.t)
                  (queryParams : option QueryParams)
                  (transactionFilter : option TransactionFilter).

Definition invoke (this : t) (m : Method) : Http nat :=
  match m with
  | GetAccountInfo a => getAccountInfo this a
  | GetAccountsInfo l => getAccountsInfo this l
  | GetTransactions r a q f => accountTransactions r this a q f
  end.

End AccountHttp.

(** [BlockHttp] (BlockHttp.ts). *)
Module BlockHttp.
Import HttpBase.

Record t : Type := mk { blockRoutesApi : string }.

Definition new (url : string) : t := mk url.

(** The block wire object, and the model object [toBlockInfo] builds. *)
Record BlockMetaDTO : Type := {
  meta_hash : string;
  meta_generationHash : string;
  meta_totalFee : string;
  meta_stateHashSubCacheMerkleRoots : list string;
  meta_numTransactions : Z;
  meta_numStatements : option Z
}.

Record BlockDTO : Type := {
  block_signature : string;
  block_signerPublicKey : string;
  block_network : Z;
  block_version : Z;
  block_type : Z;
  block_height : string;
  block_timestamp : string;
  block_difficulty : string;
  block_feeMultiplier : Z;
  block_previousBlockHash : string;
  block_transactionsHash : string;
  block_receiptsHash : string;
  block_stateHash : string;
  block_proofGamma : string;
  block_proofScalar : string;
  block_proofVerificationHash : string;
  block_beneficiaryPublicKey : option string
}.

Record BlockInfoDTO : Type := { meta : BlockMetaDTO; block : BlockDTO }.

Section Mapping.
Context {PublicAccount_ : PublicAccount.Class}.

Record BlockInfo : Type := {
  hash : string;
  generationHash : string;
  totalFee : UInt64.t;
  stateHashSubCacheMerkleRoots : list string;
  numTransactions : Z;
  signature : string;
  signer : PublicAccount.t PublicAccount_;
  networkType : Z;
  version : Z;
  type : Z;
  height : UInt64.t;
  timestamp : UInt64.t;
  difficulty : UInt64.t;
  feeMultiplier : Z;
  previousBlockHash : string;
  blockTransactionsHash : string;
  blockReceiptsHash : string;
  stateHash : string;
  proofGamma : string;
  proofScalar : string;
  proofVerificationHash : string;
  beneficiaryPublicKey : option (PublicAccount.t PublicAccount_);
  numStatements : option Z
}.

(** [toBlockInfo] (lines 101-128): the arguments of [new BlockInfo(...)] are
    evaluated in the order they are written, and the first that throws ends
    the mapping: the total fee (line 106), the signer (line 110), the height,
    the timestamp and the difficulty (lines 114-116), the beneficiary (line
    125), which is only built from a key that is there and not empty. *)
Definition toBlockInfo (dto : BlockInfoDTO) : result DecodeError BlockInfo :=
  let networkType_ := block_network (block dto) in
  (totalFee_ <- UInt64.fromNumericString (meta_totalFee (meta dto)) ;;
   signer_ <- PublicAccount.createFromPublicKey PublicAccount_
                (block_signerPublicKey (block dto)) networkType_ ;;
   height_ <- UInt64.fromNumericString (block_height (block dto)) ;;
   timestamp_ <- UInt64.fromNumericString (block_timestamp (block dto)) ;;
   difficulty_ <- UInt64.fromNumericString (block_difficulty (block dto)) ;;
   beneficiary_ <- match block_beneficiaryPublicKey (block dto) with
                   | Some k =>
                       if truthy (Some k)
                       then fmap Some
                              (PublicAccount.createFromPublicKey PublicAccount_
                                 k networkType_)
                       else Ok None
                   | None => Ok None
                   end ;;
   Ok {| hash := meta_hash (meta dto);
         generationHash := meta_generationHash (meta dto);
         totalFee := totalFee_;
         stateHashSubCacheMerkleRoots :=
           meta_stateHashSubCacheMerkleRoots (meta dto);
         numTransactions := meta_numTransactions (meta dto);
         signature := block_signature (block dto);
         signer := signer_;
         networkType := networkType_;
         version := block_version (block dto);
         type := block_type (block dto);
         height := height_;
         timestamp := timestamp_;
         difficulty := difficulty_;
         feeMultiplier := block_feeMultiplier (block dto);
         previousBlockHash := block_previousBlockHash (block dto);
         blockTransactionsHash := block_transactionsHash (block dto);
         blockReceiptsHash := block_receiptsHash (block dto);
         stateHash := block_stateHash (block dto);
         proofGamma := block_proofGamma (block dto);
         proofScalar := block_proofScalar (block dto);
         proofVerificationHash := block_proofVerificationHash (block dto);
         beneficiaryPublicKey := beneficiary_;
         numStatements := meta_numStatements (meta dto) |})%result.

End Mapping.

Arguments BlockInfo : clear implicits.
Arguments toBlockInfo : clear implicits.

Definition getBlockByHeight (this : t) (height_ : UInt64.t) : Http nat :=
  call {| basePath := blockRoutesApi this;
          request := BlockByHeightRequest (UInt64.toString height_) |}.

Definition getBlockTransactions (this : t) (height_ : UInt64.t)
    (queryParams_ : option QueryParams) : Http nat :=
  (p1 <~ queryParams queryParams_ ;;
   p2 <~ queryParams queryParams_ ;;
   p3 <~ queryParams queryParams_ ;;
   call {| basePath := blockRoutesApi this;
           request := ListRequest BlockRoutesApi_getBlockTransactions
                        (UInt64.toString height_)
                        (pageSize p1) (id p2) (ordering p3) None |})%http.

Definition getBlocksByHeightWithLimit (this : t) (height_ : UInt64.t)
    (limit : Z) : Http nat :=
  call {| basePath := blockRoutesApi this;
          request := BlocksByHeightWithLimitRequest
                       (UInt64.toString height_) limit |}.

Definition getMerkleTransaction (this : t) (height_ : UInt64.t)
    (hash_ : string) : Http nat :=
  call {| basePath := blockRoutesApi this;
          request := MerkleTransactionRequest (UInt64.toString height_) hash_ |}.

Inductive Method : Type :=
| GetBlockByHeight (height : UInt64.t)
| GetBlockTransactions (height : UInt64.t) (queryParams : option QueryParams)
| GetBlocksByHeightWithLimit (height : UInt64.t) (limit : Z)
| GetMerkleTransaction (height : UInt64.t) (hash : string).

Definition invoke (this : t) (m : Method) : Http nat :=
  match m with
  | GetBlockByHeight h => getBlockByHeight this h
  | GetBlockTransactions h q => getBlockTransactions this h q
  | GetBlocksByHeightWithLimit h l => getBlocksByHeightWithLimit this h l
  | GetMerkleTransaction h x => getMerkleTransaction this h x
  end.

End BlockHttp.

(* ================================================================= *)
(** ** Observables

    The rxjs operators the factory uses, as state machines: [of],
    [ReplaySubject] and [shareReplay(1)] over the observable [Http.call]
    returns. Subscribers are numbered in the order they subscribe; what
    each one is handed is recorded as a delivery. *)

(** A normalized failure: what a subscriber's error callback receives. *)
Definition Failure : Type := string.

Section Rx.

Variable T : Type.

Inductive Notification : Type :=
| Next (value : T)
| Error (err : Failure)
| Complete.

(** The promise behind a pending request. *)
Inductive Promise : Type :=
| Pending
| Fulfilled (value : T)
| Rejected (reason : Failure).

Definition Delivery : Type := (nat * Notification)%type.

Definition notifyAll (observers : list nat) (n : Notification) : list Delivery :=
  map (fun o => (o, n)) observers.

Record ReplaySubject : Type := {
  events : list T;
  observers : list nat;
  isStopped : bool;
  thrownError : option Failure
}.

Definition newReplaySubject : ReplaySubject :=
  {| events := []; observers := []; isStopped := false; thrownError := None |}.

Definition trimBuffer (bufferSize : nat) (l : list T) : list T :=
  skipn (length l - bufferSize) l.

(** [ReplaySubject._subscribe]: replay the buffer, then the terminal
    notification if the subject has stopped, else join the observers. *)
Definition subject_subscribe (s : ReplaySubject) (subscriber : nat)
  : ReplaySubject * list Delivery :=
  let replay := map (fun v => (subscriber, Next v)) (events s) in
  match thrownError s with
  | Some err => (s, (replay ++ [(subscriber, Error err)])%list)
  | None =>
      if isStopped s then (s, (replay ++ [(subscriber, Complete)])%list)
      else ({| events := events s;
               observers := (observers s ++ [subscriber])%list;
               isStopped := false;
               thrownError := None |}, replay)
  end.

Definition subject_next (bufferSize : nat) (s : ReplaySubject) (v : T)
  : ReplaySubject * list Delivery :=
  if isStopped s then (s, [])
  else ({| events := trimBuffer bufferSize (events s ++ [v]);
           observers := observers s;
           isStopped := false;
           thrownError := thrownError s |},
        notifyAll (observers s) (Next v)).

Definition subject_error (s : ReplaySubject) (err : Failure)
  : ReplaySubject * list Delivery :=
  if isStopped s then (s, [])
  else ({| events := events s; observers := [];
           isStopped := true; thrownError := Some err |},
        notifyAll (observers s) (Error err)).

Definition subject_complete (s : ReplaySubject)
  : ReplaySubject * list Delivery :=
  if isStopped s then (s, [])
  else ({| events := events s; observers := [];
           isStopped := true; thrownError := thrownError s |},
        notifyAll (observers s) Complete).

(** The closure of one [shareReplay(1)] operator. [subscription] tells
    whether its subscription to the source is still open. Consumers do not
    unsubscribe here: with [shareReplay(1)] the reference count is not used
    to close the source. *)
Record ShareReplay : Type := {
  subject : option ReplaySubject;
  hasError : bool;
  isComplete : bool;
  refCount : nat;
  subscription : bool
}.

Definition newShareReplay : ShareReplay :=
  {| subject := None; hasError := false; isComplete := false;
     refCount := 0; subscription := false |}.

(** A subscriber arrives: without a subject, or after an error, a fresh
    subject is made and the source is subscribed again; the subscriber
    then subscribes to the subject. *)
Definition shareReplay_subscribe (sr : ShareReplay) (subscriber : nat)
  : ShareReplay * list Delivery :=
  let fresh :=
    match subject sr with
    | None => true
    | Some _ => hasError sr
    end in
  let current :=
    match subject sr with
    | Some s => if hasError sr then newReplaySubject else s
    | None => newReplaySubject
    end in
  let (s', out) := subject_subscribe current subscriber in
  ({| subject := Some s';
      hasError := if fresh then false else hasError sr;
      isComplete := isComplete sr;
      refCount := S (refCount sr);
      subscription := if fresh then true else subscription sr |}, out).

(** The three callbacks the operator hands to its source. *)
Definition source_next (sr : ShareReplay) (v : T) : ShareReplay * list Delivery :=
  match subject sr with
  | None => (sr, [])
  | Some s =>
      let (s', out) := subject_next 1 s v in
      ({| subject := Some s'; hasError := hasError sr;
          isComplete := isComplete sr; refCount := refCount sr;
          subscription := subscription sr |}, out)
  end.

Definition source_error (sr : ShareReplay) (err : Failure)
  : ShareReplay * list Delivery :=
  match subject sr with
  | None => (sr, [])
  | Some s =>
      let (s', out) := subject_error s err in
      ({| subject := Some s'; hasError := true;
          isComplete := isComplete sr; refCount := refCount sr;
          subscription := false |}, out)
  end.

Definition source_complete (sr : ShareReplay) : ShareReplay * list Delivery :=
  match subject sr with
  | None => (sr, [])
  | Some s =>
      let (s', out) := subject_complete s in
      ({| subject := Some s'; hasError := hasError sr;
          isComplete := true; refCount := refCount sr;
          subscription := false |}, out)
  end.

(** The source is the observable of one pending request: when its promise
    has settled, an open subscription is handed the value and the
    completion, or the failure. *)
Definition source_settled (sr : ShareReplay) (p : Promise)
  : ShareReplay * list Delivery :=
  if subscription sr then
    match p with
    | Pending => (sr, [])
    | Fulfilled v =>
        let (sr1, out1) := source_next sr v in
        let (sr2, out2) := source_complete sr1 in
        (sr2, (out1 ++ out2)%list)
    | Rejected err => source_error sr err
    end
  else (sr, []).

(** The two observables the factory can hold for a tracked value:
    [observableOf(v)], or the request's observable piped through
    [shareReplay(1)]. *)
Inductive Observable : Type :=
| observableOf (value : T)
| shareReplay.

(** Everything mutable behind one tracked value. *)
Record Cell : Type := {
  promise : Promise;
  share : ShareReplay;
  subscribers : nat;
  log : list Delivery
}.

Definition newCell : Cell :=
  {| promise := Pending; share := newShareReplay; subscribers := 0; log := [] |}.

Inductive CellEvent : Type :=
| Subscribes                       (* a consumer subscribes *)
| Settles (outcome : Failure + T)  (* the pending request gets its response *)
| Flushes.                         (* promise callbacks run *)

Definition cell_step (o : Observable) (c : Cell) (e : CellEvent)
  : Cell * list Delivery :=
  match o, e with
  | observableOf v, Subscribes =>
      let out := [(subscribers c, Next v); (subscribers c, Complete)] in
      ({| promise := promise c; share := share c;
          subscribers := S (subscribers c); log := (log c ++ out)%list |}, out)
  | observableOf _, _ => (c, [])
  | shareReplay, Subscribes =>
      let (sr, out) := shareReplay_subscribe (share c) (subscribers c) in
      ({| promise := promise c; share := sr;
          subscribers := S (subscribers c); log := (log c ++ out)%list |}, out)
  | shareReplay, Settles outcome =>
      match promise c with
      | Pending =>
          ({| promise := match outcome with
                         | inl err => Rejected err
                         | inr v => Fulfilled v
                         end;
              share := share c; subscribers := subscribers c; log := log c |}, [])
      | _ => (c, [])
      end
  | shareReplay, Flushes =>
      let (sr, out) := source_settled (share c) (promise c) in
      ({| promise := promise c; share := sr;
          subscribers := subscribers c; log := (log c ++ out)%list |}, out)
  end.

(** What one subscriber has been handed, in order. *)
Definition observed (subscriber : nat) (l : list Delivery) : list Notification :=
  map snd (filter (fun d => Nat.eqb (fst d) subscriber) l).

End Rx.

Arguments Next {T} value.
Arguments Error {T} err.
Arguments Complete {T}.
Arguments Pending {T}.
Arguments Fulfilled {T} value.
Arguments Rejected {T} reason.
Arguments observableOf {T} value.
Arguments shareReplay {T}.
Arguments Subscribes {T}.
Arguments Settles {T} outcome.
Arguments Flushes {T}.
Arguments events {T} r.
Arguments observers {T} r.
Arguments isStopped {T} r.
Arguments thrownError {T} r.
Arguments subject {T} s.
Arguments hasError {T} s.
Arguments isComplete {T} s.
Arguments refCount {T} s.
Arguments subscription {T} s.
Arguments promise {T} c.
Arguments share {T} c.
Arguments subscribers {T} c.
Arguments log {T} c.
Arguments cell_step {T} o c e.
Arguments observed {T} subscriber l.
Arguments newCell {T}.
Arguments notifyAll {T} observers n.
Arguments newReplaySubject {T}.
Arguments trimBuffer {T} bufferSize l.
Arguments subject_subscribe {T} s subscriber.
Arguments subject_next {T} bufferSize s v.
Arguments subject_error {T} s err.
Arguments subject_complete {T} s.
Arguments newShareReplay {T}.
Arguments shareReplay_subscribe {T} sr subscriber.
Arguments source_next {T} sr v.
Arguments source_error {T} sr err.
Arguments source_complete {T} sr.
Arguments source_settled {T} sr p.

(** [NetworkType] is a numeric enum; its members are non-zero codes. *)
Definition NetworkType : Type := Z.

(** [NamespaceHttp] (NamespaceHttp.ts). *)
Module NamespaceHttp.
Import HttpBase.

(** The repository object. Modelled from the spec:
    [Http.createNetworkTypeObservable], not among the sources, which the
    constructor calls on its argument: handed the factory's observable it
    keeps that very observable (section 4.5: "the same Context Resolver
    instance, by shared ownership, not by copy"). *)
Record t : Type := mk {
  namespaceRoutesApi : string;
  networkTypeObservable : Observable NetworkType
}.

Definition new (url : string) (networkType : Observable NetworkType) : t :=
  mk url networkType.

(** [extractAlias] (NamespaceHttp.ts lines 287-294). *)
Definition extractAlias (namespace : NamespaceDTO) : result DecodeError Alias :=
  match alias namespace with
  | Some a =>
      if alias_type a =? AliasType.Mosaic then
        fmap MosaicAlias (MosaicId.create (alias_mosaicId a))
      else if alias_type a =? AliasType.Address then
        fmap AddressAlias
             (encoded <- requirePayload (alias_address a) ;;
              Address.createFromEncoded encoded)%result
      else Ok EmptyAlias
  | None => Ok EmptyAlias
  end.

(** [extractLevels] (lines 266-278): the levels that are set, in order. *)
Definition extractLevels (namespace : NamespaceDTO)
  : result DecodeError (list NamespaceId.t) :=
  (r0 <- (if truthy (Some (level0 namespace))
          then fmap (fun i => [i]) (NamespaceId.createFromEncoded (level0 namespace))
          else Ok []) ;;
   r1 <- (match level1 namespace with
          | Some l => if truthy (Some l)
                      then fmap (fun i => (r0 ++ [i])%list)
                                (NamespaceId.createFromEncoded l)
                      else Ok r0
          | None => Ok r0
          end) ;;
   match level2 namespace with
   | Some l => if truthy (Some l)
               then fmap (fun i => (r1 ++ [i])%list)
                         (NamespaceId.createFromEncoded l)
               else Ok r1
   | None => Ok r1
   end)%result.

Section Mapping.
Context {PublicAccount_ : PublicAccount.Class}.

Record NamespaceInfo : Type := {
  active : bool;
  index : Z;
  metaId : string;
  info_registrationType : Z;
  info_depth : Z;
  levels : list NamespaceId.t;
  info_parentId : NamespaceId.t;
  owner : PublicAccount.t PublicAccount_;
  info_startHeight : UInt64.t;
  info_endHeight : UInt64.t;
  info_alias : Alias
}.

(** [toNamespaceInfo] (lines 250-264); reading a field of an absent
    [namespace] is a [TypeError]. The arguments of [new NamespaceInfo(...)]
    are evaluated in the order they are written, and the first that throws
    ends the mapping: the levels (line 257), the parent identifier (line
    258), the owner (line 259), the two heights (lines 260-261), the alias
    (line 262). *)
Definition toNamespaceInfo (dto : NamespaceInfoDTO) (networkType : NetworkType)
  : result Thrown NamespaceInfo :=
  match namespace dto with
  | None => Throw ThrownTypeError
  | Some ns =>
      decoded
        (levels_ <- extractLevels ns ;;
         parentId_ <- NamespaceId.createFromEncoded (parentId ns) ;;
         owner_ <- PublicAccount.createFromPublicKey PublicAccount_
                     (ownerPublicKey ns) networkType ;;
         startHeight_ <- UInt64.fromNumericString (startHeight ns) ;;
         endHeight_ <- UInt64.fromNumericString (endHeight ns) ;;
         alias_ <- extractAlias ns ;;
         Ok {| active := meta_active (meta dto);
               index := meta_index (meta dto);
               metaId := meta_id (meta dto);
               info_registrationType := registrationType ns;
               info_depth := depth ns;
               levels := levels_;
               info_parentId := parentId_;
               owner := owner_;
               info_startHeight := startHeight_;
               info_endHeight := endHeight_;
               info_alias := alias_ |})%result
  end.

End Mapping.

Arguments NamespaceInfo : clear implicits.
Arguments toNamespaceInfo : clear implicits.

(** The mapping function of [getLinkedMosaicId] (lines 196-210). *)
Definition getLinkedMosaicId_map (body : NamespaceInfoDTO)
  : result Thrown MosaicId.t :=
  let namespaceInfoDTO := body in
  match namespace namespaceInfoDTO with
  | None => Throw (ThrownBody namespaceInfoDTO)
  | Some ns =>
      match alias ns with
      | None => Throw ThrownTypeError
      | Some a =>
          if (alias_type a =? AliasType.None)
             || negb (alias_type a =? AliasType.Mosaic)
             || negb (truthy (alias_mosaicId a))
          then Throw (ThrownError
                 ("No mosaicId is linked to namespace '" ++ level0 ns ++ "'"))
          else decoded (MosaicId.create (alias_mosaicId a))
      end
  end.

(** The mapping function of [getLinkedAddress] (lines 223-240). *)
Definition getLinkedAddress_map (body : NamespaceInfoDTO)
  : result Thrown Address.t :=
  let namespaceInfoDTO := body in
  match namespace namespaceInfoDTO with
  | None => Throw (ThrownBody namespaceInfoDTO)
  | Some ns =>
      match alias ns with
      | None => Throw ThrownTypeError
      | Some a =>
          if (alias_type a =? AliasType.None)
             || negb (alias_type a =? AliasType.Address)
             || negb (truthy (alias_address a))
          then Throw (ThrownError
                 ("No address is linked to namespace '" ++ level0 ns ++ "'"))
          else
            decoded
              (addressDecoded <- requirePayload (alias_address a) ;;
               decodedBytes <- Convert.hexToUint8 addressDecoded ;;
               address <- RawAddress.addressToString decodedBytes ;;
               Address.createFromRawAddress address)%result
      end
  end.

(** The methods that first await the network type
    ([this.networkTypeObservable.pipe(mergeMap(...))]), as data. *)
Inductive Method : Type :=
| GetNamespace (namespaceId : string)
| GetNamespacesFromAccount (address : Address.t)
                           (queryParams : option QueryParams)
| GetNamespacesFromAccounts (addresses : list Address.t)
| GetLinkedMosaicId (namespaceId : string)
| GetLinkedAddress (namespaceId : string).

(** The function each of them gives to [mergeMap]: the call made once
    the network type has arrived. *)
Definition onNetworkType (this : t) (m : Method) : Http nat :=
  match m with
  | GetNamespace namespaceId
  | GetLinkedMosaicId namespaceId
  | GetLinkedAddress namespaceId =>
      call {| basePath := namespaceRoutesApi this;
              request := NamespaceRequest namespaceId |}
  | GetNamespacesFromAccount address queryParams_ =>
      (p1 <~ queryParams queryParams_ ;;
       p2 <~ queryParams queryParams_ ;;
       p3 <~ queryParams queryParams_ ;;
       call {| basePath := namespaceRoutesApi this;
               request := ListRequest
                            NamespaceRoutesApi_getNamespacesFromAccount
                            (Address.plain address)
                            (pageSize p1) (id p2) (ordering p3) None |})%http
  | GetNamespacesFromAccounts addresses =>
      call {| basePath := namespaceRoutesApi this;
              request := NamespacesFromAccountsRequest
                           (map Address.plain addresses) |}
  end.

End NamespaceHttp.

(* ================================================================= *)
(** ** The repository factory *)

Module RepositoryFactoryHttp.

Record RepositoryFactoryConfig : Type := {
  cfg_networkType : option NetworkType;
  cfg_generationHash : option string;
  cfg_websocketUrl : option string;
  cfg_websocketInjected : option string
}.

Record t : Type := mk {
  url : string;
  networkType : Observable NetworkType;
  generationHash : Observable string;
  websocketUrl : string;
  websocketInjected : option string
}.

(** The mutable world a factory lives in: the requests sent, the state
    behind its two tracked values, and the [mergeMap] continuations of
    namespace calls that wait for the network type. *)
Record State : Type := {
  requests : list Sent;
  networkTypeCell : Cell NetworkType;
  generationHashCell : Cell string;
  waiting : list (nat * NamespaceHttp.Method)
}.

(** [c ? yes(c) : no] on an optional number and on an optional string:
    [undefined], zero and the empty string are falsy. *)
Definition ifNumber {X : Type} (c : option Z) (yes : Z -> X) (no : X) : X :=
  match c with
  | Some n => if n =? 0 then no else yes n
  | None => no
  end.

Definition ifString {X : Type} (c : option string) (yes : string -> X) (no : X) : X :=
  match c with
  | Some s => if truthy (Some s) then yes s else no
  | None => no
  end.

(** [configs?.field] *)
Definition optional {X : Type} (configs : option RepositoryFactoryConfig)
    (field : RepositoryFactoryConfig -> option X) : option X :=
  match configs with
  | Some c => field c
  | None => None
  end.

Fixpoint stripTrailingSlash (s : string) : string :=
  match s with
  | EmptyString => EmptyString
  | String "/" EmptyString => EmptyString
  | String c s' => String c (stripTrailingSlash s')
  end.

(** Modelled from the spec: [NetworkHttp.getNetworkType] and
    [NodeHttp.getNodeInfo], not among the sources: one [Http.call] each,
    to the "network-identity endpoint returning a network type code" and
    to the "node-info endpoint returning a generation-hash field"
    (section 6). *)
Definition NetworkHttp_getNetworkType (url : string) : Http nat :=
  HttpBase.call {| basePath := url; request := NetworkIdentityRequest |}.

Definition NodeHttp_getNodeInfo (url : string) : Http nat :=
  HttpBase.call {| basePath := url; request := NodeInfoRequest |}.

(** The constructor (lines 362-375), run against a request log. *)
Definition new (url_ : string) (configs : option RepositoryFactoryConfig)
  : Http t :=
  (networkType_ <~
     ifNumber (optional configs cfg_networkType)
       (fun n => ret (observableOf n))
       (_ <~ NetworkHttp_getNetworkType url_ ;; ret shareReplay) ;;
   generationHash_ <~
     ifString (optional configs cfg_generationHash)
       (fun h => ret (observableOf h))
       (_ <~ NodeHttp_getNodeInfo url_ ;; ret shareReplay) ;;
   ret {| url := url_;
          networkType := networkType_;
          generationHash := generationHash_;
          websocketUrl :=
            ifString (optional configs cfg_websocketUrl)
              (fun w => w) (stripTrailingSlash url_ ++ "/ws");
          websocketInjected := optional configs cfg_websocketInjected |})%http.

Definition initial (url_ : string) (configs : option RepositoryFactoryConfig)
  : t * State :=
  let (f, sent) := new url_ configs [] in
  (f, {| requests := sent; networkTypeCell := newCell;
         generationHashCell := newCell; waiting := [] |}).

Definition createAccountRepository (this : t) : AccountHttp.t :=
  AccountHttp.new (url this).

Definition createBlockRepository (this : t) : BlockHttp.t :=
  BlockHttp.new (url this).

Definition createNamespaceRepository (this : t) : NamespaceHttp.t :=
  NamespaceHttp.new (url this) (networkType this).

Definition getGenerationHash (this : t) : Observable string :=
  generationHash this.

Definition getNetworkType (this : t) : Observable NetworkType :=
  networkType this.

(** What callers and the environment can do, one event at a time. *)
Inductive Event : Type :=
| SubscribeNetworkType
    (* [getNetworkType().subscribe(...)] *)
| SubscribeGenerationHash
    (* [getGenerationHash().subscribe(...)] *)
| NamespaceCall (m : NamespaceHttp.Method)
    (* a method of [createNamespaceRepository()] is called and subscribed *)
| AccountCall (m : AccountHttp.Method)
    (* a method of [createAccountRepository()] is called *)
| BlockCall (m : BlockHttp.Method)
    (* a method of [createBlockRepository()] is called *)
| NetworkIdentityResponse (outcome : Failure + NetworkType)
    (* the network-identity request gets its response *)
| NodeInfoResponse (outcome : Failure + string)
    (* the node-info request gets its response *)
| Microtask.
    (* the promise callbacks that are due run *)

Fixpoint lookup (subscriber : nat) (l : list (nat * NamespaceHttp.Method))
  : option NamespaceHttp.Method :=
  match l with
  | [] => None
  | (k, m) :: l' => if Nat.eqb k subscriber then Some m else lookup subscriber l'
  end.

(** [mergeMap]: every value handed to a waiting namespace call makes
    that call. *)
Definition mergeMap (this : t) (waiting_ : list (nat * NamespaceHttp.Method))
    (out : list (Delivery NetworkType)) (sent : list Sent) : list Sent :=
  fold_left
    (fun sent d =>
       match d with
       | (subscriber, Next _) =>
           match lookup subscriber waiting_ with
           | Some m =>
               snd (NamespaceHttp.onNetworkType
                      (createNamespaceRepository this) m sent)
           | None => sent
           end
       | _ => sent
       end)
    out sent.

Definition networkTypeEvent (e : Event) : option (CellEvent NetworkType) :=
  match e with
  | SubscribeNetworkType | NamespaceCall _ => Some Subscribes
  | NetworkIdentityResponse outcome => Some (Settles outcome)
  | Microtask => Some Flushes
  | _ => None
  end.

Definition generationHashEvent (e : Event) : option (CellEvent string) :=
  match e with
  | SubscribeGenerationHash => Some Subscribes
  | NodeInfoResponse outcome => Some (Settles outcome)
  | Microtask => Some Flushes
  | _ => None
  end.

Definition step (this : t) (s : State) (e : Event) : State :=
  let waiting_ :=
    match e with
    | NamespaceCall m =>
        ((subscribers (networkTypeCell s), m) :: waiting s)
    | _ => waiting s
    end in
  let observable :=
    match e with
    | NamespaceCall _ =>
        NamespaceHttp.networkTypeObservable (createNamespaceRepository this)
    | _ => getNetworkType this
    end in
  let (nt, out) :=
    match networkTypeEvent e with
    | Some ce => cell_step observable (networkTypeCell s) ce
    | None => (networkTypeCell s, [])
    end in
  let gh :=
    match generationHashEvent e with
    | Some ce => fst (cell_step (getGenerationHash this) (generationHashCell s) ce)
    | None => generationHashCell s
    end in
  let sent :=
    match e with
    | AccountCall m =>
        snd (AccountHttp.invoke (createAccountRepository this) m (requests s))
    | BlockCall m =>
        snd (BlockHttp.invoke (createBlockRepository this) m (requests s))
    | _ => requests s
    end in
  {| requests := mergeMap this waiting_ out sent;
     networkTypeCell := nt;
     generationHashCell := gh;
     waiting := waiting_ |}.

Definition run (this : t) (s : State) (es : list Event) : State :=
  fold_left (step this) es s.

(** How many times the network-identity endpoint was called. *)
Definition networkIdentityFetches (s : State) : nat :=
  length (filter (fun r => isNetworkIdentity (request r)) (requests s)).

End RepositoryFactoryHttp.

(* ================================================================= *)
(** ** Invariants of a tracked value *)

Section RxInvariants.

Context {T : Type}.
Implicit Types (c : Cell T) (n : Notification T).

(** A delivery agrees with the settled promise. *)
Definition agrees (p : Promise T) n : Prop :=
  match n with
  | Next v => p = Fulfilled v
  | Error e => p = Rejected e
  | Complete => exists v, p = Fulfilled v
  end.

(** A subscriber is either still attached to the open subject, or has
    been handed the value and the completion, or the failure. *)
Definition attached c k : Prop :=
  exists s, subject (share c) = Some s /\ In k (observers s) /\
            subscription (share c) = true.

Definition served c k : Prop :=
  (observed k (log c) = [] /\ attached c k) \/
  (exists v, promise c = Fulfilled v /\ observed k (log c) = [Next v; Complete]) \/
  (exists e, promise c = Rejected e /\ observed k (log c) = [Error e]).

Definition subject_ok c : Prop :=
  match subject (share c) with
  | None => subscribers c = 0%nat /\ subscription (share c) = false
  | Some s =>
      NoDup (observers s) /\
      (forall k, In k (observers s) ->
                 (k < subscribers c)%nat /\ observed k (log c) = []) /\
      (isStopped s = false ->
         events s = [] /\ thrownError s = None /\
         subscription (share c) = true /\ hasError (share c) = false) /\
      (isStopped s = true ->
         observers s = [] /\ subscription (share c) = false /\
         match thrownError s with
         | Some e => promise c = Rejected e /\ hasError (share c) = true /\
                     events s = []
         | None => exists v, promise c = Fulfilled v /\ events s = [v] /\
                             hasError (share c) = false
         end)
  end.

Record shared_inv c : Prop := {
  inv_log : forall k n, In (k, n) (log c) ->
                        (k < subscribers c)%nat /\ agrees (promise c) n;
  inv_served : forall k, (k < subscribers c)%nat -> served c k;
  inv_subject : subject_ok c
}.

(** A subscriber that is no longer attached has been handed everything. *)
Definition delivered (p : Promise T) (l : list (Delivery T)) (k : nat) : Prop :=
  (exists v, p = Fulfilled v /\ observed k l = [Next v; Complete]) \/
  (exists e, p = Rejected e /\ observed k l = [Error e]).

(** The value-holding observable hands every subscriber the value and the
    completion at once. *)
Record of_inv (v : T) c : Prop := {
  of_log : forall k n, In (k, n) (log c) ->
                       (k < subscribers c)%nat /\ (n = Next v \/ n = Complete);
  of_served : forall k, (k < subscribers c)%nat ->
                        observed k (log c) = [Next v; Complete]
}.

End RxInvariants.

(** A repository method that never calls the network-identity endpoint. *)
Definition quiet {X : Type} (m : Http X) : Prop :=
  forall sent,
    filter (fun r => isNetworkIdentity (request r)) (snd (m sent))
    = filter (fun r => isNetworkIdentity (request r)) sent.

(** The events of a schedule that subscribe to the network type, directly
    or through a namespace call. *)
Definition subscriptions (es : list RepositoryFactoryHttp.Event) : nat :=
  length (filter (fun e =>
                    match e with
                    | RepositoryFactoryHttp.SubscribeNetworkType
                    | RepositoryFactoryHttp.NamespaceCall _ => true
                    | _ => false
                    end) es).

(* ================================================================= *)
(** ** Sample wire objects *)

(** A root namespace as the node returns it, with the given alias object. *)
Definition namespaceWith (alias_ : option AliasDTO) : NamespaceDTO :=
  {| registrationType := 0;
     depth := 1;
     level0 := "85BBEA6CC462B244";
     level1 := None;
     level2 := None;
     alias := alias_;
     parentId := "0000000000000000";
     ownerPublicKey :=
       "7B631D803F912B00DC0CBED3014BBD17A302BA50B99D233B9C2D9533B842ABDF";
     startHeight := "1";
     endHeight := "18446744073709551615" |}.

Definition responseWith (namespace_ : option NamespaceDTO) : NamespaceInfoDTO :=
  {| meta := {| meta_active := true; meta_index := 0;
                meta_id := "5E1F2C1B3A4D5E6F70819203" |};
     namespace := namespace_ |}.


(* ================================================================= *)
(** ** Further parts of the factory and of the repositories *)

(** [createListener] (RepositoryFactoryHttp, lines 437-439): the listener is
    given the websocket URL, a namespace repository of this factory and the
    injected transport. *)
Record Listener : Type := {
  listener_url : string;
  listener_namespaceRepository : NamespaceHttp.t;
  listener_websocketInjected : option string
}.

Definition createListener (this : RepositoryFactoryHttp.t) : Listener :=
  {| listener_url := RepositoryFactoryHttp.websocketUrl this;
     listener_namespaceRepository :=
       RepositoryFactoryHttp.createNamespaceRepository this;
     listener_websocketInjected :=
       RepositoryFactoryHttp.websocketInjected this |}.

(** Kinds of requests. *)
Definition isNodeInfo (r : Request) : bool :=
  match r with
  | NodeInfoRequest => true
  | _ => false
  end.

Definition isNamespaceRoute (r : Request) : bool :=
  match r with
  | NamespaceRequest _
  | NamespacesFromAccountsRequest _
  | ListRequest NamespaceRoutesApi_getNamespacesFromAccount _ _ _ _ _ => true
  | _ => false
  end.

Definition nodeInfoFetches (s : RepositoryFactoryHttp.State) : nat :=
  length (filter (fun r => isNodeInfo (request r))
                 (RepositoryFactoryHttp.requests s)).

Definition namespaceRequests (s : RepositoryFactoryHttp.State) : nat :=
  length (filter (fun r => isNamespaceRoute (request r))
                 (RepositoryFactoryHttp.requests s)).

(** Kinds of events. *)
Definition isNamespaceCall (e : RepositoryFactoryHttp.Event) : bool :=
  match e with
  | RepositoryFactoryHttp.NamespaceCall _ => true
  | _ => false
  end.

Definition namespaceCalls (es : list RepositoryFactoryHttp.Event) : nat :=
  length (filter isNamespaceCall es).

Definition generationHashSubscriptions
    (es : list RepositoryFactoryHttp.Event) : nat :=
  length (filter (fun e =>
                    match e with
                    | RepositoryFactoryHttp.SubscribeGenerationHash => true
                    | _ => false
                    end) es).

(** The events that reach the network type: subscriptions, the response
    and the callback rounds. *)
Definition concernsNetworkType (e : RepositoryFactoryHttp.Event) : bool :=
  match RepositoryFactoryHttp.networkTypeEvent e with
  | Some _ => true
  | None => false
  end.

(** What a subscriber of an observable of one value may have been handed:
    nothing yet, the value and the completion, or a failure. *)
Definition wellFormed {T : Type} (l : list (Notification T)) : Prop :=
  l = [] \/ (exists v, l = [Next v; Complete]) \/ (exists e, l = [Error e]).

(** A delivery that makes a waiting namespace call send its request. *)
Definition triggers (waiting_ : list (nat * NamespaceHttp.Method))
    (d : Delivery NetworkType) : bool :=
  match d with
  | (subscriber, Next _) =>
      match RepositoryFactoryHttp.lookup subscriber waiting_ with
      | Some _ => true
      | None => false
      end
  | _ => false
  end.

Definition isNextFor (subscriber : nat) (d : Delivery NetworkType) : bool :=
  match d with
  | (k, Next _) => Nat.eqb k subscriber
  | _ => false
  end.

Fixpoint endsWithSlash (s : string) : bool :=
  match s with
  | EmptyString => false
  | String "/" EmptyString => true
  | String _ s' => endsWithSlash s'
  end.

(** The levels of a namespace that are set, in order. *)
Definition setLevels (namespace : NamespaceDTO) : list string :=
  ((if truthy (Some (level0 namespace)) then [level0 namespace] else []) ++
   (if truthy (level1 namespace)
    then match level1 namespace with Some l => [l] | None => [] end else []) ++
   (if truthy (level2 namespace)
    then match level2 namespace with Some l => [l] | None => [] end else []))%list.

(** The routes of the account repository, and the schedules in which every
    account call is one of the repository's five listings (or a plain
    account read). *)
Definition accountRoute (route : ListRoute) : bool :=
  match route with
  | AccountRoutesApi_getAccountConfirmedTransactions
  | AccountRoutesApi_getAccountIncomingTransactions
  | AccountRoutesApi_getAccountOutgoingTransactions
  | AccountRoutesApi_getAccountUnconfirmedTransactions
  | AccountRoutesApi_getAccountPartialTransactions => true
  | _ => false
  end.

Definition wellRouted (e : RepositoryFactoryHttp.Event) : bool :=
  match e with
  | RepositoryFactoryHttp.AccountCall (AccountHttp.GetTransactions route _ _ _) =>
      accountRoute route
  | _ => true
  end.

(** The namespace calls waiting for the network type after an event. *)
Definition step_waiting (s : RepositoryFactoryHttp.State)
    (e : RepositoryFactoryHttp.Event) : list (nat * NamespaceHttp.Method) :=
  match e with
  | RepositoryFactoryHttp.NamespaceCall m =>
      (subscribers (RepositoryFactoryHttp.networkTypeCell s), m)
        :: RepositoryFactoryHttp.waiting s
  | _ => RepositoryFactoryHttp.waiting s
  end.

Definition isNext {T : Type} (n : Notification T) : bool :=
  match n with
  | Next _ => true
  | _ => false
  end.


(** An account and a block as the node returns them. *)
Definition accountWith (mosaics_ : list AccountHttp.MosaicDTO)
  : AccountHttp.AccountInfoDTO :=
  {| AccountHttp.account :=
       {| AccountHttp.dto_address :=
            "90E23316635AC41F7C7C3BCC8620EF6CA388A633F8DC135B38";
          AccountHttp.dto_addressHeight := "1";
          AccountHttp.dto_publicKey :=
            "7B631D803F912B00DC0CBED3014BBD17A302BA50B99D233B9C2D9533B842ABDF";
          AccountHttp.dto_publicKeyHeight := "13";
          AccountHttp.dto_accountType := 0;
          AccountHttp.dto_supplementalAccountKeys := [];
          AccountHttp.dto_activityBuckets := [];
          AccountHttp.dto_mosaics := mosaics_;
          AccountHttp.dto_importance := "0";
          AccountHttp.dto_importanceHeight := "0" |} |}.

Definition blockWith (beneficiary : option string) : BlockHttp.BlockInfoDTO :=
  {| BlockHttp.meta :=
       {| BlockHttp.meta_hash :=
            "8B1B0C4D2F7E6A5948372615F4E3D2C1B0A99887766554433221100FFEEDDCCB";
          BlockHttp.meta_generationHash :=
            "57F7DA205008026C776CB6AED843393F04CD458E0AA2D9F1D5F31A402072B2D6";
          BlockHttp.meta_totalFee := "0";
          BlockHttp.meta_stateHashSubCacheMerkleRoots := [];
          BlockHttp.meta_numTransactions := 25;
          BlockHttp.meta_numStatements := None |};
     BlockHttp.block :=
       {| BlockHttp.block_signature := "";
          BlockHttp.block_signerPublicKey :=
            "7B631D803F912B00DC0CBED3014BBD17A302BA50B99D233B9C2D9533B842ABDF";
          BlockHttp.block_network := 152;
          BlockHttp.block_version := 1;
          BlockHttp.block_type := 32835;
          BlockHttp.block_height := "1";
          BlockHttp.block_timestamp := "0";
          BlockHttp.block_difficulty := "100000000000000";
          BlockHttp.block_feeMultiplier := 0;
          BlockHttp.block_previousBlockHash := "";
          BlockHttp.block_transactionsHash := "";
          BlockHttp.block_receiptsHash := "";
          BlockHttp.block_stateHash := "";
          BlockHttp.block_proofGamma := "";
          BlockHttp.block_proofScalar := "";
          BlockHttp.block_proofVerificationHash := "";
          BlockHttp.block_beneficiaryPublicKey := beneficiary |} |}.

(** A class of public accounts for the concrete inputs: an account is the
    key with its network type, and a key is accepted when it has 64
    characters. The theorems hold for every class. *)
Definition keyedAccount : PublicAccount.Class :=
  {| PublicAccount.t := string * Z;
     PublicAccount.createFromPublicKey := fun publicKey networkType =>
       if (String.length publicKey =? 64)%nat
       then Ok (publicKey, networkType)
       else Throw MalformedValue |}.
(* ================================================================= *)
(** * Proofs *)

(** ** UInt64 *)

Lemma UInt64_compact_fromUint (n : Z) :
  UInt64.compact (UInt64.fromUint n) = n.
Proof.
  unfold UInt64.compact, UInt64.fromUint; cbn [UInt64.lower UInt64.higher].
  pose proof (Z.div_mod n UInt64.two32) as H.
  assert (UInt64.two32 <> 0) by (unfold UInt64.two32; lia).
  specialize (H ltac:(assumption)). lia.
Qed.

Lemma uint_of_string_canonical (s : string) (d : uint) :
  NilEmpty.uint_of_string s = Some d ->
  UInt64.isEmpty s = false ->
  UInt64.leadingZero s = false ->
  unorm d = d.
Proof.
  destruct s as [|c s]; cbn [UInt64.isEmpty]; [discriminate|].
  intros Hd _ Hz. cbn [NilEmpty.uint_of_string] in Hd.
  destruct (NilEmpty.uint_of_string s) as [d'|] eqn:Hs.
  2:{ unfold uint_of_char in Hd.
      destruct c as [[] [] [] [] [] [] [] []]; discriminate. }
  assert (Hc : c = "0"%char \/ c <> "0"%char).
  { destruct (ascii_dec c "0"%char); auto. }
  destruct Hc as [-> | Hc].
  - cbn in Hd. injection Hd as <-.
    destruct s as [|c' s']; cbn in Hz; [|discriminate].
    cbn in Hs. injection Hs as <-. reflexivity.
  - unfold uint_of_char in Hd.
    destruct c as [[] [] [] [] [] [] [] []]; cbn in Hd;
      try discriminate; try (exfalso; apply Hc; reflexivity);
      injection Hd as <-; reflexivity.
Qed.

Lemma UInt64_roundtrip (s : string) (u : UInt64.t) :
  UInt64.fromNumericString s = Ok u -> UInt64.toString u = s.
Proof.
  unfold UInt64.fromNumericString.
  destruct (NilEmpty.uint_of_string s) as [d|] eqn:Hd; [|discriminate].
  destruct (UInt64.isEmpty s || UInt64.leadingZero s) eqn:Hc; [discriminate|].
  apply orb_false_iff in Hc as [He Hz].
  destruct (Z.of_N (N.of_uint d) <? UInt64.two64)%Z; [|discriminate].
  intros [= <-]. unfold UInt64.toString, UInt64.decimal.
  rewrite UInt64_compact_fromUint, N2Z.id, DecimalN.Unsigned.to_of.
  rewrite (uint_of_string_canonical s d Hd He Hz).
  apply NilEmpty.sus in Hd. exact Hd.
Qed.

Lemma string_of_canonical_uint (d : uint) :
  unorm d = d ->
  UInt64.isEmpty (NilEmpty.string_of_uint d) = false /\
  UInt64.leadingZero (NilEmpty.string_of_uint d) = false.
Proof.
  destruct d as [|d|d|d|d|d|d|d|d|d|d]; cbn; intros H; try (split; reflexivity).
  - discriminate.
  - unfold unorm in H. cbn [nzhead] in H.
    destruct (nzhead d) eqn:Hn; try (exfalso; eapply nzhead_nonzero; rewrite Hn; exact H).
    injection H as <-. split; reflexivity.
Qed.

Lemma UInt64_decimal_accepted (n : Z) :
  0 <= n < UInt64.two64 ->
  UInt64.fromNumericString (UInt64.decimal n) = Ok (UInt64.fromUint n).
Proof.
  intros Hn. unfold UInt64.fromNumericString, UInt64.decimal.
  rewrite NilEmpty.usu.
  assert (Hc : unorm (N.to_uint (Z.to_N n)) = N.to_uint (Z.to_N n)).
  { rewrite <- DecimalN.Unsigned.to_of, DecimalN.Unsigned.of_to. reflexivity. }
  destruct (string_of_canonical_uint _ Hc) as [-> ->]. cbn [orb].
  rewrite DecimalN.Unsigned.of_to, Z2N.id by lia.
  destruct (Z.ltb_spec n UInt64.two64); [reflexivity | lia].
Qed.

Lemma UInt64_accepted_is_decimal (s : string) (u : UInt64.t) :
  UInt64.fromNumericString s = Ok u ->
  exists n, 0 <= n < UInt64.two64 /\ s = UInt64.decimal n /\ u = UInt64.fromUint n.
Proof.
  intros H. pose proof (UInt64_roundtrip s u H) as Hr. revert H.
  unfold UInt64.fromNumericString.
  destruct (NilEmpty.uint_of_string s) as [d|]; [|discriminate].
  destruct (UInt64.isEmpty s || UInt64.leadingZero s); [discriminate|].
  destruct (Z.ltb_spec (Z.of_N (N.of_uint d)) UInt64.two64) as [Hlt|]; [|discriminate].
  intros [= <-]. exists (Z.of_N (N.of_uint d)). repeat split; try lia; auto.
  rewrite <- Hr. unfold UInt64.toString. now rewrite UInt64_compact_fromUint.
Qed.

(** C6. Encoding what [fromNumericString] decoded gives back the identical
    string; the decimal numeral of every integer in [0, 2^64) is accepted
    and decodes to that integer split into two 32-bit words; every other
    string (not a numeral, superfluous leading zero, out of the 64-bit
    range) is rejected with [MalformedValue]. *)
Theorem C6_uint64_decimal_roundtrip :
  (forall n, 0 <= n < UInt64.two64 ->
     UInt64.fromNumericString (UInt64.decimal n) = Ok (UInt64.fromUint n) /\
     fmap UInt64.toString (UInt64.fromNumericString (UInt64.decimal n))
       = Ok (UInt64.decimal n) /\
     0 <= UInt64.lower (UInt64.fromUint n) < UInt64.two32 /\
     0 <= UInt64.higher (UInt64.fromUint n) < UInt64.two32) /\
  (forall s u, UInt64.fromNumericString s = Ok u -> UInt64.toString u = s) /\
  (forall s, (forall n, 0 <= n < UInt64.two64 -> s <> UInt64.decimal n) ->
     UInt64.fromNumericString s = Throw MalformedValue).
Proof.
  split; [|split].
  - intros n Hn. rewrite (UInt64_decimal_accepted n Hn). split; [reflexivity|].
    split.
    + cbn. unfold UInt64.toString. now rewrite UInt64_compact_fromUint.
    + unfold UInt64.fromUint, UInt64.two32, UInt64.two64 in *.
      cbn [UInt64.lower UInt64.higher].
      split; [apply Z.mod_pos_bound; lia|].
      split; [apply Z.div_pos; lia | apply Z.div_lt_upper_bound; lia].
  - exact UInt64_roundtrip.
  - intros s Hs. destruct (UInt64.fromNumericString s) as [u|e] eqn:H.
    + destruct (UInt64_accepted_is_decimal s u H) as (n & Hn & -> & _).
      exfalso. exact (Hs n Hn eq_refl).
    + destruct e; [reflexivity|]. exfalso. revert H.
      unfold UInt64.fromNumericString.
      destruct (NilEmpty.uint_of_string s); [|discriminate].
      destruct (UInt64.isEmpty s || UInt64.leadingZero s); [discriminate|].
      destruct (_ <? _); discriminate.
Qed.

Example C6_examples :
  UInt64.fromNumericString "18446744073709551615"
    = Ok (UInt64.mk 4294967295 4294967295) /\
  UInt64.toString (UInt64.mk 4294967295 4294967295) = "18446744073709551615" /\
  UInt64.fromNumericString "18446744073709551616" = Throw MalformedValue /\
  UInt64.fromNumericString "007" = Throw MalformedValue /\
  UInt64.fromNumericString "-1" = Throw MalformedValue /\
  UInt64.fromNumericString "" = Throw MalformedValue /\
  UInt64.fromNumericString "0" = Ok (UInt64.mk 0 0).
Proof. vm_compute. repeat split. Qed.

(** The numeric fields of a block and of an account are decoded with
    [fromNumericString]: a mapped object gives back the wire strings. *)
Lemma toBlockInfo_numeric_fields (PublicAccount_ : PublicAccount.Class)
    (dto : BlockHttp.BlockInfoDTO)
    (info : BlockHttp.BlockInfo PublicAccount_) :
  BlockHttp.toBlockInfo PublicAccount_ dto = Ok info ->
  UInt64.toString (BlockHttp.totalFee info)
    = BlockHttp.meta_totalFee (BlockHttp.meta dto) /\
  UInt64.toString (BlockHttp.height info)
    = BlockHttp.block_height (BlockHttp.block dto) /\
  UInt64.toString (BlockHttp.timestamp info)
    = BlockHttp.block_timestamp (BlockHttp.block dto) /\
  UInt64.toString (BlockHttp.difficulty info)
    = BlockHttp.block_difficulty (BlockHttp.block dto).
Proof.
  unfold BlockHttp.toBlockInfo, bind.
  destruct (UInt64.fromNumericString (BlockHttp.meta_totalFee _)) eqn:H1;
    [|discriminate].
  destruct (PublicAccount.createFromPublicKey _ _ _); [|discriminate].
  destruct (UInt64.fromNumericString (BlockHttp.block_height _)) eqn:H2;
    [|discriminate].
  destruct (UInt64.fromNumericString (BlockHttp.block_timestamp _)) eqn:H3;
    [|discriminate].
  destruct (UInt64.fromNumericString (BlockHttp.block_difficulty _)) eqn:H4;
    [|discriminate].
  destruct (match BlockHttp.block_beneficiaryPublicKey _ with
            | Some _ => _ | None => _ end); [|discriminate].
  intros [= <-]. cbn. auto using UInt64_roundtrip.
Qed.

Lemma toAccountInfo_numeric_fields (dto : AccountHttp.AccountInfoDTO)
    (info : AccountHttp.AccountInfo) :
  AccountHttp.toAccountInfo dto = Ok info ->
  UInt64.toString (AccountHttp.addressHeight info)
    = AccountHttp.dto_addressHeight (AccountHttp.account dto) /\
  UInt64.toString (AccountHttp.publicKeyHeight info)
    = AccountHttp.dto_publicKeyHeight (AccountHttp.account dto) /\
  UInt64.toString (AccountHttp.importance info)
    = AccountHttp.dto_importance (AccountHttp.account dto) /\
  UInt64.toString (AccountHttp.importanceHeight info)
    = AccountHttp.dto_importanceHeight (AccountHttp.account dto).
Proof.
  unfold AccountHttp.toAccountInfo, bind.
  destruct (Address.createFromEncoded _); [|discriminate].
  destruct (UInt64.fromNumericString (AccountHttp.dto_addressHeight _)) eqn:H1;
    [|discriminate].
  destruct (UInt64.fromNumericString (AccountHttp.dto_publicKeyHeight _)) eqn:H2;
    [|discriminate].
  destruct (mapM _ (AccountHttp.dto_activityBuckets _)); [|discriminate].
  destruct (mapM _ (AccountHttp.dto_mosaics _)); [|discriminate].
  destruct (UInt64.fromNumericString (AccountHttp.dto_importance _)) eqn:H3;
    [|discriminate].
  destruct (UInt64.fromNumericString (AccountHttp.dto_importanceHeight _)) eqn:H4;
    [|discriminate].
  intros [= <-]. cbn. auto using UInt64_roundtrip.
Qed.

(** ** Chunking *)

Lemma chunks_cons {A : Type} (k : nat) (x : A) (l : list A) :
  chunks (S k) (x :: l) = (x :: firstn k l) :: chunks (S k) (skipn k l).
Proof. now simp chunks. Qed.

Lemma chunks_nil {A : Type} (k : nat) : chunks k (@nil A) = [].
Proof. now simp chunks. Qed.

Lemma chunks_exact {A : Type} (k m : nat) :
  forall l : list A,
    length l = (m * S k)%nat ->
    Forall (fun c => length c = S k) (chunks (S k) l) /\
    length (chunks (S k) l) = m /\
    concat (chunks (S k) l) = l.
Proof.
  induction m as [|m IH]; intros l Hl.
  - destruct l; [|discriminate]. rewrite chunks_nil. repeat split. constructor.
  - destruct l as [|x l]; [discriminate|].
    cbn in Hl. injection Hl as Hl. rewrite chunks_cons.
    destruct (IH (skipn k l)) as (Hall & Hlen & Hcat).
    { rewrite length_skipn. lia. }
    split; [|split].
    + constructor; [|exact Hall]. cbn. rewrite length_firstn. lia.
    + cbn. now rewrite Hlen.
    + cbn. rewrite Hcat, firstn_skipn. reflexivity.
Qed.

Lemma chunks_of_concat {A : Type} (k : nat) (qs : list (list A)) :
  Forall (fun q => length q = S k) qs ->
  chunks (S k) (concat qs) = qs.
Proof.
  induction 1 as [|q qs Hq _ IH]; [apply chunks_nil|].
  destruct q as [|x q]; [discriminate|]. cbn in Hq. injection Hq as Hq.
  change (concat ((x :: q) :: qs)) with (x :: (q ++ concat qs)).
  rewrite chunks_cons.
  rewrite firstn_app, skipn_app, Hq, Nat.sub_diag.
  rewrite <- Hq at 1 3. rewrite firstn_all, skipn_all.
  cbn. rewrite List.app_nil_r, IH. reflexivity.
Qed.

Lemma length_concat_uniform {A : Type} (k : nat) (qs : list (list A)) :
  Forall (fun q => length q = k) qs ->
  length (concat qs) = (length qs * k)%nat.
Proof.
  induction 1 as [|q qs Hq _ IH]; [reflexivity|].
  cbn. rewrite length_app, IH, Hq. reflexivity.
Qed.

Lemma mapM_Ok {E A B : Type} (f : A -> result E B) :
  forall l bs, mapM f l = Ok bs -> Forall2 (fun a b => f a = Ok b) l bs.
Proof.
  induction l as [|a l IH]; cbn; intros bs H.
  - injection H as <-. constructor.
  - destruct (f a) as [b|] eqn:Hf; [|discriminate].
    destruct (mapM f l) as [bs'|]; [|discriminate].
    injection H as <-. constructor; auto.
Qed.

(** ** Bytes, hexadecimal and base-32 digits *)

Lemma bits_byte_bits (b : byte) : bits_byte (byte_bits b) = b.
Proof. destruct b; reflexivity. Qed.

Lemma byte_bits_byte (l : list bool) :
  length l = 8%nat -> byte_bits (bits_byte l) = l.
Proof.
  do 9 (destruct l as [|? l]; try discriminate). intros _.
  repeat match goal with b : bool |- _ => destruct b end; reflexivity.
Qed.

Lemma hex_byte_roundtrip (b : byte) (rest : string) :
  Convert.hexToUint8
    (String (Convert.hexDigit (Byte.to_N b / 16))
       (String (Convert.hexDigit (Byte.to_N b mod 16)) rest))
  = match Convert.hexToUint8 rest with
    | Ok bs => Ok (b :: bs)
    | Throw _ => Throw MalformedValue
    end.
Proof. destruct b; reflexivity. Qed.

Lemma hexToUint8_uint8ToHex (bs : list byte) :
  Convert.hexToUint8 (Convert.uint8ToHex bs) = Ok bs.
Proof.
  induction bs as [|b bs IH]; [reflexivity|].
  cbn [Convert.uint8ToHex]. rewrite hex_byte_roundtrip, IH. reflexivity.
Qed.

Lemma decodeChar_sound (c : ascii) (q : list bool) :
  Base32.decodeChar c = Ok q ->
  length q = 5%nat /\ Base32.encodeChar q = c /\
  Address.upperChar c = c /\ Ascii.eqb c "-" = false.
Proof.
  destruct c as [b0 b1 b2 b3 b4 b5 b6 b7].
  destruct b0, b1, b2, b3, b4, b5, b6, b7; vm_compute;
    intros H; try discriminate H; injection H as <-; repeat split.
Qed.

Lemma string_length_list (s : string) :
  String.length s = length (list_ascii_of_string s).
Proof. induction s; cbn; congruence. Qed.

Lemma normalised_fixpoint (s : string) :
  Forall (fun c => Address.upperChar c = c /\ Ascii.eqb c "-" = false)
         (list_ascii_of_string s) ->
  Address.removeDashes (Address.toUpperCase s) = s.
Proof.
  induction s as [|c s IH]; cbn; intros H; [reflexivity|].
  inversion H as [|? ? [Hu Hd] Hrest]; subst.
  rewrite Hu, Hd, IH; auto.
Qed.

Lemma Base32_decoded_chars (chars : list ascii) (qs : list (list bool)) :
  Forall2 (fun c q => Base32.decodeChar c = Ok q) chars qs ->
  Forall (fun q => length q = 5%nat) qs /\
  map Base32.encodeChar qs = chars /\
  Forall (fun c => Address.upperChar c = c /\ Ascii.eqb c "-" = false) chars.
Proof.
  induction 1 as [|c q chars qs Hc _ IH].
  - repeat split; constructor.
  - destruct (decodeChar_sound c q Hc) as (Hlen & Henc & Hup & Hdash).
    destruct IH as (IH1 & IH2 & IH3).
    split; [|split];
      [constructor; auto | cbn [map]; rewrite Henc, IH2; reflexivity | constructor; auto].
Qed.

Lemma flat_map_byte_bits (cs : list (list bool)) :
  Forall (fun c => length c = 8%nat) cs ->
  flat_map byte_bits (map bits_byte cs) = concat cs.
Proof.
  induction 1 as [|c cs Hc _ IH]; [reflexivity|].
  cbn [map flat_map concat]. rewrite (byte_bits_byte c Hc), IH. reflexivity.
Qed.

Lemma Base32Encode_Base32Decode (p : string) (bs : list byte) :
  Base32.Base32Decode p = Ok bs ->
  Base32.Base32Encode bs = Ok p /\
  Address.removeDashes (Address.toUpperCase p) = p /\
  (length bs * 8 = String.length p * 5)%nat.
Proof.
  unfold Base32.Base32Decode, Base32.Base32Encode.
  destruct (Nat.eqb_spec (length (list_ascii_of_string p) mod 8) 0) as [Hm|];
    [|discriminate].
  destruct (mapM Base32.decodeChar (list_ascii_of_string p)) as [qs|] eqn:Hq;
    [|discriminate].
  cbn [bind]. intros [= <-].
  apply mapM_Ok in Hq.
  pose proof (Forall2_length Hq) as Hlen.
  destruct (Base32_decoded_chars _ _ Hq) as (Hfive & Henc & Hnorm).
  apply Nat.Div0.div_exact in Hm.
  set (m := (length (list_ascii_of_string p) / 8)%nat) in *.
  pose proof (length_concat_uniform 5 qs Hfive) as Hcat.
  destruct (chunks_exact 7 (5 * m) (concat qs)) as (Height & Hn & Hc).
  { lia. }
  rewrite length_map, Hn.
  replace ((5 * m) mod 5)%nat with 0%nat
    by (symmetry; rewrite Nat.mul_comm; apply Nat.Div0.mod_mul).
  cbn [Nat.eqb].
  rewrite (flat_map_byte_bits _ Height), Hc, (chunks_of_concat 4 qs Hfive), Henc.
  rewrite string_of_list_ascii_of_string.
  repeat split.
  - apply normalised_fixpoint, Hnorm.
  - rewrite string_length_list. lia.
Qed.

(** ** Addresses *)

Lemma createFromEncoded_encoded (p : string) (bs : list byte) :
  RawAddress.stringToAddress p = Ok bs ->
  Address.createFromEncoded (Convert.uint8ToHex bs) = Ok (Address.mk p).
Proof.
  intros Hp. pose proof Hp as Hdec. unfold RawAddress.stringToAddress in Hdec.
  destruct (Nat.eqb_spec (String.length p) RawAddress.addressEncoded) as [Hl|];
    [|discriminate].
  destruct (Base32Encode_Base32Decode p bs Hdec) as (Henc & Hnorm & Hlen).
  unfold Address.createFromEncoded.
  rewrite hexToUint8_uint8ToHex. cbn [bind].
  unfold RawAddress.addressToString.
  replace (length bs =? RawAddress.addressDecoded)%nat with true
    by (symmetry; apply Nat.eqb_eq;
        unfold RawAddress.addressDecoded, RawAddress.addressEncoded in *; lia).
  rewrite Henc. cbn [bind].
  unfold Address.createFromRawAddress. rewrite Hnorm, Hp. reflexivity.
Qed.

(** C7. Every raw address that [createFromRawAddress] decodes is recovered from
    its encoded (hexadecimal) form: decoding the encoded form of the decoded
    raw address yields the same canonical address value, and a raw form that
    is rejected is rejected with the same error along the whole chain. *)
Theorem C7_address_forms_agree (rawAddress : string) :
  (a <- Address.createFromRawAddress rawAddress ;;
   e <- Address.encoded a ;;
   Address.createFromEncoded e)%result
  = Address.createFromRawAddress rawAddress.
Proof.
  unfold Address.createFromRawAddress.
  set (p := Address.removeDashes (Address.toUpperCase rawAddress)).
  destruct (RawAddress.stringToAddress p) as [bs|e] eqn:Hp; [|reflexivity].
  cbn [bind]. unfold Address.encoded, fmap.
  cbn [Address.address]. rewrite Hp. cbn [bind].
  apply createFromEncoded_encoded, Hp.
Qed.

Example C7_examples :
  Address.createFromRawAddress "sdrdgf-tdllcb-67d4hp-gimihp-nsryrj-rt7dob-gwzy"
    = Ok (Address.mk "SDRDGFTDLLCB67D4HPGIMIHPNSRYRJRT7DOBGWZY") /\
  Address.encoded (Address.mk "SDRDGFTDLLCB67D4HPGIMIHPNSRYRJRT7DOBGWZY")
    = Ok "90E23316635AC41F7C7C3BCC8620EF6CA388A633F8DC135B38" /\
  Address.createFromEncoded "90E23316635AC41F7C7C3BCC8620EF6CA388A633F8DC135B38"
    = Ok (Address.mk "SDRDGFTDLLCB67D4HPGIMIHPNSRYRJRT7DOBGWZY") /\
  Address.createFromRawAddress "SDRDGF" = Throw MalformedValue.
Proof. vm_compute. repeat split. Qed.

(** ** Observables: what subscribers of a shared value are handed *)

Section RxFacts.

Context {T : Type}.
Implicit Types (c : Cell T) (l : list (Delivery T)) (n : Notification T).

Lemma observed_app k l1 l2 :
  observed k (l1 ++ l2) = (observed k l1 ++ observed k l2)%list.
Proof. unfold observed. now rewrite filter_app, map_app. Qed.

Lemma observed_notifyAll_out k obs n :
  ~ In k obs -> observed k (notifyAll obs n) = [].
Proof.
  induction obs as [|o obs IH]; [reflexivity|]. intros Hk.
  unfold observed, notifyAll in *. cbn.
  destruct (Nat.eqb_spec o k) as [->|_].
  - exfalso. apply Hk. now left.
  - apply IH. intros H. apply Hk. now right.
Qed.

Lemma observed_notifyAll_in k obs n :
  NoDup obs -> In k obs -> observed k (notifyAll obs n) = [n].
Proof.
  induction 1 as [|o obs Ho Hnd IH]; [intros []|]. intros Hk.
  change (notifyAll (o :: obs) n) with ([(o, n)] ++ notifyAll obs n)%list.
  rewrite observed_app. unfold observed at 1. cbn.
  destruct (Nat.eqb_spec o k) as [->|Hne].
  - now rewrite (observed_notifyAll_out _ _ n Ho).
  - destruct Hk as [Hk|Hk]; [contradiction|]. now apply IH.
Qed.

Lemma observed_none k l :
  (forall n, ~ In (k, n) l) -> observed k l = [].
Proof.
  induction l as [|[k' n'] l IH]; [reflexivity|]. intros H.
  unfold observed in *. cbn.
  destruct (Nat.eqb_spec k' k) as [->|_].
  - exfalso. apply (H n'). now left.
  - apply IH. intros n Hn. apply (H n). now right.
Qed.

Lemma in_notifyAll k n obs n' :
  In (k, n) (notifyAll obs n') -> In k obs /\ n = n'.
Proof.
  unfold notifyAll. rewrite in_map_iff. intros (o & [= <- <-] & Ho). auto.
Qed.

Lemma shared_inv_new : shared_inv (@newCell T).
Proof.
  split; cbn.
  - intros k n [].
  - intros k Hk. lia.
  - split; reflexivity.
Qed.

Lemma observed_fresh c :
  shared_inv c -> observed (subscribers c) (log c) = [].
Proof.
  intros I. apply observed_none. intros n Hn.
  apply (inv_log c I) in Hn. lia.
Qed.

End RxFacts.

Arguments observed : simpl never.
Arguments notifyAll : simpl never.

Section RxSteps.
Context {T : Type}.
Implicit Types (c : Cell T).

Lemma served_detached c k :
  served c k -> subscription (share c) = false -> delivered (promise c) (log c) k.
Proof.
  intros [[_ (s & _ & _ & Hs)]|H] Hsub; [congruence | exact H].
Qed.

(** The cell right after a subscriber made the operator subscribe to its
    source again. *)
Lemma fresh_subject_inv (p : Promise T) ic rc m (L : list (Delivery T)) :
  (forall k n, In (k, n) L -> (k < m)%nat /\ agrees p n) ->
  (forall k, (k < m)%nat -> delivered p L k) ->
  shared_inv
    {| promise := p;
       share := {| subject := Some {| events := []; observers := [m];
                                      isStopped := false; thrownError := None |};
                   hasError := false; isComplete := ic; refCount := rc;
                   subscription := true |};
       subscribers := S m;
       log := L |}.
Proof.
  intros Hlog Hdel.
  assert (Hfresh : observed m L = []).
  { apply observed_none. intros n Hn. apply Hlog in Hn. lia. }
  split; cbn.
  - intros k n Hn. apply Hlog in Hn. intuition lia.
  - intros k Hk. destruct (Nat.eq_dec k m) as [->|Hne].
    + left. split; [exact Hfresh|]. eexists. cbn. repeat split. now left.
    + right. apply Hdel. lia.
  - unfold subject_ok. cbn. repeat split.
    + constructor; [intros []|constructor].
    + destruct H as [<-|[]]. lia.
    + destruct H as [<-|[]]. exact Hfresh.
    + discriminate.
    + discriminate.
    + discriminate.
Qed.

Lemma observed_other k (L out : list (Delivery T)) :
  (forall n, ~ In (k, n) out) -> observed k (L ++ out) = observed k L.
Proof.
  intros H. now rewrite observed_app, (observed_none k out H), List.app_nil_r.
Qed.

Lemma observed_replay m (v : T) :
  observed m [(m, Next v); (m, Complete)] = [Next v; Complete].
Proof. unfold observed. cbn. now rewrite Nat.eqb_refl. Qed.

Lemma inv_subscribes c :
  shared_inv c -> shared_inv (fst (cell_step shareReplay c Subscribes)).
Proof.
  intros I. pose proof (observed_fresh c I) as Hfresh.
  pose proof (served_detached c) as Hdet.
  destruct I as [Hlog Hserved Hsubj].
  destruct c as [p [subj he ic rc sub] m L].
  unfold subject_ok in Hsubj. cbn in *.
  unfold shareReplay_subscribe, subject_subscribe, newReplaySubject; cbn.
  destruct subj as [[ev obs st te]|]; cbn in *.
  - destruct Hsubj as (Hnd & Hobs & Hopen & Hstop).
    destruct he.
    + (* after an error: a fresh subject *)
      destruct st; [|destruct (Hopen eq_refl) as (_ & _ & _ & ?); discriminate].
      destruct (Hstop eq_refl) as (-> & -> & Hte).
      cbn. rewrite List.app_nil_r. apply fresh_subject_inv; auto.
    + destruct st.
      * (* the subject has completed: replay *)
        destruct (Hstop eq_refl) as (-> & -> & Hte).
        destruct te as [e|]; [destruct Hte as (_ & ? & _); discriminate|].
        destruct Hte as (v & -> & -> & _). cbn.
        split; cbn.
        -- intros k n Hn. apply in_app_or in Hn as [Hn|Hn].
           ++ apply Hlog in Hn. intuition lia.
           ++ destruct Hn as [[= <- <-]|[[= <- <-]|[]]]; cbn; eauto.
        -- intros k Hk. right. left. exists v. split; [reflexivity|]. cbn.
           destruct (Nat.eq_dec k m) as [->|Hne].
           ++ now rewrite observed_app, Hfresh, observed_replay.
           ++ rewrite observed_other.
              ** destruct (Hdet k (Hserved k ltac:(lia)) eq_refl)
                   as [(v' & [= <-] & Ho)|(e & [=] & _)]. exact Ho.
              ** intros n [[= ? ?]|[[= ? ?]|[]]]; congruence.
        -- unfold subject_ok. cbn. repeat split; try discriminate.
           ++ constructor.
           ++ destruct H.
           ++ destruct H.
           ++ exists v. auto.
      * (* the subject is open: join its observers *)
        destruct (Hopen eq_refl) as (-> & -> & -> & _). cbn.
        rewrite List.app_nil_r.
        split; cbn.
        -- intros k n Hn. apply Hlog in Hn. intuition lia.
        -- intros k Hk. destruct (Nat.eq_dec k m) as [->|Hne].
           ++ left. split; [exact Hfresh|]. eexists. cbn. repeat split.
              apply in_or_app. right. now left.
           ++ destruct (Hserved k ltac:(lia)) as [[Ho (s & [= <-] & Hin & _)]|H].
              ** left. split; [exact Ho|]. eexists. cbn. repeat split.
                 apply in_or_app. now left.
              ** right. exact H.
        -- unfold subject_ok. cbn. repeat split; try discriminate.
           ++ apply NoDup_app.
              ** exact Hnd.
              ** constructor; [intros []|constructor].
              ** intros k Hk [<-|[]]. apply Hobs in Hk. lia.
           ++ destruct (in_app_or _ _ _ H) as [H1|[<-|[]]];
                [apply Hobs in H1|]; lia.
           ++ destruct (in_app_or _ _ _ H) as [H1|[<-|[]]];
                [now apply Hobs in H1|exact Hfresh].
  - (* nobody subscribed yet *)
    destruct Hsubj as (-> & ->). cbn. rewrite List.app_nil_r.
    apply fresh_subject_inv; auto; intros k Hk; lia.
Qed.

Lemma inv_settles c outcome :
  shared_inv c -> shared_inv (fst (cell_step shareReplay c (Settles outcome))).
Proof.
  intros [Hlog Hserved Hsubj]. destruct c as [p sr m L]. cbn in *.
  destruct p; cbn; [|split; assumption..].
  assert (Hempty : forall k n, ~ In (k, n) L).
  { intros k n Hn. apply Hlog in Hn as [_ Hn]. destruct n; cbn in Hn;
      [discriminate | discriminate | destruct Hn; discriminate]. }
  split; cbn.
  - intros k n Hn. destruct (Hempty k n Hn).
  - intros k Hk. destruct (Hserved k Hk) as [H|[(v & [=] & _)|(e & [=] & _)]].
    left. exact H.
  - unfold subject_ok in *. cbn in *. destruct (subject sr) as [s|]; [|exact Hsubj].
    destruct Hsubj as (Hnd & Hobs & Hopen & Hstop).
    split; [exact Hnd | split; [exact Hobs | split; [exact Hopen|]]].
    intros Hst. destruct (Hstop Hst) as (_ & _ & Hte).
    destruct (thrownError s);
      [destruct Hte as ([=] & _) | destruct Hte as (? & [=] & _)].
Qed.

Lemma inv_flushes c :
  shared_inv c -> shared_inv (fst (cell_step shareReplay c Flushes)).
Proof.
  intros I. pose proof I as [Hlog Hserved Hsubj].
  destruct c as [p [subj he ic rc sub] m L].
  unfold subject_ok in Hsubj. cbn in *. unfold source_settled. cbn.
  destruct sub; [|cbn; rewrite List.app_nil_r; exact I].
  destruct subj as [[ev obs st te]|]; [|destruct Hsubj; discriminate].
  cbn in Hsubj. destruct Hsubj as (Hnd & Hobs & Hopen & Hstop).
  destruct st; [destruct (Hstop eq_refl) as (_ & ? & _); discriminate|].
  destruct (Hopen eq_refl) as (-> & -> & _ & ->). clear Hopen Hstop.
  destruct p as [|v|e]; cbn.
  - rewrite List.app_nil_r. exact I.
  - (* fulfilled: the value, then the completion *)
    split; cbn.
    + intros k n Hn. apply in_app_or in Hn as [Hn|Hn]; [now apply Hlog|].
      apply in_app_or in Hn as [Hn|Hn]; apply in_notifyAll in Hn as [Hk ->];
        (split; [now apply Hobs | cbn; eauto]).
    + intros k Hk. right. left. exists v. split; [reflexivity|]. cbn [log].
      rewrite !observed_app.
      destruct (Hserved k Hk)
        as [[Ho (s & [= <-] & Hin & _)]|[(v' & [= <-] & Ho)|(e & [=] & _)]];
        cbn in *.
      * now rewrite Ho, !observed_notifyAll_in.
      * rewrite Ho, !observed_notifyAll_out; [reflexivity|..];
          intros Hin; apply Hobs in Hin as [_ Hin]; congruence.
    + unfold subject_ok. cbn.
      split; [constructor | split; [intros k [] | split; [discriminate|]]].
      intros _. repeat split. exists v. auto.
  - (* rejected: the failure *)
    split; cbn.
    + intros k n Hn. apply in_app_or in Hn as [Hn|Hn]; [now apply Hlog|].
      apply in_notifyAll in Hn as [Hk ->]. split; [now apply Hobs | reflexivity].
    + intros k Hk. right. right. exists e. split; [reflexivity|]. cbn [log].
      rewrite !observed_app.
      destruct (Hserved k Hk)
        as [[Ho (s & [= <-] & Hin & _)]|[(v' & [=] & _)|(e' & [= <-] & Ho)]];
        cbn in *.
      * now rewrite Ho, observed_notifyAll_in.
      * rewrite Ho, observed_notifyAll_out; [reflexivity|].
        intros Hin; apply Hobs in Hin as [_ Hin]; congruence.
    + unfold subject_ok. cbn.
      split; [constructor | split; [intros k [] | split; [discriminate|]]].
      intros _. repeat split.
Qed.

Lemma inv_step c e :
  shared_inv c -> shared_inv (fst (cell_step shareReplay c e)).
Proof.
  destruct e; [apply inv_subscribes | apply inv_settles | apply inv_flushes].
Qed.

(** Once the promise has settled and its callbacks have run, nothing is
    left open. *)
Lemma flushed_closed c :
  shared_inv c -> promise c <> Pending ->
  subscription (share (fst (cell_step shareReplay c Flushes))) = false.
Proof.
  intros [_ _ Hsubj] Hp. destruct c as [p [subj he ic rc sub] m L].
  unfold subject_ok in Hsubj. cbn in *. unfold source_settled. cbn.
  destruct sub; [|reflexivity].
  destruct subj as [[ev obs st te]|]; [|destruct Hsubj; discriminate].
  destruct p; [congruence| |]; cbn; destruct st; cbn; try reflexivity;
    cbn in Hsubj; destruct Hsubj as (_ & _ & _ & Hstop);
    destruct (Hstop eq_refl) as (_ & ? & _); discriminate.
Qed.

Lemma flush_promise c e :
  e <> Subscribes ->
  (forall o, e <> Settles o) ->
  promise (fst (cell_step shareReplay c e)) = promise c /\
  subscribers (fst (cell_step shareReplay c e)) = subscribers c.
Proof.
  destruct e as [|o|]; intros H1 H2; [congruence | destruct (H2 o eq_refl) |].
  cbn. destruct (source_settled _ _). split; reflexivity.
Qed.

(** After the response, one round of callbacks leaves every subscriber
    with everything it will ever be handed. *)
Lemma flushed_delivered c k :
  shared_inv c -> promise c <> Pending -> (k < subscribers c)%nat ->
  delivered (promise c) (log (fst (cell_step shareReplay c Flushes))) k.
Proof.
  intros I Hp Hk.
  pose proof (inv_flushes _ I) as I'.
  pose proof (flushed_closed _ I Hp) as Hclosed.
  destruct (flush_promise c Flushes ltac:(discriminate) ltac:(discriminate))
    as [Hpr Hm].
  rewrite <- Hpr. apply served_detached; [|exact Hclosed].
  apply (inv_served _ I'). lia.
Qed.

Lemma of_inv_new v : of_inv v (@newCell T).
Proof. split; cbn; [intros k n [] | intros k Hk; lia]. Qed.

Lemma of_inv_step v c e :
  of_inv v c -> of_inv v (fst (cell_step (observableOf v) c e)).
Proof.
  intros [Hlog Hserved]. destruct e; cbn; [|split; assumption..].
  assert (Hfresh : observed (subscribers c) (log c) = []).
  { apply observed_none. intros n Hn. apply Hlog in Hn. lia. }
  split; cbn.
  - intros k n Hn. apply in_app_or in Hn as [Hn|Hn].
    + apply Hlog in Hn. intuition lia.
    + destruct Hn as [[= <- <-]|[[= <- <-]|[]]]; auto.
  - intros k Hk. destruct (Nat.eq_dec k (subscribers c)) as [->|Hne].
    + now rewrite observed_app, Hfresh, observed_replay.
    + rewrite observed_other; [apply Hserved; lia|].
      intros n [[= ? ?]|[[= ? ?]|[]]]; congruence.
Qed.

End RxSteps.

(** ** The repository factory *)

Import RepositoryFactoryHttp.

Lemma call_quiet (r : Sent) :
  isNetworkIdentity (request r) = false -> quiet (HttpBase.call r).
Proof.
  intros Hr sent. unfold HttpBase.call. cbn.
  rewrite filter_app. cbn. rewrite Hr. apply List.app_nil_r.
Qed.

Lemma queryParams_pure (q : option QueryParams) (sent : list Sent) :
  HttpBase.queryParams q sent
  = (match q with
     | Some q => {| HttpBase.pageSize := qp_pageSize q;
                    HttpBase.id := qp_id q;
                    HttpBase.ordering := qp_order q |}
     | None => HttpBase.defaultQuery
     end, sent).
Proof. destruct q; reflexivity. Qed.

Lemma onNetworkType_quiet (this : NamespaceHttp.t) (m : NamespaceHttp.Method) :
  quiet (NamespaceHttp.onNetworkType this m).
Proof.
  destruct m; cbn [NamespaceHttp.onNetworkType];
    try (apply call_quiet; reflexivity).
  intros sent. unfold seq. rewrite !queryParams_pure.
  apply call_quiet. reflexivity.
Qed.

Lemma AccountHttp_invoke_quiet (this : AccountHttp.t) (m : AccountHttp.Method) :
  quiet (AccountHttp.invoke this m).
Proof.
  destruct m; cbn [AccountHttp.invoke];
    try (apply call_quiet; reflexivity).
  intros sent. unfold AccountHttp.accountTransactions, seq.
  rewrite !queryParams_pure. cbn. apply call_quiet. reflexivity.
Qed.

Lemma BlockHttp_invoke_quiet (this : BlockHttp.t) (m : BlockHttp.Method) :
  quiet (BlockHttp.invoke this m).
Proof.
  destruct m; cbn [BlockHttp.invoke];
    try (apply call_quiet; reflexivity).
  intros sent. unfold BlockHttp.getBlockTransactions, seq.
  rewrite !queryParams_pure. apply call_quiet. reflexivity.
Qed.

Lemma mergeMap_quiet (this : t) waiting_ out :
  forall sent,
    filter (fun r => isNetworkIdentity (request r)) (mergeMap this waiting_ out sent)
    = filter (fun r => isNetworkIdentity (request r)) sent.
Proof.
  unfold mergeMap. induction out as [|[k n] out IH]; intros sent; [reflexivity|].
  cbn [fold_left]. rewrite IH. destruct n; try reflexivity.
  destruct (lookup k waiting_); [apply onNetworkType_quiet | reflexivity].
Qed.

Lemma step_fetches (this : t) (s : State) (e : Event) :
  networkIdentityFetches (step this s e) = networkIdentityFetches s.
Proof.
  unfold networkIdentityFetches, step.
  destruct (match networkTypeEvent e with
            | Some ce => cell_step _ (networkTypeCell s) ce
            | None => (networkTypeCell s, [])
            end) as [nt out].
  cbn [requests]. rewrite mergeMap_quiet. f_equal.
  destruct e; try reflexivity;
    [apply AccountHttp_invoke_quiet | apply BlockHttp_invoke_quiet].
Qed.

Lemma step_networkTypeCell (this : t) (s : State) (e : Event) :
  networkTypeCell (step this s e)
  = match networkTypeEvent e with
    | Some ce => fst (cell_step (networkType this) (networkTypeCell s) ce)
    | None => networkTypeCell s
    end.
Proof.
  unfold step.
  replace (match e with
           | NamespaceCall _ =>
               NamespaceHttp.networkTypeObservable (createNamespaceRepository this)
           | _ => getNetworkType this
           end) with (networkType this) by (destruct e; reflexivity).
  destruct (networkTypeEvent e) as [ce|]; [|reflexivity].
  destruct (cell_step (networkType this) (networkTypeCell s) ce). reflexivity.
Qed.

Lemma run_snoc (this : t) (s : State) (es : list Event) (e : Event) :
  run this s (es ++ [e]) = step this (run this s es) e.
Proof. unfold run. now rewrite fold_left_app. Qed.

Lemma run_fetches (this : t) (es : list Event) :
  forall s, networkIdentityFetches (run this s es) = networkIdentityFetches s.
Proof.
  induction es as [|e es IH]; intros s; [reflexivity|].
  cbn [run fold_left]. fold (run this (step this s e) es).
  now rewrite IH, step_fetches.
Qed.

Lemma run_shared_inv (this : t) (es : list Event) :
  networkType this = shareReplay ->
  forall s, shared_inv (networkTypeCell s) ->
            shared_inv (networkTypeCell (run this s es)).
Proof.
  intros Hnt. induction es as [|e es IH]; intros s I; [exact I|].
  cbn [run fold_left]. fold (run this (step this s e) es). apply IH.
  rewrite step_networkTypeCell, Hnt.
  destruct (networkTypeEvent e); [apply inv_step|]; exact I.
Qed.

Lemma run_of_inv (this : t) (v : NetworkType) (es : list Event) :
  networkType this = observableOf v ->
  forall s, of_inv v (networkTypeCell s) ->
            of_inv v (networkTypeCell (run this s es)).
Proof.
  intros Hnt. induction es as [|e es IH]; intros s I; [exact I|].
  cbn [run fold_left]. fold (run this (step this s e) es). apply IH.
  rewrite step_networkTypeCell, Hnt.
  destruct (networkTypeEvent e); [apply of_inv_step|]; exact I.
Qed.

(** The factory's state right after construction. *)
Lemma initial_without_networkType url_ configs :
  optional configs cfg_networkType = None ->
  networkType (fst (initial url_ configs)) = shareReplay /\
  networkIdentityFetches (snd (initial url_ configs)) = 1%nat /\
  networkTypeCell (snd (initial url_ configs)) = newCell.
Proof.
  intros H. unfold initial, new, seq. rewrite H. cbn.
  unfold ifString. destruct (optional configs cfg_generationHash) as [h|];
    [destruct (truthy (Some h))|]; cbn; auto.
Qed.

Lemma initial_with_networkType url_ configs nt :
  optional configs cfg_networkType = Some nt -> nt <> 0 ->
  networkType (fst (initial url_ configs)) = observableOf nt /\
  networkIdentityFetches (snd (initial url_ configs)) = 0%nat /\
  networkTypeCell (snd (initial url_ configs)) = newCell.
Proof.
  intros H Hnt. unfold initial, new, seq. rewrite H. cbn.
  destruct (Z.eqb_spec nt 0) as [|_]; [contradiction|].
  unfold ifString. destruct (optional configs cfg_generationHash) as [h|];
    [destruct (truthy (Some h))|]; cbn; auto.
Qed.

Lemma run_subscribers (this : t) (es : list Event) :
  forall s, subscribers (networkTypeCell (run this s es))
            = (subscribers (networkTypeCell s) + subscriptions es)%nat.
Proof.
  induction es as [|e es IH]; intros s; [cbn; lia|].
  cbn [run fold_left]. fold (run this (step this s e) es).
  rewrite IH, step_networkTypeCell. unfold subscriptions. cbn [filter].
  destruct e; cbn [networkTypeEvent length]; try lia;
    destruct (networkType this); cbn;
    try destruct (shareReplay_subscribe _ _);
    try destruct (source_settled _ _);
    try destruct (promise (networkTypeCell s)); cbn; lia.
Qed.

(** Two runs of a factory built without configuration: the response arrives
    while two consumers wait and a third subscribes later; and the request
    fails, after which a further consumer subscribes. *)
Example run_resolved :
  let this := fst (initial "http://node:3000" None) in
  let s := run this (snd (initial "http://node:3000" None))
             [SubscribeNetworkType;
              NamespaceCall (NamespaceHttp.GetNamespace "85BBEA6CC462B244");
              NetworkIdentityResponse (inr 152);
              Microtask;
              SubscribeNetworkType] in
  log (networkTypeCell s)
  = [(0%nat, Next 152); (1%nat, Next 152); (0%nat, Complete);
     (1%nat, Complete); (2%nat, Next 152); (2%nat, Complete)] /\
  map request (requests s)
  = [NetworkIdentityRequest; NodeInfoRequest; NamespaceRequest "85BBEA6CC462B244"].
Proof. vm_compute. split; reflexivity. Qed.

Example run_failed :
  let this := fst (initial "http://node:3000" None) in
  let s := run this (snd (initial "http://node:3000" None))
             [SubscribeNetworkType;
              NamespaceCall (NamespaceHttp.GetNamespace "85BBEA6CC462B244");
              NetworkIdentityResponse (inl "ECONNREFUSED");
              Microtask;
              SubscribeNetworkType;
              Microtask] in
  log (networkTypeCell s)
  = [(0%nat, Error "ECONNREFUSED"); (1%nat, Error "ECONNREFUSED");
     (2%nat, Error "ECONNREFUSED")] /\
  map request (requests s) = [NetworkIdentityRequest; NodeInfoRequest].
Proof. vm_compute. split; reflexivity. Qed.

(** C1. A factory built without a network type sends the network-identity
    request once, whatever is subscribed or called afterwards and in
    whatever order responses and callbacks arrive: after any schedule the
    log holds exactly one such request; the subscribers to the network type
    are as many as the schedule's subscriptions (direct ones and namespace
    calls alike); any two values handed to subscribers are equal; and once
    the response has arrived, one round of promise callbacks leaves every
    subscriber with that one value followed by the completion. *)
Theorem C1_single_fetch_shared_value
    (url_ : string) (configs : option RepositoryFactoryConfig)
    (es : list Event) :
  optional configs cfg_networkType = None ->
  let this := fst (initial url_ configs) in
  let s := run this (snd (initial url_ configs)) es in
  networkIdentityFetches s = 1%nat /\
  subscribers (networkTypeCell s) = subscriptions es /\
  (forall k1 k2 v1 v2,
      In (k1, Next v1) (log (networkTypeCell s)) ->
      In (k2, Next v2) (log (networkTypeCell s)) -> v1 = v2) /\
  (forall v, promise (networkTypeCell s) = Fulfilled v ->
     networkIdentityFetches (step this s Microtask) = 1%nat /\
     forall k, (k < subscriptions es)%nat ->
       observed k (log (networkTypeCell (step this s Microtask)))
       = [Next v; Complete]).
Proof.
  intros Hcfg this s.
  destruct (initial_without_networkType url_ configs Hcfg) as (Hnt & Hone & Hcell).
  fold this in Hnt.
  assert (I : shared_inv (networkTypeCell s)).
  { apply run_shared_inv; [exact Hnt|]. rewrite Hcell. apply shared_inv_new. }
  assert (Hsubs : subscribers (networkTypeCell s) = subscriptions es).
  { unfold s. rewrite run_subscribers, Hcell. reflexivity. }
  split; [|split; [exact Hsubs|split]].
  - unfold s. now rewrite run_fetches.
  - intros k1 k2 v1 v2 H1 H2.
    apply (inv_log _ I) in H1 as [_ H1]. apply (inv_log _ I) in H2 as [_ H2].
    cbn in H1, H2. congruence.
  - intros v Hv. split.
    { rewrite step_fetches. unfold s. now rewrite run_fetches. }
    intros k Hk. rewrite step_networkTypeCell, Hnt. cbn [networkTypeEvent].
    destruct (flushed_delivered (networkTypeCell s) k I
                ltac:(congruence) ltac:(lia))
      as [(v' & Hv' & Ho)|(e & He & _)]; [|congruence].
    rewrite Ho. congruence.
Qed.

(** C3. When the response to the one network-identity request is a failure,
    that failure is all any subscriber is ever handed: after any schedule in
    which the request has failed with [e], the request log still holds that
    one request, every delivery made is [Error e], one round of promise
    callbacks leaves every subscriber with exactly [Error e], and a consumer
    that subscribes afterwards is handed [Error e] too without a further
    request. *)
Theorem C3_failure_is_shared_and_final
    (url_ : string) (configs : option RepositoryFactoryConfig)
    (es : list Event) (e : Failure) :
  optional configs cfg_networkType = None ->
  let this := fst (initial url_ configs) in
  let s := run this (snd (initial url_ configs)) es in
  promise (networkTypeCell s) = Rejected e ->
  networkIdentityFetches s = 1%nat /\
  (forall k n, In (k, n) (log (networkTypeCell s)) -> n = Error e) /\
  (forall k, (k < subscriptions es)%nat ->
     observed k (log (networkTypeCell (step this s Microtask))) = [Error e]) /\
  (let s' := run this s [SubscribeNetworkType; Microtask] in
   networkIdentityFetches s' = 1%nat /\
   promise (networkTypeCell s') = Rejected e /\
   observed (subscriptions es) (log (networkTypeCell s')) = [Error e]).
Proof.
  intros Hcfg this s He.
  destruct (initial_without_networkType url_ configs Hcfg) as (Hnt & Hone & Hcell).
  fold this in Hnt.
  assert (Hall : forall es',
    let s1 := run this (snd (initial url_ configs)) es' in
    promise (networkTypeCell s1) = Rejected e ->
    forall k, (k < subscriptions es')%nat ->
      observed k (log (networkTypeCell (step this s1 Microtask))) = [Error e]).
  { intros es' s1 He1 k Hk.
    assert (I : shared_inv (networkTypeCell s1)).
    { apply run_shared_inv; [exact Hnt|]. rewrite Hcell. apply shared_inv_new. }
    assert (Hsubs : subscribers (networkTypeCell s1) = subscriptions es').
    { unfold s1. rewrite run_subscribers, Hcell. reflexivity. }
    rewrite step_networkTypeCell, Hnt. cbn [networkTypeEvent].
    destruct (flushed_delivered (networkTypeCell s1) k I
                ltac:(congruence) ltac:(lia))
      as [(v' & Hv' & _)|(e' & He' & Ho)]; [congruence|].
    rewrite Ho. congruence. }
  assert (I : shared_inv (networkTypeCell s)).
  { apply run_shared_inv; [exact Hnt|]. rewrite Hcell. apply shared_inv_new. }
  split; [|split; [|split]].
  - unfold s. now rewrite run_fetches.
  - intros k n Hn. apply (inv_log _ I) in Hn as [_ Hn].
    destruct n; cbn in Hn; [congruence | congruence | destruct Hn; congruence].
  - apply Hall. exact He.
  - cbv zeta. split; [|split].
    + rewrite run_fetches. unfold s. now rewrite run_fetches.
    + change (run this s [SubscribeNetworkType; Microtask])
        with (step this (step this s SubscribeNetworkType) Microtask).
      rewrite !step_networkTypeCell, Hnt. cbn [networkTypeEvent].
      destruct (flush_promise
                  (fst (cell_step shareReplay (networkTypeCell s) Subscribes))
                  Flushes ltac:(discriminate) ltac:(discriminate)) as [-> _].
      cbn. destruct (shareReplay_subscribe _ _). exact He.
    + change (run this s [SubscribeNetworkType; Microtask])
        with (step this (step this s SubscribeNetworkType) Microtask).
      unfold s. rewrite <- run_snoc.
      apply (Hall (es ++ [SubscribeNetworkType])%list).
      * rewrite run_snoc. fold s. rewrite step_networkTypeCell, Hnt.
        cbn. destruct (shareReplay_subscribe _ _). exact He.
      * unfold subscriptions. rewrite filter_app, length_app. cbn. lia.
Qed.

(** C2. A factory built with a network type [nt] (a non-zero code, as the
    members of the enum are, so that the constructor's test takes it as
    supplied) never sends the network-identity request: its network-type
    observable is [of(nt)];
    after any schedule the log holds no such request and every subscriber
    has already been handed [nt] and the completion; and
    [createAccountRepository().getAccountInfo(address)] then adds exactly one
    request to the log, sent to the factory's URL: the call of the
    account-information route with the plain address, whose path in the
    path table is [/accounts/{address}]. *)
Theorem C2_explicit_network_type_never_fetched
    (url_ : string) (configs : option RepositoryFactoryConfig)
    (nt : NetworkType) (es : list Event) :
  optional configs cfg_networkType = Some nt -> nt <> 0 ->
  let this := fst (initial url_ configs) in
  let s := run this (snd (initial url_ configs)) es in
  getNetworkType this = observableOf nt /\
  networkIdentityFetches s = 0%nat /\
  (forall k, (k < subscriptions es)%nat ->
     observed k (log (networkTypeCell s)) = [Next nt; Complete]) /\
  (forall address,
     let s' := step this s (AccountCall (AccountHttp.GetAccountInfo address)) in
     requests s'
     = (requests s ++
        [{| basePath := url_;
            request := AccountInfoRequest (Address.plain address) |}])%list /\
     map (fun r => requestPath (request r))
         (skipn (length (requests s)) (requests s'))
     = [Some ("/accounts/" ++ Address.plain address)] /\
     networkIdentityFetches s' = 0%nat).
Proof.
  intros Hcfg Hnz this s.
  destruct (initial_with_networkType url_ configs nt Hcfg Hnz)
    as (Hnt & Hzero & Hcell).
  fold this in Hnt.
  assert (I : of_inv nt (networkTypeCell s)).
  { apply run_of_inv; [exact Hnt|]. rewrite Hcell. apply of_inv_new. }
  assert (Hsubs : subscribers (networkTypeCell s) = subscriptions es).
  { unfold s. rewrite run_subscribers, Hcell. reflexivity. }
  assert (Hfetch : networkIdentityFetches s = 0%nat).
  { unfold s. now rewrite run_fetches. }
  split; [exact Hnt | split; [exact Hfetch | split]].
  - intros k Hk. apply (of_served _ _ I). lia.
  - intros address s'.
    assert (Hreq : requests s'
                   = (requests s ++
                      [{| basePath := url_;
                          request := AccountInfoRequest (Address.plain address) |}])%list).
    { unfold s', step. cbn.
      replace (url this) with url_; [reflexivity|].
      unfold this, initial, new, seq. rewrite Hcfg. cbn.
      destruct (nt =? 0); unfold ifString;
        destruct (optional configs cfg_generationHash) as [h|];
        try destruct (truthy (Some h)); reflexivity. }
    split; [exact Hreq|split].
    + rewrite Hreq, skipn_app, skipn_all, Nat.sub_diag. reflexivity.
    + unfold s'. now rewrite step_fetches.
Qed.

(** ** Alias decoding *)

Lemma extractAlias_empty (ns : NamespaceDTO) :
  NamespaceHttp.extractAlias ns = Ok EmptyAlias <->
  (alias ns = None \/
   exists a, alias ns = Some a /\
             alias_type a <> AliasType.Mosaic /\
             alias_type a <> AliasType.Address).
Proof.
  unfold NamespaceHttp.extractAlias. destruct (alias ns) as [a|].
  2:{ split; auto. }
  destruct (Z.eqb_spec (alias_type a) AliasType.Mosaic) as [Hm|Hm].
  { split.
    - unfold fmap, bind. destruct (MosaicId.create _); discriminate.
    - intros [[=]|(a' & [= <-] & H & _)]. contradiction. }
  destruct (Z.eqb_spec (alias_type a) AliasType.Address) as [Ha|Ha].
  { split.
    - unfold fmap, bind. destruct (requirePayload _); [|discriminate].
      destruct (Address.createFromEncoded _); discriminate.
    - intros [[=]|(a' & [= <-] & _ & H)]. contradiction. }
  split; [|reflexivity]. intros _. right. exists a. auto.
Qed.

(** C4. A mosaic or address discriminator without its payload field makes
    [extractAlias] fail with [MissingAliasPayload]; a namespace whose
    discriminator claims a variant never decodes to the empty alias, whatever
    its payload fields hold, while a namespace without the alias object, and
    so without discriminator, does. *)
Theorem C4_missing_payload_is_an_error :
  (forall ns a,
      alias ns = Some a ->
      (alias_type a = AliasType.Mosaic /\ alias_mosaicId a = None) \/
      (alias_type a = AliasType.Address /\ alias_address a = None) ->
      NamespaceHttp.extractAlias ns = Throw MissingAliasPayload) /\
  (forall ns a,
      alias ns = Some a ->
      alias_type a = AliasType.Mosaic \/ alias_type a = AliasType.Address ->
      NamespaceHttp.extractAlias ns <> Ok EmptyAlias) /\
  (forall ns,
      alias ns = None -> NamespaceHttp.extractAlias ns = Ok EmptyAlias).
Proof.
  split; [|split].
  - intros ns a Ha [[Ht Hp]|[Ht Hp]]; unfold NamespaceHttp.extractAlias;
      rewrite Ha, Ht, Hp; reflexivity.
  - intros ns a Ha Ht He. apply extractAlias_empty in He.
    destruct He as [He|(a' & Ha' & Hm & Hd)]; [congruence|].
    assert (a' = a) by congruence. subst a'. destruct Ht; contradiction.
  - intros ns Ha. apply extractAlias_empty. now left.
Qed.

(** The failure leaves the mapping function of [getNamespace] as a decode
    error. *)
Example toNamespaceInfo_missing_payload :
  forall networkType,
    NamespaceHttp.toNamespaceInfo keyedAccount
      (responseWith
         (Some (namespaceWith (Some {| alias_type := AliasType.Mosaic;
                                       alias_mosaicId := None;
                                       alias_address := None |}))))
      networkType
    = Throw (ThrownDecode MissingAliasPayload).
Proof. intros networkType. vm_compute. reflexivity. Qed.

(** C5. A [None] discriminator decodes to the empty alias whatever the
    [mosaicId] and [address] fields of the alias object hold. *)
Theorem C5_none_discriminator_ignores_payload
    (ns : NamespaceDTO) (a : AliasDTO) :
  alias ns = Some a ->
  alias_type a = AliasType.None ->
  NamespaceHttp.extractAlias ns = Ok EmptyAlias.
Proof.
  intros Ha Ht. unfold NamespaceHttp.extractAlias. rewrite Ha, Ht. reflexivity.
Qed.

Example C5_example :
  forall networkType,
    fmap NamespaceHttp.info_alias
      (NamespaceHttp.toNamespaceInfo keyedAccount
         (responseWith
            (Some (namespaceWith
                     (Some {| alias_type := AliasType.None;
                              alias_mosaicId := Some "941299B2B7E1291C";
                              alias_address :=
                                Some "90E23316635AC41F7C7C3BCC8620EF6CA388A633F8DC135B38" |}))))
         networkType)
    = Ok EmptyAlias.
Proof. intros networkType. vm_compute. reflexivity. Qed.

(** ** Linked mosaic id and linked address *)

Lemma truthy_false (s : option string) :
  truthy s = false <-> s = None \/ s = Some EmptyString.
Proof.
  destruct s as [[|c s]|]; cbn; split; auto; try discriminate;
    intros [H|H]; discriminate H.
Qed.

(** C10 (as amended). For a response whose namespace carries an alias
    object: without the [namespace] field the response body itself is
    thrown; when the alias type is [None], is not the mosaic (address) type,
    or the [mosaicId] ([address]) field is absent or the empty string, an
    [Error] saying that no mosaicId (address) is linked to the namespace is
    thrown; otherwise the outcome is that of building the [MosaicId] from the
    payload (of decoding the [Address] from the encoded payload): that value
    is returned when the payload is well-formed, and the constructor's
    decode error is thrown when it is not. *)
Theorem C10_linked_alias_outcomes (body : NamespaceInfoDTO) :
  (namespace body = None ->
     NamespaceHttp.getLinkedMosaicId_map body = Throw (ThrownBody body) /\
     NamespaceHttp.getLinkedAddress_map body = Throw (ThrownBody body)) /\
  (forall ns a,
     namespace body = Some ns -> alias ns = Some a ->
     ((alias_type a = AliasType.None \/ alias_type a <> AliasType.Mosaic \/
       alias_mosaicId a = None \/ alias_mosaicId a = Some EmptyString) ->
      NamespaceHttp.getLinkedMosaicId_map body
      = Throw (ThrownError
                 ("No mosaicId is linked to namespace '" ++ level0 ns ++ "'"))) /\
     (forall payload,
        alias_type a = AliasType.Mosaic -> alias_mosaicId a = Some payload ->
        payload <> EmptyString ->
        (forall m, MosaicId.create (Some payload) = Ok m ->
           NamespaceHttp.getLinkedMosaicId_map body = Ok m) /\
        (forall e, MosaicId.create (Some payload) = Throw e ->
           NamespaceHttp.getLinkedMosaicId_map body = Throw (ThrownDecode e))) /\
     ((alias_type a = AliasType.None \/ alias_type a <> AliasType.Address \/
       alias_address a = None \/ alias_address a = Some EmptyString) ->
      NamespaceHttp.getLinkedAddress_map body
      = Throw (ThrownError
                 ("No address is linked to namespace '" ++ level0 ns ++ "'"))) /\
     (forall payload,
        alias_type a = AliasType.Address -> alias_address a = Some payload ->
        payload <> EmptyString ->
        (forall ad, Address.createFromEncoded payload = Ok ad ->
           NamespaceHttp.getLinkedAddress_map body = Ok ad) /\
        (forall e, Address.createFromEncoded payload = Throw e ->
           NamespaceHttp.getLinkedAddress_map body = Throw (ThrownDecode e)))).
Proof.
  split.
  - intros H. unfold NamespaceHttp.getLinkedMosaicId_map,
      NamespaceHttp.getLinkedAddress_map. rewrite H. split; reflexivity.
  - intros ns a Hns Ha.
    unfold NamespaceHttp.getLinkedMosaicId_map,
      NamespaceHttp.getLinkedAddress_map. rewrite Hns, Ha.
    split; [|split; [|split]].
    + intros H.
      replace ((alias_type a =? AliasType.None)
               || negb (alias_type a =? AliasType.Mosaic)
               || negb (truthy (alias_mosaicId a))) with true; [reflexivity|].
      symmetry. rewrite !orb_true_iff, !negb_true_iff, truthy_false.
      destruct H as [H|[H|H]]; [left; left; now apply Z.eqb_eq
                               | left; right; now apply Z.eqb_neq | now right].
    + intros payload Ht Hp Hne. rewrite Ht, Hp.
      assert (E : (if (AliasType.Mosaic =? AliasType.None)
                       || negb (AliasType.Mosaic =? AliasType.Mosaic)
                       || negb (truthy (Some payload))
                   then Throw (ThrownError
                          ("No mosaicId is linked to namespace '"
                             ++ level0 ns ++ "'"))
                   else decoded (MosaicId.create (Some payload)))
                  = decoded (MosaicId.create (Some payload))).
      { destruct payload; [contradiction|reflexivity]. }
      rewrite E. split; intros x Hx; rewrite Hx; reflexivity.
    + intros H.
      replace ((alias_type a =? AliasType.None)
               || negb (alias_type a =? AliasType.Address)
               || negb (truthy (alias_address a))) with true; [reflexivity|].
      symmetry. rewrite !orb_true_iff, !negb_true_iff, truthy_false.
      destruct H as [H|[H|H]]; [left; left; now apply Z.eqb_eq
                               | left; right; now apply Z.eqb_neq | now right].
    + intros payload Ht Hp Hne. rewrite Ht, Hp.
      assert (E : (if (AliasType.Address =? AliasType.None)
                       || negb (AliasType.Address =? AliasType.Address)
                       || negb (truthy (Some payload))
                   then Throw (ThrownError
                          ("No address is linked to namespace '"
                             ++ level0 ns ++ "'"))
                   else
                     decoded
                       (addressDecoded <- requirePayload (Some payload) ;;
                        decodedBytes <- Convert.hexToUint8 addressDecoded ;;
                        address <- RawAddress.addressToString decodedBytes ;;
                        Address.createFromRawAddress address)%result)
                  = decoded (Address.createFromEncoded payload)).
      { destruct payload; [contradiction|reflexivity]. }
      rewrite E. split; intros x Hx; rewrite Hx; reflexivity.
Qed.

(** C10 as stated fails twice. With the mosaic type and a [mosaicId] field
    that is present but empty, the "not linked" error is thrown instead of
    the outcome of building the [MosaicId] from the payload. With the mosaic
    type and a payload that is there, not empty, but not the hexadecimal
    form of an identifier, no [MosaicId] is returned: the constructor's
    decode error is thrown. *)
Lemma C10_counterexample :
  let a := {| alias_type := AliasType.Mosaic;
              alias_mosaicId := Some "";
              alias_address := None |} in
  let body := responseWith (Some (namespaceWith (Some a))) in
  let a' := {| alias_type := AliasType.Mosaic;
               alias_mosaicId := Some "ZZ";
               alias_address := None |} in
  let body' := responseWith (Some (namespaceWith (Some a'))) in
  (alias_type a <> AliasType.None /\
   alias_type a = AliasType.Mosaic /\
   alias_mosaicId a <> None /\
   NamespaceHttp.getLinkedMosaicId_map body
   = Throw (ThrownError "No mosaicId is linked to namespace '85BBEA6CC462B244'") /\
   NamespaceHttp.getLinkedMosaicId_map body
   <> decoded (MosaicId.create (alias_mosaicId a))) /\
  (alias_type a' <> AliasType.None /\
   alias_type a' = AliasType.Mosaic /\
   alias_mosaicId a' <> None /\
   NamespaceHttp.getLinkedMosaicId_map body'
   = Throw (ThrownDecode MalformedValue) /\
   forall m, NamespaceHttp.getLinkedMosaicId_map body' <> Ok m).
Proof.
  cbv zeta. repeat split; try discriminate; try reflexivity.
Qed.

(** ** Query defaulting *)

(** C8. Every list call made without query parameters sends its route with
    page size 10, no cursor id and ascending ordering: the five account
    transaction listings, the block transaction listing and the namespaces
    of an account. *)
Theorem C8_list_calls_default_paging (sent : list Sent) :
  (forall route this address transactionFilter,
      AccountHttp.accountTransactions route this address None transactionFilter sent
      = (length sent,
         (sent ++
          [{| basePath := AccountHttp.accountRoutesApi this;
              request := ListRequest route (Address.plain address)
                           10 None ASC (option_map tf_types transactionFilter) |}])%list)) /\
  (forall this height,
      BlockHttp.getBlockTransactions this height None sent
      = (length sent,
         (sent ++
          [{| basePath := BlockHttp.blockRoutesApi this;
              request := ListRequest BlockRoutesApi_getBlockTransactions
                           (UInt64.toString height) 10 None ASC None |}])%list)) /\
  (forall this address,
      NamespaceHttp.onNetworkType this
        (NamespaceHttp.GetNamespacesFromAccount address None) sent
      = (length sent,
         (sent ++
          [{| basePath := NamespaceHttp.namespaceRoutesApi this;
              request := ListRequest NamespaceRoutesApi_getNamespacesFromAccount
                           (Address.plain address) 10 None ASC None |}])%list)).
Proof. repeat split. Qed.

(** ** The theorems at concrete inputs *)

Lemma C1_witness :
  optional None cfg_networkType = None /\
  (let this := fst (initial "http://node:3000" None) in
   let s := run this (snd (initial "http://node:3000" None))
              [SubscribeNetworkType;
               NamespaceCall (NamespaceHttp.GetNamespace "85BBEA6CC462B244");
               Microtask;
               SubscribeNetworkType;
               NetworkIdentityResponse (inr 152)] in
   networkIdentityFetches s = 1%nat /\
   forall k, (k < 3)%nat ->
     observed k (log (networkTypeCell (step this s Microtask)))
     = [Next 152; Complete]).
Proof.
  split; [reflexivity|]. cbv zeta.
  pose proof (C1_single_fetch_shared_value "http://node:3000" None
                [SubscribeNetworkType;
                 NamespaceCall (NamespaceHttp.GetNamespace "85BBEA6CC462B244");
                 Microtask;
                 SubscribeNetworkType;
                 NetworkIdentityResponse (inr 152)] eq_refl) as H.
  cbv zeta in H. destruct H as (Hone & _ & _ & Hall).
  split; [exact Hone|]. exact (proj2 (Hall 152 eq_refl)).
Defined.

Lemma C2_witness :
  let configs := Some {| cfg_networkType := Some 152;
                         cfg_generationHash := None;
                         cfg_websocketUrl := None;
                         cfg_websocketInjected := None |} in
  (optional configs cfg_networkType = Some 152 /\ 152 <> 0) /\
  (let this := fst (initial "http://node:3000" configs) in
   let address := Address.mk "SDRDGFTDLLCB67D4HPGIMIHPNSRYRJRT7DOBGWZY" in
   let s := run this (snd (initial "http://node:3000" configs))
              [SubscribeNetworkType] in
   networkIdentityFetches s = 0%nat /\
   requests (step this s (AccountCall (AccountHttp.GetAccountInfo address)))
   = (requests s ++
      [{| basePath := "http://node:3000";
          request := AccountInfoRequest
                       "SDRDGFTDLLCB67D4HPGIMIHPNSRYRJRT7DOBGWZY" |}])%list /\
   map (fun r => requestPath (request r))
       (skipn (length (requests s))
          (requests (step this s (AccountCall (AccountHttp.GetAccountInfo address)))))
   = [Some "/accounts/SDRDGFTDLLCB67D4HPGIMIHPNSRYRJRT7DOBGWZY"]).
Proof.
  cbv zeta. split; [split; [reflexivity | discriminate]|].
  pose proof (C2_explicit_network_type_never_fetched "http://node:3000"
                (Some {| cfg_networkType := Some 152;
                         cfg_generationHash := None;
                         cfg_websocketUrl := None;
                         cfg_websocketInjected := None |})
                152 [SubscribeNetworkType] eq_refl ltac:(discriminate)) as H.
  cbv zeta in H. destruct H as (_ & Hzero & _ & Hcall).
  split; [exact Hzero|].
  destruct (Hcall (Address.mk "SDRDGFTDLLCB67D4HPGIMIHPNSRYRJRT7DOBGWZY"))
    as (Hreq & Hpath & _).
  split; [exact Hreq | exact Hpath].
Defined.

Lemma C3_witness :
  let this := fst (initial "http://node:3000" None) in
  let es := [SubscribeNetworkType;
             NetworkIdentityResponse (inl "ECONNREFUSED");
             Microtask;
             NamespaceCall (NamespaceHttp.GetNamespace "85BBEA6CC462B244")] in
  let s := run this (snd (initial "http://node:3000" None)) es in
  (optional None cfg_networkType = None /\
   promise (networkTypeCell s) = Rejected "ECONNREFUSED") /\
  (networkIdentityFetches s = 1%nat /\
   forall k, (k < 2)%nat ->
     observed k (log (networkTypeCell (step this s Microtask)))
     = [Error "ECONNREFUSED"]).
Proof.
  cbv zeta. split; [split; reflexivity|].
  pose proof (C3_failure_is_shared_and_final "http://node:3000" None
                [SubscribeNetworkType;
                 NetworkIdentityResponse (inl "ECONNREFUSED");
                 Microtask;
                 NamespaceCall (NamespaceHttp.GetNamespace "85BBEA6CC462B244")]
                "ECONNREFUSED" eq_refl eq_refl) as H.
  cbv zeta in H. destruct H as (Hone & _ & Hall & _).
  split; [exact Hone | exact Hall].
Defined.

Lemma C4_witness :
  let a := {| alias_type := AliasType.Mosaic;
              alias_mosaicId := None;
              alias_address := None |} in
  let ns := namespaceWith (Some a) in
  (alias ns = Some a /\
   alias_type a = AliasType.Mosaic /\ alias_mosaicId a = None) /\
  NamespaceHttp.extractAlias ns = Throw MissingAliasPayload.
Proof.
  cbv zeta. split; [repeat split|].
  refine (proj1 C4_missing_payload_is_an_error
            (namespaceWith (Some {| alias_type := AliasType.Mosaic;
                                    alias_mosaicId := None;
                                    alias_address := None |}))
            {| alias_type := AliasType.Mosaic;
               alias_mosaicId := None;
               alias_address := None |} eq_refl _).
  left. split; reflexivity.
Defined.

Lemma C5_witness :
  let a := {| alias_type := AliasType.None;
              alias_mosaicId := Some "941299B2B7E1291C";
              alias_address :=
                Some "90E23316635AC41F7C7C3BCC8620EF6CA388A633F8DC135B38" |} in
  let ns := namespaceWith (Some a) in
  (alias ns = Some a /\ alias_type a = AliasType.None) /\
  NamespaceHttp.extractAlias ns = Ok EmptyAlias.
Proof.
  cbv zeta. split; [split; reflexivity|].
  exact (C5_none_discriminator_ignores_payload
           (namespaceWith
              (Some {| alias_type := AliasType.None;
                       alias_mosaicId := Some "941299B2B7E1291C";
                       alias_address :=
                         Some "90E23316635AC41F7C7C3BCC8620EF6CA388A633F8DC135B38" |}))
           {| alias_type := AliasType.None;
              alias_mosaicId := Some "941299B2B7E1291C";
              alias_address :=
                Some "90E23316635AC41F7C7C3BCC8620EF6CA388A633F8DC135B38" |}
           eq_refl eq_refl).
Defined.

Lemma C6_witness :
  0 <= 18446744073709551615 < UInt64.two64 /\
  fmap UInt64.toString (UInt64.fromNumericString "18446744073709551615")
  = Ok "18446744073709551615".
Proof.
  assert (Hr : 0 <= 18446744073709551615 < UInt64.two64)
    by (unfold UInt64.two64; split; [discriminate | reflexivity]).
  split; [exact Hr|].
  exact (proj1 (proj2 (proj1 C6_uint64_decimal_roundtrip 18446744073709551615 Hr))).
Defined.

Lemma C10_witness :
  let a := {| alias_type := AliasType.Mosaic;
              alias_mosaicId := Some "941299B2B7E1291C";
              alias_address := None |} in
  let ns := namespaceWith (Some a) in
  let body := responseWith (Some ns) in
  let m := MosaicId.mk (UInt64.mk 3084986652 2484246962) in
  (namespace body = Some ns /\ alias ns = Some a /\
   alias_type a = AliasType.Mosaic /\
   alias_mosaicId a = Some "941299B2B7E1291C" /\
   "941299B2B7E1291C" <> EmptyString /\
   MosaicId.create (Some "941299B2B7E1291C") = Ok m) /\
  NamespaceHttp.getLinkedMosaicId_map body = Ok m.
Proof.
  cbv zeta.
  assert (Hm : MosaicId.create (Some "941299B2B7E1291C")
               = Ok (MosaicId.mk (UInt64.mk 3084986652 2484246962)))
    by (vm_compute; reflexivity).
  split; [repeat split; try discriminate; exact Hm|].
  refine (proj1 (proj1 (proj2 (proj2 (C10_linked_alias_outcomes
            (responseWith
               (Some (namespaceWith
                        (Some {| alias_type := AliasType.Mosaic;
                                 alias_mosaicId := Some "941299B2B7E1291C";
                                 alias_address := None |})))))
            (namespaceWith
               (Some {| alias_type := AliasType.Mosaic;
                        alias_mosaicId := Some "941299B2B7E1291C";
                        alias_address := None |}))
            {| alias_type := AliasType.Mosaic;
               alias_mosaicId := Some "941299B2B7E1291C";
               alias_address := None |} eq_refl eq_refl))
            "941299B2B7E1291C" eq_refl eq_refl _) _ Hm).
  discriminate.
Defined.

(* ================================================================= *)
(** * Further properties of the repositories and of the factory *)

(** ** One request per repository call *)

Lemma namespaceRoute_other (r : Request) :
  isNamespaceRoute r = true ->
  isNetworkIdentity r = false /\ isNodeInfo r = false.
Proof. destruct r; cbn; try discriminate; auto. Qed.

Lemma onNetworkType_one (this : NamespaceHttp.t) (m : NamespaceHttp.Method)
    (sent : list Sent) :
  exists r,
    NamespaceHttp.onNetworkType this m sent = (length sent, (sent ++ [r])%list) /\
    basePath r = NamespaceHttp.namespaceRoutesApi this /\
    isNamespaceRoute (request r) = true.
Proof.
  destruct m; cbn [NamespaceHttp.onNetworkType]; unfold seq;
    rewrite ?queryParams_pure; eexists; (split; [reflexivity|]); split; reflexivity.
Qed.

Lemma AccountHttp_invoke_shape (this : AccountHttp.t) (m : AccountHttp.Method)
    (sent : list Sent) :
  exists r,
    AccountHttp.invoke this m sent = (length sent, (sent ++ [r])%list) /\
    basePath r = AccountHttp.accountRoutesApi this /\
    isNetworkIdentity (request r) = false /\
    isNodeInfo (request r) = false.
Proof.
  destruct m; cbn [AccountHttp.invoke];
    unfold AccountHttp.accountTransactions, seq;
    rewrite ?queryParams_pure; cbn; eexists; (split; [reflexivity|]); repeat split.
Qed.

Lemma BlockHttp_invoke_shape (this : BlockHttp.t) (m : BlockHttp.Method)
    (sent : list Sent) :
  exists r,
    BlockHttp.invoke this m sent = (length sent, (sent ++ [r])%list) /\
    basePath r = BlockHttp.blockRoutesApi this /\
    isNetworkIdentity (request r) = false /\
    isNodeInfo (request r) = false.
Proof.
  destruct m; cbn [BlockHttp.invoke];
    unfold BlockHttp.getBlockTransactions, seq;
    rewrite ?queryParams_pure; cbn; eexists; (split; [reflexivity|]); repeat split.
Qed.

(** X1. Every method of the account and block repositories sends exactly
    one request, to the URL the repository was built with, after the
    requests already sent; the request is never one to the network-identity
    or node-info endpoint, and the observable returned is bound to its
    position in the log. The same holds for the call each of [getNamespace],
    [getNamespacesFromAccount], [getNamespacesFromAccounts],
    [getLinkedMosaicId] and [getLinkedAddress] makes once the network type
    has arrived: one request, on a namespace route, to the repository's
    URL. *)
Theorem repository_methods_send_one_request (sent : list Sent) :
  (forall this m, exists r,
      AccountHttp.invoke this m sent = (length sent, (sent ++ [r])%list) /\
      basePath r = AccountHttp.accountRoutesApi this /\
      isNetworkIdentity (request r) = false /\
      isNodeInfo (request r) = false) /\
  (forall this m, exists r,
      BlockHttp.invoke this m sent = (length sent, (sent ++ [r])%list) /\
      basePath r = BlockHttp.blockRoutesApi this /\
      isNetworkIdentity (request r) = false /\
      isNodeInfo (request r) = false) /\
  (forall this m, exists r,
      NamespaceHttp.onNetworkType this m sent
      = (length sent, (sent ++ [r])%list) /\
      basePath r = NamespaceHttp.namespaceRoutesApi this /\
      isNamespaceRoute (request r) = true).
Proof.
  split; [|split]; intros this m.
  - apply AccountHttp_invoke_shape.
  - apply BlockHttp_invoke_shape.
  - apply onNetworkType_one.
Qed.

Lemma direct_call_one (this : t) (s : State) (e : Event) :
  wellRouted e = true ->
  exists direct,
    match e with
    | AccountCall m =>
        snd (AccountHttp.invoke (createAccountRepository this) m (requests s))
    | BlockCall m =>
        snd (BlockHttp.invoke (createBlockRepository this) m (requests s))
    | _ => requests s
    end = (requests s ++ direct)%list /\
    Forall (fun r => basePath r = url this /\
                     isNetworkIdentity (request r) = false /\
                     isNodeInfo (request r) = false /\
                     isNamespaceRoute (request r) = false) direct /\
    (length direct <= 1)%nat.
Proof.
  intros Hw.
  destruct e as [| |m|m|m|o|o|];
    try (exists []; rewrite List.app_nil_r; repeat split; auto; constructor).
  - destruct m as [a|l|route a q f]; cbn [AccountHttp.invoke];
      unfold AccountHttp.accountTransactions, seq; rewrite ?queryParams_pure; cbn;
      eexists [_]; (split; [reflexivity|]); (split; [|cbn; lia]);
      constructor; try constructor; cbn; repeat split.
    cbn in Hw. destruct route; try discriminate; reflexivity.
  - destruct m; cbn [BlockHttp.invoke];
      unfold BlockHttp.getBlockTransactions, seq; rewrite ?queryParams_pure; cbn;
      eexists [_]; (split; [reflexivity|]); (split; [|cbn; lia]);
      constructor; try constructor; cbn; repeat split.
Qed.

(** ** The shape of one step *)

Lemma cell_step_log {T : Type} (o : Observable T) (c : Cell T) (e : CellEvent T) :
  log (fst (cell_step o c e)) = (log c ++ snd (cell_step o c e))%list.
Proof.
  destruct o as [v|], e as [|outcome|]; cbn;
    try reflexivity; try (now rewrite List.app_nil_r).
  - destruct (shareReplay_subscribe _ _). reflexivity.
  - destruct (promise c); cbn; now rewrite List.app_nil_r.
  - destruct (source_settled _ _). reflexivity.
Qed.

Lemma mergeMap_added (this : t) waiting_ out :
  forall sent, exists added,
    mergeMap this waiting_ out sent = (sent ++ added)%list /\
    Forall (fun r => basePath r = url this /\
                     isNamespaceRoute (request r) = true) added /\
    length added = length (filter (triggers waiting_) out).
Proof.
  unfold mergeMap. induction out as [|[k n] out IH]; intros sent.
  - exists []. cbn. rewrite List.app_nil_r. auto.
  - cbn [fold_left filter triggers].
    destruct n as [v|e|]; try (destruct (IH sent) as (added & H1 & H2 & H3);
                               exists added; now auto).
    destruct (lookup k waiting_) as [m|].
    + destruct (onNetworkType_one (createNamespaceRepository this) m sent)
        as (r & Hr & Hb & Hn).
      rewrite Hr. cbn [snd].
      destruct (IH (sent ++ [r])%list) as (added & H1 & H2 & H3).
      exists (r :: added). rewrite H1, <- List.app_assoc. cbn.
      repeat split; auto.
    + destruct (IH sent) as (added & H1 & H2 & H3). exists added. auto.
Qed.

Lemma direct_call_any (this : t) (s : State) (e : Event) :
  exists direct,
    match e with
    | AccountCall m =>
        snd (AccountHttp.invoke (createAccountRepository this) m (requests s))
    | BlockCall m =>
        snd (BlockHttp.invoke (createBlockRepository this) m (requests s))
    | _ => requests s
    end = (requests s ++ direct)%list /\
    Forall (fun r => basePath r = url this /\
                     isNetworkIdentity (request r) = false /\
                     isNodeInfo (request r) = false) direct.
Proof.
  destruct e as [| |m|m|m|o|o|];
    try (exists []; rewrite List.app_nil_r; split; auto; constructor).
  - destruct (AccountHttp_invoke_shape (createAccountRepository this) m
                (requests s)) as (r & Hr & Hb & Hn & Hi).
    exists [r]. rewrite Hr. cbn [snd]. split; [reflexivity|].
    constructor; [|constructor]. auto.
  - destruct (BlockHttp_invoke_shape (createBlockRepository this) m
                (requests s)) as (r & Hr & Hb & Hn & Hi).
    exists [r]. rewrite Hr. cbn [snd]. split; [reflexivity|].
    constructor; [|constructor]. auto.
Qed.

Lemma step_shape_gen (P : Sent -> Prop) (this : t) (s : State) (e : Event) :
  (exists direct,
     match e with
     | AccountCall m =>
         snd (AccountHttp.invoke (createAccountRepository this) m (requests s))
     | BlockCall m =>
         snd (BlockHttp.invoke (createBlockRepository this) m (requests s))
     | _ => requests s
     end = (requests s ++ direct)%list /\ Forall P direct) ->
  exists direct added out,
    requests (step this s e) = (requests s ++ direct ++ added)%list /\
    log (networkTypeCell (step this s e)) = (log (networkTypeCell s) ++ out)%list /\
    Forall P direct /\
    Forall (fun r => basePath r = url this /\
                     isNamespaceRoute (request r) = true) added /\
    length added = length (filter (triggers (step_waiting s e)) out) /\
    waiting (step this s e) = step_waiting s e.
Proof.
  intros (direct & Hd & HP).
  pose proof (step_networkTypeCell this s e) as Hcell.
  unfold step in *. fold (step_waiting s e) in *.
  replace (match e with
           | NamespaceCall _ =>
               NamespaceHttp.networkTypeObservable (createNamespaceRepository this)
           | _ => getNetworkType this
           end) with (networkType this) in * by (destruct e; reflexivity).
  rewrite Hd. clear Hd.
  assert (Hout : exists out,
             log (fst (match networkTypeEvent e with
                       | Some ce => cell_step (networkType this) (networkTypeCell s) ce
                       | None => (networkTypeCell s, [])
                       end)) = (log (networkTypeCell s) ++ out)%list /\
             snd (match networkTypeEvent e with
                  | Some ce => cell_step (networkType this) (networkTypeCell s) ce
                  | None => (networkTypeCell s, [])
                  end) = out).
  { destruct (networkTypeEvent e) as [ce|].
    - eexists. split; [apply cell_step_log | reflexivity].
    - exists []. cbn. now rewrite List.app_nil_r. }
  destruct Hout as (out & Hlog & Hsnd).
  destruct (match networkTypeEvent e with
            | Some ce => cell_step (networkType this) (networkTypeCell s) ce
            | None => (networkTypeCell s, [])
            end) as [nt out'].
  cbn [fst snd] in *. subst out'.
  destruct (mergeMap_added this (step_waiting s e) out (requests s ++ direct)%list)
    as (added & Hm & Ha & Hl).
  exists direct, added, out. cbn [requests networkTypeCell waiting].
  rewrite Hm, <- List.app_assoc. repeat split; auto.
Qed.

Lemma step_shape (this : t) (s : State) (e : Event) :
  exists direct added out,
    requests (step this s e) = (requests s ++ direct ++ added)%list /\
    log (networkTypeCell (step this s e)) = (log (networkTypeCell s) ++ out)%list /\
    Forall (fun r => basePath r = url this /\
                     isNetworkIdentity (request r) = false /\
                     isNodeInfo (request r) = false) direct /\
    Forall (fun r => basePath r = url this /\
                     isNamespaceRoute (request r) = true) added /\
    length added = length (filter (triggers (step_waiting s e)) out) /\
    waiting (step this s e) = step_waiting s e.
Proof. apply step_shape_gen, direct_call_any. Qed.

Lemma step_shape_routed (this : t) (s : State) (e : Event) :
  wellRouted e = true ->
  exists direct added out,
    requests (step this s e) = (requests s ++ direct ++ added)%list /\
    log (networkTypeCell (step this s e)) = (log (networkTypeCell s) ++ out)%list /\
    Forall (fun r => basePath r = url this /\
                     isNetworkIdentity (request r) = false /\
                     isNodeInfo (request r) = false /\
                     isNamespaceRoute (request r) = false) direct /\
    Forall (fun r => basePath r = url this /\
                     isNamespaceRoute (request r) = true) added /\
    length added = length (filter (triggers (step_waiting s e)) out) /\
    waiting (step this s e) = step_waiting s e.
Proof.
  intros Hw. apply step_shape_gen.
  destruct (direct_call_one this s e Hw) as (direct & H1 & H2 & _). eauto.
Qed.

(** ** Requests over a whole schedule *)

Lemma run_cons (this : t) (s : State) (e : Event) (es : list Event) :
  run this s (e :: es) = run this (step this s e) es.
Proof. reflexivity. Qed.

Lemma run_requests (this : t) (es : list Event) :
  forall s, exists more,
    requests (run this s es) = (requests s ++ more)%list /\
    Forall (fun r => basePath r = url this /\
                     isNetworkIdentity (request r) = false /\
                     isNodeInfo (request r) = false) more.
Proof.
  induction es as [|e es IH]; intros s.
  - exists []. cbn. rewrite List.app_nil_r. auto.
  - rewrite run_cons. destruct (IH (step this s e)) as (more & Hm & HF).
    destruct (step_shape this s e) as (direct & added & out & Hr & _ & Hd & Ha & _).
    exists (direct ++ added ++ more)%list. rewrite Hm, Hr, <- !List.app_assoc.
    split; [reflexivity|].
    apply Forall_app; split; [exact Hd|]. apply Forall_app; split; [|exact HF].
    eapply Forall_impl; [|exact Ha]. intros r [Hb Hn].
    destruct (namespaceRoute_other _ Hn). auto.
Qed.

Lemma initial_url (url_ : string) (configs : option RepositoryFactoryConfig) :
  url (fst (initial url_ configs)) = url_.
Proof.
  unfold initial, new, seq, ifNumber, ifString.
  destruct (optional configs cfg_networkType) as [n|]; [destruct (n =? 0)|];
    (destruct (optional configs cfg_generationHash) as [h|];
     [destruct (truthy (Some h))|]); reflexivity.
Qed.

Lemma initial_cells (url_ : string) (configs : option RepositoryFactoryConfig) :
  networkTypeCell (snd (initial url_ configs)) = newCell /\
  generationHashCell (snd (initial url_ configs)) = newCell /\
  waiting (snd (initial url_ configs)) = [].
Proof.
  unfold initial. destruct (new url_ configs []). cbn. auto.
Qed.

Lemma initial_requests (url_ : string) (configs : option RepositoryFactoryConfig) :
  requests (snd (initial url_ configs))
  = (ifNumber (optional configs cfg_networkType) (fun _ => [])
       [{| basePath := url_; request := NetworkIdentityRequest |}] ++
     ifString (optional configs cfg_generationHash) (fun _ => [])
       [{| basePath := url_; request := NodeInfoRequest |}])%list.
Proof.
  unfold initial, new, seq, ifNumber, ifString.
  destruct (optional configs cfg_networkType) as [n|]; [destruct (n =? 0)|];
    (destruct (optional configs cfg_generationHash) as [h|];
     [destruct (truthy (Some h))|]); reflexivity.
Qed.

Lemma initial_observables (url_ : string) (configs : option RepositoryFactoryConfig) :
  networkType (fst (initial url_ configs))
  = ifNumber (optional configs cfg_networkType) observableOf shareReplay /\
  generationHash (fst (initial url_ configs))
  = ifString (optional configs cfg_generationHash) observableOf shareReplay.
Proof.
  unfold initial, new, seq, ifNumber, ifString.
  destruct (optional configs cfg_networkType) as [n|]; [destruct (n =? 0)|];
    (destruct (optional configs cfg_generationHash) as [h|];
     [destruct (truthy (Some h))|]); split; reflexivity.
Qed.

(** X2. Whatever is subscribed, called or answered after construction,
    every request the factory and its repositories send goes to the URL the
    factory was built with, and the requests sent earlier stay in the log, in
    order, in front of the later ones. *)
Theorem all_requests_go_to_the_factory_url
    (url_ : string) (configs : option RepositoryFactoryConfig)
    (es es' : list Event) :
  let this := fst (initial url_ configs) in
  let s := run this (snd (initial url_ configs)) es in
  Forall (fun r => basePath r = url_) (requests s) /\
  exists more,
    requests (run this (snd (initial url_ configs)) (es ++ es'))
    = (requests s ++ more)%list.
Proof.
  intros this s. split.
  - destruct (run_requests this es (snd (initial url_ configs))) as (more & Hm & HF).
    fold s in Hm. rewrite Hm. apply Forall_app. split.
    + rewrite initial_requests. unfold ifNumber, ifString.
      destruct (optional configs cfg_networkType) as [n|]; [destruct (n =? 0)|];
        (destruct (optional configs cfg_generationHash) as [h|];
         [destruct (truthy (Some h))|]); repeat constructor.
    + eapply Forall_impl; [|exact HF]. intros r (Hb & _).
      rewrite Hb. apply initial_url.
  - unfold run. rewrite fold_left_app. fold (run this (snd (initial url_ configs)) es).
    fold s. destruct (run_requests this es' s) as (more & Hm & _).
    exists more. exact Hm.
Qed.

(** X3. What the constructor sends: the network-identity request exactly
    when the configured network type is missing or zero, the node-info
    request exactly when the configured generation hash is missing or empty,
    the first before the second, and nothing else; a value that is supplied
    is held as [of(value)]. *)
Theorem constructor_requests
    (url_ : string) (configs : option RepositoryFactoryConfig) :
  let this := fst (initial url_ configs) in
  let s := snd (initial url_ configs) in
  (forall n, optional configs cfg_networkType = Some n -> n <> 0 ->
     networkType this = observableOf n /\ networkIdentityFetches s = 0%nat) /\
  (optional configs cfg_networkType = None \/
   optional configs cfg_networkType = Some 0 ->
     networkType this = shareReplay /\ networkIdentityFetches s = 1%nat /\
     hd_error (requests s)
     = Some {| basePath := url_; request := NetworkIdentityRequest |}) /\
  (forall h, optional configs cfg_generationHash = Some h -> h <> EmptyString ->
     generationHash this = observableOf h /\ nodeInfoFetches s = 0%nat) /\
  (optional configs cfg_generationHash = None \/
   optional configs cfg_generationHash = Some EmptyString ->
     generationHash this = shareReplay /\ nodeInfoFetches s = 1%nat /\
     last (requests s) {| basePath := url_; request := NetworkIdentityRequest |}
     = {| basePath := url_; request := NodeInfoRequest |}) /\
  length (requests s) = (networkIdentityFetches s + nodeInfoFetches s)%nat.
Proof.
  intros this s. unfold networkIdentityFetches, nodeInfoFetches, this, s.
  destruct (initial_observables url_ configs) as [-> ->].
  rewrite initial_requests. unfold ifNumber, ifString.
  repeat split.
  - rewrite H. destruct (Z.eqb_spec n 0); [contradiction|reflexivity].
  - rewrite H. destruct (Z.eqb_spec n 0); [contradiction|].
    destruct (optional configs cfg_generationHash) as [h|];
      [destruct (truthy (Some h))|]; reflexivity.
  - destruct H as [-> | ->]; reflexivity.
  - destruct H as [-> | ->];
      (destruct (optional configs cfg_generationHash) as [h|];
       [destruct (truthy (Some h))|]); reflexivity.
  - destruct H as [-> | ->]; reflexivity.
  - rewrite H. destruct h; [contradiction|reflexivity].
  - rewrite H. destruct h; [contradiction|].
    destruct (optional configs cfg_networkType) as [n|]; [destruct (n =? 0)|];
      reflexivity.
  - destruct H as [-> | ->]; reflexivity.
  - destruct H as [-> | ->];
      (destruct (optional configs cfg_networkType) as [n|]; [destruct (n =? 0)|]);
      reflexivity.
  - destruct H as [-> | ->];
      (destruct (optional configs cfg_networkType) as [n|]; [destruct (n =? 0)|]);
      reflexivity.
  - destruct (optional configs cfg_networkType) as [n|]; [destruct (n =? 0)|];
      (destruct (optional configs cfg_generationHash) as [h|];
       [destruct (truthy (Some h))|]); reflexivity.
Qed.

(** ** The two tracked values do not disturb each other *)

Lemma step_generationHashCell (this : t) (s : State) (e : Event) :
  generationHashCell (step this s e)
  = match generationHashEvent e with
    | Some ce => fst (cell_step (generationHash this) (generationHashCell s) ce)
    | None => generationHashCell s
    end.
Proof.
  unfold step, getGenerationHash.
  destruct (match networkTypeEvent e with
            | Some ce => cell_step _ (networkTypeCell s) ce
            | None => (networkTypeCell s, [])
            end) as [nt out].
  reflexivity.
Qed.

(** X4. What the subscribers to the network type are handed depends only
    on the subscriptions to it, on the response to the network-identity
    request and on the callback rounds: taking every account call, block
    call, generation-hash subscription and node-info response out of a
    schedule leaves the state behind the network type as it is. *)
Theorem network_type_ignores_other_traffic
    (this : t) (es : list Event) (s : State) :
  networkTypeCell (run this s es)
  = networkTypeCell (run this s (filter concernsNetworkType es)).
Proof.
  revert s.
  assert (Hcell : forall es s1 s2, networkTypeCell s1 = networkTypeCell s2 ->
            networkTypeCell (run this s1 es) = networkTypeCell (run this s2 es)).
  { induction es0 as [|e es0 IH]; intros s1 s2 H; [exact H|].
    rewrite !run_cons. apply IH. rewrite !step_networkTypeCell, H. reflexivity. }
  induction es as [|e es IH]; intros s; [reflexivity|].
  rewrite run_cons. cbn [filter]. unfold concernsNetworkType at 1.
  destruct (networkTypeEvent e) as [ce|] eqn:He.
  - rewrite run_cons. apply IH.
  - rewrite IH. apply Hcell. rewrite step_networkTypeCell, He. reflexivity.
Qed.

(** ** What a subscriber can have been handed *)

Lemma shared_wellFormed {T : Type} (c : Cell T) (k : nat) :
  shared_inv c -> wellFormed (observed k (log c)).
Proof.
  intros I. destruct (Nat.lt_ge_cases k (subscribers c)) as [Hk|Hk].
  - destruct (inv_served c I k Hk) as [[Ho _]|[(v & _ & Ho)|(e & _ & Ho)]];
      rewrite Ho; unfold wellFormed; eauto.
  - left. apply observed_none. intros n Hn. apply (inv_log c I) in Hn. lia.
Qed.

Lemma of_wellFormed {T : Type} (v : T) (c : Cell T) (k : nat) :
  of_inv v c -> wellFormed (observed k (log c)).
Proof.
  intros I. destruct (Nat.lt_ge_cases k (subscribers c)) as [Hk|Hk].
  - rewrite (of_served v c I k Hk). unfold wellFormed. eauto.
  - left. apply observed_none. intros n Hn. apply (of_log v c I) in Hn. lia.
Qed.

Lemma run_shared_inv_gh (this : t) (es : list Event) :
  generationHash this = shareReplay ->
  forall s, shared_inv (generationHashCell s) ->
            shared_inv (generationHashCell (run this s es)).
Proof.
  intros Hgh. induction es as [|e es IH]; intros s I; [exact I|].
  rewrite run_cons. apply IH. rewrite step_generationHashCell, Hgh.
  destruct (generationHashEvent e); [apply inv_step|]; exact I.
Qed.

Lemma run_of_inv_gh (this : t) (h : string) (es : list Event) :
  generationHash this = observableOf h ->
  forall s, of_inv h (generationHashCell s) ->
            of_inv h (generationHashCell (run this s es)).
Proof.
  intros Hgh. induction es as [|e es IH]; intros s I; [exact I|].
  rewrite run_cons. apply IH. rewrite step_generationHashCell, Hgh.
  destruct (generationHashEvent e); [apply of_inv_step|]; exact I.
Qed.

(** The state behind a tracked value of a factory satisfies one of the two
    invariants, according to how the value is held. *)
Lemma networkType_invariant (url_ : string)
    (configs : option RepositoryFactoryConfig) (es : list Event) :
  let this := fst (initial url_ configs) in
  let c := networkTypeCell (run this (snd (initial url_ configs)) es) in
  (networkType this = shareReplay /\ shared_inv c) \/
  (exists v, networkType this = observableOf v /\ of_inv v c).
Proof.
  intros this c. destruct (initial_cells url_ configs) as (Hc & _ & _).
  destruct (networkType this) as [v|] eqn:Hnt.
  - right. exists v. split; [reflexivity|].
    apply run_of_inv; [exact Hnt|]. rewrite Hc. apply of_inv_new.
  - left. split; [reflexivity|].
    apply run_shared_inv; [exact Hnt|]. rewrite Hc. apply shared_inv_new.
Qed.

Lemma generationHash_invariant (url_ : string)
    (configs : option RepositoryFactoryConfig) (es : list Event) :
  let this := fst (initial url_ configs) in
  let c := generationHashCell (run this (snd (initial url_ configs)) es) in
  (generationHash this = shareReplay /\ shared_inv c) \/
  (exists v, generationHash this = observableOf v /\ of_inv v c).
Proof.
  intros this c. destruct (initial_cells url_ configs) as (_ & Hc & _).
  destruct (generationHash this) as [v|] eqn:Hgh.
  - right. exists v. split; [reflexivity|].
    apply run_of_inv_gh; [exact Hgh|]. rewrite Hc. apply of_inv_new.
  - left. split; [reflexivity|].
    apply run_shared_inv_gh; [exact Hgh|]. rewrite Hc. apply shared_inv_new.
Qed.

(** X5. However a factory was configured and whatever the schedule, a
    subscriber to the network type or to the generation hash has been handed
    nothing yet, or one value followed by the completion, or one failure:
    never two values, never anything after the completion or the failure,
    never a value together with a failure. *)
Theorem subscribers_see_one_outcome
    (url_ : string) (configs : option RepositoryFactoryConfig)
    (es : list Event) (k : nat) :
  let this := fst (initial url_ configs) in
  let s := run this (snd (initial url_ configs)) es in
  wellFormed (observed k (log (networkTypeCell s))) /\
  wellFormed (observed k (log (generationHashCell s))).
Proof.
  intros this s. split.
  - destruct (networkType_invariant url_ configs es) as [[_ I]|(v & _ & I)];
      [apply shared_wellFormed | eapply of_wellFormed]; exact I.
  - destruct (generationHash_invariant url_ configs es) as [[_ I]|(v & _ & I)];
      [apply shared_wellFormed | eapply of_wellFormed]; exact I.
Qed.

(** ** The value never changes *)

Lemma cell_step_promise {T : Type} (o : Observable T) (c : Cell T)
    (e : CellEvent T) :
  promise c <> Pending -> promise (fst (cell_step o c e)) = promise c.
Proof.
  intros Hp. destruct o as [v|], e as [|outcome|]; cbn; try reflexivity.
  - destruct (shareReplay_subscribe _ _). reflexivity.
  - destruct (promise c) eqn:Hpc; cbn; congruence.
  - destruct (source_settled _ _). reflexivity.
Qed.

Lemma run_promise (this : t) (es : list Event) :
  forall s, promise (networkTypeCell s) <> Pending ->
            promise (networkTypeCell (run this s es)) = promise (networkTypeCell s).
Proof.
  induction es as [|e es IH]; intros s Hp; [reflexivity|].
  rewrite run_cons.
  assert (He : promise (networkTypeCell (step this s e)) = promise (networkTypeCell s)).
  { rewrite step_networkTypeCell. destruct (networkTypeEvent e); [|reflexivity].
    now apply cell_step_promise. }
  rewrite IH; [exact He | congruence].
Qed.

Lemma run_log_extends (this : t) (es : list Event) :
  forall s, exists out,
    log (networkTypeCell (run this s es)) = (log (networkTypeCell s) ++ out)%list.
Proof.
  induction es as [|e es IH]; intros s.
  - exists []. cbn. now rewrite List.app_nil_r.
  - rewrite run_cons. destruct (IH (step this s e)) as (out & Ho).
    destruct (step_shape this s e) as (_ & _ & out1 & _ & Hl & _).
    exists (out1 ++ out)%list. rewrite Ho, Hl, List.app_assoc. reflexivity.
Qed.

(** X6. The network type a factory hands out never changes: a value handed
    to some subscriber at one point of a schedule is the value handed to
    every subscriber at every later point, also when further responses to
    the network-identity request come in; and once that request has been
    answered, its outcome stays what it was. *)
Theorem network_type_is_stable
    (url_ : string) (configs : option RepositoryFactoryConfig)
    (es es' : list Event) :
  let this := fst (initial url_ configs) in
  let s := run this (snd (initial url_ configs)) es in
  let s' := run this (snd (initial url_ configs)) (es ++ es') in
  (forall k1 k2 v1 v2,
      In (k1, Next v1) (log (networkTypeCell s)) ->
      In (k2, Next v2) (log (networkTypeCell s')) -> v1 = v2) /\
  (promise (networkTypeCell s) <> Pending ->
   promise (networkTypeCell s') = promise (networkTypeCell s)).
Proof.
  intros this s s'.
  assert (Hs' : s' = run this s es').
  { unfold s', s, run. now rewrite fold_left_app. }
  split.
  - intros k1 k2 v1 v2 H1 H2.
    destruct (run_log_extends this es' s) as (out & Ho). rewrite <- Hs' in Ho.
    assert (H1' : In (k1, Next v1) (log (networkTypeCell s'))).
    { rewrite Ho. apply in_or_app. now left. }
    destruct (networkType_invariant url_ configs (es ++ es')) as [[_ I]|(v & _ & I)];
      fold this in I; fold s' in I.
    + apply (inv_log _ I) in H1' as [_ H1']. apply (inv_log _ I) in H2 as [_ H2].
      cbn in H1', H2. congruence.
    + destruct (of_log _ _ I _ _ H1') as [_ [E1|E1]]; [|discriminate].
      destruct (of_log _ _ I _ _ H2) as [_ [E2|E2]]; [|discriminate].
      congruence.
  - intros Hp. rewrite Hs'. now apply run_promise.
Qed.

(** ** The generation hash *)

Lemma filter_nothing {A : Type} (P : A -> bool) (l : list A) :
  Forall (fun a => P a = false) l -> filter P l = [].
Proof.
  induction 1 as [|a l Ha _ IH]; [reflexivity|]. cbn. now rewrite Ha.
Qed.

Lemma run_nodeInfoFetches (this : t) (es : list Event) (s : State) :
  nodeInfoFetches (run this s es) = nodeInfoFetches s.
Proof.
  unfold nodeInfoFetches.
  destruct (run_requests this es s) as (more & -> & HF).
  rewrite filter_app, (filter_nothing _ more), List.app_nil_r; [reflexivity|].
  eapply Forall_impl; [|exact HF]. intros r (_ & _ & H). exact H.
Qed.

Lemma run_subscribers_gh (this : t) (es : list Event) :
  forall s, subscribers (generationHashCell (run this s es))
            = (subscribers (generationHashCell s)
               + generationHashSubscriptions es)%nat.
Proof.
  induction es as [|e es IH]; intros s; [cbn; lia|].
  rewrite run_cons, IH, step_generationHashCell.
  unfold generationHashSubscriptions. cbn [filter].
  destruct e; cbn [generationHashEvent length]; try lia;
    destruct (generationHash this); cbn;
    try destruct (shareReplay_subscribe _ _);
    try destruct (source_settled _ _);
    try destruct (promise (generationHashCell s)); cbn; lia.
Qed.

Lemma initial_nodeInfo (url_ : string) (configs : option RepositoryFactoryConfig) :
  nodeInfoFetches (snd (initial url_ configs))
  = ifString (optional configs cfg_generationHash) (fun _ => 0%nat) 1%nat.
Proof.
  unfold nodeInfoFetches. rewrite initial_requests. unfold ifNumber, ifString.
  destruct (optional configs cfg_networkType) as [n|]; [destruct (n =? 0)|];
    (destruct (optional configs cfg_generationHash) as [h|];
     [destruct (truthy (Some h))|]); reflexivity.
Qed.

(** X7. A factory built without a generation hash sends the node-info
    request once, whatever is subscribed or called afterwards: after any
    schedule the log holds exactly one such request, the subscribers to the
    generation hash are as many as subscribed, any two values handed out are
    equal, and once the response is there one round of promise callbacks
    leaves every subscriber with that hash and the completion, or, when the
    request failed, with that one failure. *)
Theorem generation_hash_single_fetch
    (url_ : string) (configs : option RepositoryFactoryConfig)
    (es : list Event) :
  optional configs cfg_generationHash = None ->
  let this := fst (initial url_ configs) in
  let s := run this (snd (initial url_ configs)) es in
  let c := generationHashCell s in
  let c' := generationHashCell (step this s Microtask) in
  nodeInfoFetches s = 1%nat /\
  subscribers c = generationHashSubscriptions es /\
  (forall k1 k2 h1 h2,
      In (k1, Next h1) (log c) -> In (k2, Next h2) (log c) -> h1 = h2) /\
  (forall h, promise c = Fulfilled h ->
     forall k, (k < generationHashSubscriptions es)%nat ->
       observed k (log c') = [Next h; Complete]) /\
  (forall e, promise c = Rejected e ->
     forall k, (k < generationHashSubscriptions es)%nat ->
       observed k (log c') = [Error e]).
Proof.
  intros Hcfg this s c c'.
  destruct (initial_cells url_ configs) as (_ & Hcell & _).
  destruct (initial_observables url_ configs) as [_ Hgh].
  rewrite Hcfg in Hgh. cbn in Hgh. fold this in Hgh.
  assert (I : shared_inv c).
  { apply run_shared_inv_gh; [exact Hgh|]. rewrite Hcell. apply shared_inv_new. }
  assert (Hsubs : subscribers c = generationHashSubscriptions es).
  { unfold c, s. rewrite run_subscribers_gh, Hcell. reflexivity. }
  assert (Hc' : c' = fst (cell_step shareReplay c Flushes)).
  { unfold c'. rewrite step_generationHashCell, Hgh. reflexivity. }
  split; [|split; [exact Hsubs|split; [|split]]].
  - unfold s. rewrite run_nodeInfoFetches, initial_nodeInfo, Hcfg. reflexivity.
  - intros k1 k2 h1 h2 H1 H2.
    apply (inv_log _ I) in H1 as [_ H1]. apply (inv_log _ I) in H2 as [_ H2].
    cbn in H1, H2. congruence.
  - intros h Hh k Hk. rewrite Hc'.
    destruct (flushed_delivered c k I ltac:(congruence) ltac:(lia))
      as [(v' & Hv' & Ho)|(e & He & _)]; [|congruence].
    rewrite Ho. congruence.
  - intros e He k Hk. rewrite Hc'.
    destruct (flushed_delivered c k I ltac:(congruence) ltac:(lia))
      as [(v' & Hv' & _)|(e' & He' & Ho)]; [congruence|].
    rewrite Ho. congruence.
Qed.

(** X8. A factory built with a non-empty generation hash never sends the
    node-info request, and every subscriber to the generation hash is handed
    the configured hash and the completion at once, no response and no
    callback round being needed. *)
Theorem generation_hash_supplied
    (url_ : string) (configs : option RepositoryFactoryConfig)
    (h : string) (es : list Event) :
  optional configs cfg_generationHash = Some h -> h <> EmptyString ->
  let this := fst (initial url_ configs) in
  let s := run this (snd (initial url_ configs)) es in
  getGenerationHash this = observableOf h /\
  nodeInfoFetches s = 0%nat /\
  forall k, (k < generationHashSubscriptions es)%nat ->
    observed k (log (generationHashCell s)) = [Next h; Complete].
Proof.
  intros Hcfg Hne this s.
  destruct (initial_cells url_ configs) as (_ & Hcell & _).
  destruct (initial_observables url_ configs) as [_ Hgh].
  rewrite Hcfg in Hgh. fold this in Hgh.
  assert (Ht : truthy (Some h) = true) by (destruct h; [contradiction|reflexivity]).
  unfold ifString in Hgh. rewrite Ht in Hgh.
  assert (I : of_inv h (generationHashCell s)).
  { apply run_of_inv_gh; [exact Hgh|]. rewrite Hcell. apply of_inv_new. }
  split; [exact Hgh|split].
  - unfold s. rewrite run_nodeInfoFetches, initial_nodeInfo, Hcfg.
    unfold ifString. now rewrite Ht.
  - intros k Hk. apply (of_served _ _ I).
    unfold s. rewrite run_subscribers_gh, Hcell. cbn. lia.
Qed.

(** ** Namespace calls wait for the network type *)

Lemma filter_or_disjoint {A : Type} (P Q : A -> bool) (l : list A) :
  (forall a, In a l -> P a = true -> Q a = false) ->
  length (filter (fun a => P a || Q a) l)
  = (length (filter P l) + length (filter Q l))%nat.
Proof.
  induction l as [|a l IH]; intros H; [reflexivity|]. cbn.
  assert (IH' := IH (fun b Hb => H b (or_intror Hb))).
  pose proof (H a (or_introl eq_refl)) as Ha.
  destruct (P a); cbn.
  - rewrite (Ha eq_refl). cbn. lia.
  - destruct (Q a); cbn; lia.
Qed.

Lemma isNextFor_observed (k : nat) (l : list (Delivery NetworkType)) :
  length (filter (isNextFor k) l) = length (filter isNext (observed k l)).
Proof.
  unfold observed. induction l as [|[k' n] l IH]; [reflexivity|].
  cbn [filter fst]. destruct (Nat.eqb_spec k' k) as [->|Hne].
  - cbn [map snd filter]. destruct n; cbn [isNextFor isNext];
      rewrite ?Nat.eqb_refl; cbn [length]; rewrite IH; reflexivity.
  - destruct n; cbn [isNextFor]; try exact IH.
    destruct (Nat.eqb_spec k' k); [contradiction|exact IH].
Qed.

Lemma lookup_none (k : nat) (w : list (nat * NamespaceHttp.Method)) :
  ~ In k (map fst w) -> lookup k w = None.
Proof.
  induction w as [|[k' m] w IH]; [reflexivity|]. cbn. intros H.
  destruct (Nat.eqb_spec k' k) as [->|_]; [exfalso; auto|]. apply IH. auto.
Qed.

Lemma count_triggers (w : list (nat * NamespaceHttp.Method))
    (l : list (Delivery NetworkType)) :
  NoDup (map fst w) ->
  (forall k, In k (map fst w) -> length (filter (isNextFor k) l) = 1%nat) ->
  length (filter (triggers w) l) = length w.
Proof.
  induction w as [|[k m] w IH]; intros Hnd Hone.
  - cbn. rewrite filter_nothing; [reflexivity|].
    apply Forall_forall. intros [k n] _. destruct n; reflexivity.
  - inversion Hnd as [|? ? Hk Hnd']; subst.
    rewrite (filter_ext (triggers ((k, m) :: w))
               (fun d => isNextFor k d || triggers w d)).
    2:{ intros [k' n]. destruct n as [v|e|]; cbn; try reflexivity.
        rewrite (Nat.eqb_sym k k').
        destruct (Nat.eqb_spec k' k); [reflexivity|].
        destruct (lookup k' w); reflexivity. }
    rewrite filter_or_disjoint.
    + rewrite (Hone k (or_introl eq_refl)), IH; auto.
      intros k' Hk'. apply Hone. now right.
    + intros [k' n] _ H. destruct n as [v|e|]; cbn in H; try discriminate.
      apply Nat.eqb_eq in H. subst k'. cbn. now rewrite (lookup_none k w Hk).
Qed.

Lemma cell_step_subscribers {T : Type} (o : Observable T) (c : Cell T)
    (e : CellEvent T) :
  subscribers (fst (cell_step o c e))
  = match e with
    | Subscribes => S (subscribers c)
    | _ => subscribers c
    end.
Proof.
  destruct o as [v|], e as [|outcome|]; cbn; try reflexivity.
  - destruct (shareReplay_subscribe _ _). reflexivity.
  - destruct (promise c); reflexivity.
  - destruct (source_settled _ _). reflexivity.
Qed.

Lemma log_bounded (url_ : string) (configs : option RepositoryFactoryConfig)
    (es : list Event) :
  let this := fst (initial url_ configs) in
  let c := networkTypeCell (run this (snd (initial url_ configs)) es) in
  forall k n, In (k, n) (log c) -> (k < subscribers c)%nat.
Proof.
  intros this c k n Hn.
  destruct (networkType_invariant url_ configs es) as [[_ I]|(v & _ & I)].
  - now apply (inv_log _ I) in Hn.
  - now destruct (of_log _ _ I _ _ Hn).
Qed.

Lemma namespaceCalls_snoc (es : list Event) (e : Event) :
  namespaceCalls (es ++ [e])
  = (namespaceCalls es + if isNamespaceCall e then 1 else 0)%nat.
Proof.
  unfold namespaceCalls. rewrite filter_app, length_app. cbn.
  destruct (isNamespaceCall e); reflexivity.
Qed.

(** The requests sent on namespace routes are as many as the values that
    reached waiting namespace calls; the waiting calls are numbered by
    distinct subscribers. *)
Lemma namespace_accounting (url_ : string)
    (configs : option RepositoryFactoryConfig) (es : list Event) :
  forallb wellRouted es = true ->
  let this := fst (initial url_ configs) in
  let s := run this (snd (initial url_ configs)) es in
  namespaceRequests s
  = length (filter (triggers (waiting s)) (log (networkTypeCell s))) /\
  Forall (fun k => (k < subscribers (networkTypeCell s))%nat)
         (map fst (waiting s)) /\
  NoDup (map fst (waiting s)) /\
  length (waiting s) = namespaceCalls es.
Proof.
  induction es as [|e es IH] using rev_ind; intros Hw this s.
  - destruct (initial_cells url_ configs) as (Hc & _ & Hwait).
    unfold s, namespaceRequests. cbn [run fold_left].
    rewrite Hc, Hwait, initial_requests. unfold ifNumber, ifString.
    repeat split; try constructor.
    destruct (optional configs cfg_networkType) as [n|]; [destruct (n =? 0)|];
      (destruct (optional configs cfg_generationHash) as [h|];
       [destruct (truthy (Some h))|]); reflexivity.
  - rewrite forallb_app in Hw. apply andb_true_iff in Hw as [Hes He].
    cbn in He. rewrite andb_true_r in He.
    destruct (IH Hes) as (HK & Hb & Hnd & Hlen). clear IH.
    unfold s. rewrite run_snoc.
    set (s0 := run this (snd (initial url_ configs)) es) in *.
    change (run (fst (initial url_ configs)) (snd (initial url_ configs)) es)
      with s0 in HK, Hb, Hnd, Hlen.
    pose proof (log_bounded url_ configs es) as Hlog. cbv zeta in Hlog.
    fold this in Hlog. fold s0 in Hlog.
    destruct (step_shape_routed this s0 e He)
      as (direct & added & out & Hr & Hl & Hd & Ha & Hcount & Hwait).
    assert (Hsubs : subscribers (networkTypeCell (step this s0 e))
                    = (subscribers (networkTypeCell s0)
                       + if isNamespaceCall e then 1
                         else match e with SubscribeNetworkType => 1 | _ => 0 end)%nat).
    { rewrite step_networkTypeCell.
      destruct e; cbn [networkTypeEvent isNamespaceCall];
        rewrite ?cell_step_subscribers; lia. }
    split; [|split; [|split]].
    + unfold namespaceRequests in *. rewrite Hr, Hl, Hwait, !filter_app, !length_app.
      rewrite (filter_nothing _ direct).
      2:{ eapply Forall_impl; [|exact Hd]. intros r (_ & _ & _ & H). exact H. }
      rewrite (forallb_filter_id _ added).
      2:{ apply forallb_forall. intros r Hin.
          rewrite Forall_forall in Ha. now destruct (Ha r Hin). }
      rewrite Hcount. cbn [length]. rewrite HK.
      f_equal. f_equal. apply filter_ext_in. intros [k n] Hin.
      destruct e; try reflexivity. cbn [step_waiting triggers].
      destruct n as [v|err|]; try reflexivity. cbn [lookup].
      apply Hlog in Hin.
      destruct (Nat.eqb_spec (subscribers (networkTypeCell s0)) k); [lia|reflexivity].
    + rewrite Hwait, Hsubs. destruct e; cbn [step_waiting isNamespaceCall map fst];
        try (eapply Forall_impl; [|exact Hb]; cbn; intros; lia).
      constructor; [lia|]. eapply Forall_impl; [|exact Hb]. cbn. intros. lia.
    + rewrite Hwait. destruct e; cbn [step_waiting map fst]; try exact Hnd.
      constructor; [|exact Hnd]. intros Hin.
      rewrite Forall_forall in Hb. apply Hb in Hin. lia.
    + rewrite Hwait, namespaceCalls_snoc.
      destruct e; cbn [step_waiting isNamespaceCall length]; lia.
Qed.

(** X9. A namespace call of a factory built without a network type sends
    nothing while the network type is not there: as long as the
    network-identity request is unanswered, and for good once it has failed,
    the log holds no request on a namespace route, however many namespace
    calls were made. *)
Theorem namespace_calls_wait_for_network_type
    (url_ : string) (configs : option RepositoryFactoryConfig)
    (es : list Event) :
  optional configs cfg_networkType = None ->
  forallb wellRouted es = true ->
  let this := fst (initial url_ configs) in
  let s := run this (snd (initial url_ configs)) es in
  (forall v, promise (networkTypeCell s) <> Fulfilled v) ->
  namespaceRequests s = 0%nat.
Proof.
  intros Hcfg Hw this s Hp.
  destruct (namespace_accounting url_ configs es Hw) as (HK & _).
  fold this in HK. fold s in HK. rewrite HK.
  destruct (initial_without_networkType url_ configs Hcfg) as (Hnt & _ & Hcell).
  fold this in Hnt.
  assert (I : shared_inv (networkTypeCell s)).
  { apply run_shared_inv; [exact Hnt|]. rewrite Hcell. apply shared_inv_new. }
  rewrite filter_nothing; [reflexivity|].
  apply Forall_forall. intros [k n] Hin. destruct n as [v|e|]; try reflexivity.
  apply (inv_log _ I) in Hin as [_ Hin]. cbn in Hin. destruct (Hp v Hin).
Qed.

(** X10. Once the network type has arrived, one round of promise callbacks
    makes every namespace call made so far send its request, once each: the
    requests on namespace routes are then exactly as many as the namespace
    calls of the schedule. *)
Theorem namespace_calls_sent_once_resolved
    (url_ : string) (configs : option RepositoryFactoryConfig)
    (es : list Event) (v : NetworkType) :
  optional configs cfg_networkType = None ->
  forallb wellRouted es = true ->
  let this := fst (initial url_ configs) in
  let s := run this (snd (initial url_ configs)) es in
  promise (networkTypeCell s) = Fulfilled v ->
  namespaceRequests (step this s Microtask) = namespaceCalls es.
Proof.
  intros Hcfg Hw this s Hp.
  assert (Hw' : forallb wellRouted (es ++ [Microtask]) = true).
  { rewrite forallb_app, Hw. reflexivity. }
  destruct (namespace_accounting url_ configs (es ++ [Microtask]) Hw')
    as (HK & Hb & Hnd & Hlen).
  fold this in HK, Hb, Hnd, Hlen. rewrite run_snoc in HK, Hb, Hnd, Hlen.
  fold s in HK, Hb, Hnd, Hlen.
  rewrite namespaceCalls_snoc in Hlen. cbn in Hlen. rewrite Nat.add_0_r in Hlen.
  rewrite HK, <- Hlen. apply count_triggers; [exact Hnd|].
  intros k Hk. rewrite isNextFor_observed.
  destruct (initial_without_networkType url_ configs Hcfg) as (Hnt & _ & Hcell).
  fold this in Hnt.
  assert (I : shared_inv (networkTypeCell s)).
  { apply run_shared_inv; [exact Hnt|]. rewrite Hcell. apply shared_inv_new. }
  rewrite Forall_forall in Hb. apply Hb in Hk.
  rewrite step_networkTypeCell, Hnt in Hk |- *. cbn [networkTypeEvent] in Hk |- *.
  rewrite cell_step_subscribers in Hk.
  destruct (flushed_delivered (networkTypeCell s) k I ltac:(congruence) Hk)
    as [(v' & _ & Ho)|(e & He & _)]; [|congruence].
  rewrite Ho. reflexivity.
Qed.

(** X11. With a network type supplied at construction a namespace call
    does not wait: at every point of every schedule the requests sent on
    namespace routes are exactly as many as the namespace calls made. *)
Theorem namespace_calls_sent_at_once_when_supplied
    (url_ : string) (configs : option RepositoryFactoryConfig)
    (nt : NetworkType) (es : list Event) :
  optional configs cfg_networkType = Some nt -> nt <> 0 ->
  forallb wellRouted es = true ->
  let this := fst (initial url_ configs) in
  let s := run this (snd (initial url_ configs)) es in
  namespaceRequests s = namespaceCalls es.
Proof.
  intros Hcfg Hnz Hw this s.
  destruct (namespace_accounting url_ configs es Hw) as (HK & Hb & Hnd & Hlen).
  fold this in HK, Hb, Hnd, Hlen. fold s in HK, Hb, Hnd, Hlen.
  rewrite HK, <- Hlen. apply count_triggers; [exact Hnd|].
  intros k Hk. rewrite isNextFor_observed.
  destruct (initial_with_networkType url_ configs nt Hcfg Hnz) as (Hnt & _ & Hcell).
  fold this in Hnt.
  assert (I : of_inv nt (networkTypeCell s)).
  { apply run_of_inv; [exact Hnt|]. rewrite Hcell. apply of_inv_new. }
  rewrite Forall_forall in Hb. apply Hb in Hk.
  rewrite (of_served _ _ I k Hk). reflexivity.
Qed.

(** ** The listener URL *)

Lemma stripTrailingSlash_append (s : string) :
  stripTrailingSlash (s ++ "/") = s.
Proof.
  induction s as [|c s IH]; [reflexivity|].
  cbn [append stripTrailingSlash]. rewrite IH.
  destruct (s ++ "/")%string eqn:Hs.
  - destruct s; discriminate.
  - destruct c as [[] [] [] [] [] [] [] []]; reflexivity.
Qed.

Lemma stripTrailingSlash_id (s : string) :
  endsWithSlash s = false -> stripTrailingSlash s = s.
Proof.
  induction s as [|c s IH]; [reflexivity|]. cbn [endsWithSlash stripTrailingSlash].
  destruct s as [|c' s'].
  - destruct c as [[] [] [] [] [] [] [] []]; try reflexivity. discriminate.
  - intros H.
    assert (H' : endsWithSlash (String c' s') = false).
    { destruct c as [[] [] [] [] [] [] [] []]; exact H. }
    assert (E : stripTrailingSlash (String c (String c' s'))
                = String c (stripTrailingSlash (String c' s'))).
    { destruct c as [[] [] [] [] [] [] [] []]; reflexivity. }
    destruct c as [[] [] [] [] [] [] [] []]; rewrite (IH H'); reflexivity.
Qed.

Lemma initial_websocketUrl (url_ : string)
    (configs : option RepositoryFactoryConfig) :
  websocketUrl (fst (initial url_ configs))
  = ifString (optional configs cfg_websocketUrl) (fun w => w)
      (stripTrailingSlash url_ ++ "/ws").
Proof.
  unfold initial, new, seq, ifNumber.
  destruct (optional configs cfg_networkType) as [n|]; [destruct (n =? 0)|];
    unfold ifString at 1;
    (destruct (optional configs cfg_generationHash) as [h|];
     [destruct (truthy (Some h))|]); reflexivity.
Qed.

(** X12. The listener is given the configured websocket URL when one is
    configured and not empty; otherwise the node URL with [/ws] appended,
    one trailing slash of the node URL being dropped first, so that a node
    URL with and without a final slash give the same listener URL. The
    listener's namespace repository shares the factory's network-type
    observable. *)
Theorem listener_url_from_configuration
    (url_ : string) (configs : option RepositoryFactoryConfig) :
  (forall w, optional configs cfg_websocketUrl = Some w -> w <> EmptyString ->
     listener_url (createListener (fst (initial url_ configs))) = w) /\
  (optional configs cfg_websocketUrl = None \/
   optional configs cfg_websocketUrl = Some EmptyString ->
     listener_url (createListener (fst (initial (url_ ++ "/") configs)))
     = url_ ++ "/ws" /\
     (endsWithSlash url_ = false ->
      listener_url (createListener (fst (initial url_ configs)))
      = url_ ++ "/ws")) /\
  NamespaceHttp.networkTypeObservable
    (listener_namespaceRepository (createListener (fst (initial url_ configs))))
  = getNetworkType (fst (initial url_ configs)).
Proof.
  unfold createListener. cbn [listener_url listener_namespaceRepository].
  rewrite !initial_websocketUrl. split; [|split].
  - intros w -> Hw. unfold ifString. destruct w; [contradiction|reflexivity].
  - intros H.
    assert (E : forall u, ifString (optional configs cfg_websocketUrl)
                            (fun w => w) u = u).
    { intros u. destruct H as [-> | ->]; reflexivity. }
    rewrite !E, stripTrailingSlash_append. split; [reflexivity|].
    intros Hs. now rewrite stripTrailingSlash_id.
  - reflexivity.
Qed.

(** ** Alias decoding and the linked values *)

(** X13. The variant [extractAlias] returns is decided by the discriminator:
    a mosaic alias comes only from the mosaic type and holds the identifier
    made from the [mosaicId] field, an address alias only from the address
    type and holds the address decoded from the [address] field; and the
    outcome depends on nothing but the discriminator and the payload field
    that goes with it. *)
Theorem extractAlias_follows_the_discriminator :
  (forall ns m,
      NamespaceHttp.extractAlias ns = Ok (MosaicAlias m) ->
      exists a, alias ns = Some a /\ alias_type a = AliasType.Mosaic /\
                MosaicId.create (alias_mosaicId a) = Ok m) /\
  (forall ns ad,
      NamespaceHttp.extractAlias ns = Ok (AddressAlias ad) ->
      exists a payload,
        alias ns = Some a /\ alias_type a = AliasType.Address /\
        alias_address a = Some payload /\
        Address.createFromEncoded payload = Ok ad) /\
  (forall ns ns' a a',
      alias ns = Some a -> alias ns' = Some a' ->
      alias_type a = alias_type a' ->
      (alias_type a = AliasType.Mosaic -> alias_mosaicId a = alias_mosaicId a') ->
      (alias_type a = AliasType.Address -> alias_address a = alias_address a') ->
      NamespaceHttp.extractAlias ns = NamespaceHttp.extractAlias ns').
Proof.
  split; [|split].
  - intros ns m. unfold NamespaceHttp.extractAlias.
    destruct (alias ns) as [a|]; [|discriminate].
    destruct (Z.eqb_spec (alias_type a) AliasType.Mosaic) as [Ht|_].
    + unfold fmap, bind. destruct (MosaicId.create _) as [m'|] eqn:Hm;
        [|discriminate]. intros [= <-]. exists a.
      split; [reflexivity|]. split; [exact Ht|exact Hm].
    + destruct (alias_type a =? AliasType.Address); [|discriminate].
      unfold fmap, bind. destruct (requirePayload _); [|discriminate].
      destruct (Address.createFromEncoded _); discriminate.
  - intros ns ad. unfold NamespaceHttp.extractAlias.
    destruct (alias ns) as [a|]; [|discriminate].
    destruct (Z.eqb_spec (alias_type a) AliasType.Mosaic) as [Ht|_].
    + unfold fmap, bind. destruct (MosaicId.create _); discriminate.
    + destruct (Z.eqb_spec (alias_type a) AliasType.Address) as [Ha|_];
        [|discriminate].
      unfold fmap, bind, requirePayload.
      destruct (alias_address a) as [payload|] eqn:Hp; [|discriminate].
      destruct (Address.createFromEncoded payload) as [ad'|] eqn:Hd;
        [|discriminate]. intros [= <-]. exists a, payload.
      split; [reflexivity|]. split; [exact Ha|]. split; [exact Hp|exact Hd].
  - intros ns ns' a a' Ha Ha' Ht Hm Hd. unfold NamespaceHttp.extractAlias.
    rewrite Ha, Ha', <- Ht.
    destruct (Z.eqb_spec (alias_type a) AliasType.Mosaic) as [E|_].
    + now rewrite (Hm E).
    + destruct (Z.eqb_spec (alias_type a) AliasType.Address) as [E|_];
        [now rewrite (Hd E) | reflexivity].
Qed.

(** X14. The linked values agree with the alias of the namespace: when
    [getLinkedMosaicId] returns an identifier, [extractAlias] gives the mosaic
    alias holding that identifier, and [getLinkedAddress] reports that no
    address is linked; when [getLinkedAddress] returns an address,
    [extractAlias] gives the address alias holding it, and [getLinkedMosaicId]
    reports that no mosaicId is linked. *)
Theorem linked_values_agree_with_the_alias (body : NamespaceInfoDTO) :
  (forall m, NamespaceHttp.getLinkedMosaicId_map body = Ok m ->
     exists ns, namespace body = Some ns /\
       NamespaceHttp.extractAlias ns = Ok (MosaicAlias m) /\
       NamespaceHttp.getLinkedAddress_map body
       = Throw (ThrownError
                  ("No address is linked to namespace '" ++ level0 ns ++ "'"))) /\
  (forall ad, NamespaceHttp.getLinkedAddress_map body = Ok ad ->
     exists ns, namespace body = Some ns /\
       NamespaceHttp.extractAlias ns = Ok (AddressAlias ad) /\
       NamespaceHttp.getLinkedMosaicId_map body
       = Throw (ThrownError
                  ("No mosaicId is linked to namespace '" ++ level0 ns ++ "'"))).
Proof.
  unfold NamespaceHttp.getLinkedMosaicId_map, NamespaceHttp.getLinkedAddress_map,
    NamespaceHttp.extractAlias.
  split.
  - intros m. destruct (namespace body) as [ns|]; [|discriminate].
    destruct (alias ns) as [a|] eqn:Hal; [|discriminate].
    destruct (Z.eqb_spec (alias_type a) AliasType.None) as [|_]; [discriminate|].
    destruct (alias_type a =? AliasType.Mosaic) eqn:Ht; [|discriminate].
    cbn [negb orb]. destruct (truthy (alias_mosaicId a)); [|discriminate].
    cbn [negb]. unfold decoded.
    destruct (MosaicId.create (alias_mosaicId a)) as [m'|] eqn:Hm; [|discriminate].
    intros [= <-]. exists ns. rewrite Hal, Ht, Hm.
    split; [reflexivity|]. split; [reflexivity|].
    apply Z.eqb_eq in Ht. rewrite Ht. reflexivity.
  - intros ad. destruct (namespace body) as [ns|]; [|discriminate].
    destruct (alias ns) as [a|] eqn:Hal; [|discriminate].
    destruct (Z.eqb_spec (alias_type a) AliasType.None) as [|_]; [discriminate|].
    destruct (alias_type a =? AliasType.Address) eqn:Ht; [|discriminate].
    cbn [negb orb]. destruct (truthy (alias_address a)); [|discriminate].
    cbn [negb]. unfold decoded, Address.createFromEncoded, fmap.
    destruct (bind (requirePayload (alias_address a)) _) as [ad'|] eqn:Hd;
      [|discriminate].
    intros [= <-]. exists ns. rewrite Hal, Ht.
    apply Z.eqb_eq in Ht. rewrite Ht. cbn [Z.eqb AliasType.Address AliasType.Mosaic].
    split; [reflexivity|]. split; [|reflexivity].
    unfold fmap. rewrite Hd. reflexivity.
Qed.

(** ** The mapping functions *)

Lemma setLevels_bound (ns : NamespaceDTO) : (length (setLevels ns) <= 3)%nat.
Proof.
  unfold setLevels.
  destruct (level0 ns) as [|c0 s0], (level1 ns) as [[|c1 s1]|],
    (level2 ns) as [[|c2 s2]|]; cbn; lia.
Qed.

Lemma extractLevels_setLevels (ns : NamespaceDTO) :
  NamespaceHttp.extractLevels ns
  = mapM NamespaceId.createFromEncoded (setLevels ns).
Proof.
  unfold NamespaceHttp.extractLevels, setLevels.
  destruct (level0 ns) as [|c0 s0], (level1 ns) as [[|c1 s1]|],
    (level2 ns) as [[|c2 s2]|];
    cbn -[NamespaceId.createFromEncoded];
    repeat match goal with
           | |- context [NamespaceId.createFromEncoded ?x] =>
               destruct (NamespaceId.createFromEncoded x);
               cbn -[NamespaceId.createFromEncoded]
           end; reflexivity.
Qed.

(** X15. [extractLevels] decodes, in order, exactly those of [level0],
    [level1], [level2] that are set (present and not the empty string): a
    level that is not set is skipped without ending the list, the first level
    that does not decode ends the mapping with its error, and on success the
    result holds one identifier for each set level, at most three. *)
Theorem extractLevels_decodes_the_set_levels (ns : NamespaceDTO) :
  NamespaceHttp.extractLevels ns
  = mapM NamespaceId.createFromEncoded (setLevels ns) /\
  (length (setLevels ns) <= 3)%nat /\
  (forall ls, NamespaceHttp.extractLevels ns = Ok ls ->
     Forall2 (fun l i => NamespaceId.createFromEncoded l = Ok i)
             (setLevels ns) ls /\
     length ls = length (setLevels ns)).
Proof.
  split; [apply extractLevels_setLevels|]. split; [apply setLevels_bound|].
  intros ls H. rewrite extractLevels_setLevels in H.
  apply mapM_Ok in H. split; [exact H|].
  symmetry. exact (Forall2_length H).
Qed.

(** X16. A namespace info is built only from a body that has its [namespace]
    object, and exactly when the levels, the parent identifier, the owner
    account, the two heights and the alias can all be built; it then holds
    these very values, the owner being built from the owner key on the
    network type that was passed in. The arguments are evaluated in the
    order they are written: a failure of the levels is reported whatever the
    rest holds, a failure of the owner account before any failure of the
    heights or of the alias, and a failure of the alias only when everything
    before it was built. *)
Theorem toNamespaceInfo_components
    (PublicAccount_ : PublicAccount.Class)
    (dto : NamespaceInfoDTO) (networkType : NetworkType) :
  (forall info,
      NamespaceHttp.toNamespaceInfo PublicAccount_ dto networkType = Ok info ->
      exists ns,
        namespace dto = Some ns /\
        NamespaceHttp.extractLevels ns = Ok (NamespaceHttp.levels info) /\
        NamespaceId.createFromEncoded (parentId ns)
        = Ok (NamespaceHttp.info_parentId info) /\
        PublicAccount.createFromPublicKey PublicAccount_
          (ownerPublicKey ns) networkType
        = Ok (NamespaceHttp.owner info) /\
        UInt64.fromNumericString (startHeight ns)
        = Ok (NamespaceHttp.info_startHeight info) /\
        UInt64.fromNumericString (endHeight ns)
        = Ok (NamespaceHttp.info_endHeight info) /\
        NamespaceHttp.extractAlias ns = Ok (NamespaceHttp.info_alias info)) /\
  (forall ns ls p o sh eh al,
      namespace dto = Some ns ->
      NamespaceHttp.extractLevels ns = Ok ls ->
      NamespaceId.createFromEncoded (parentId ns) = Ok p ->
      PublicAccount.createFromPublicKey PublicAccount_
        (ownerPublicKey ns) networkType = Ok o ->
      UInt64.fromNumericString (startHeight ns) = Ok sh ->
      UInt64.fromNumericString (endHeight ns) = Ok eh ->
      NamespaceHttp.extractAlias ns = Ok al ->
      NamespaceHttp.toNamespaceInfo PublicAccount_ dto networkType
      = Ok {| NamespaceHttp.active := meta_active (meta dto);
              NamespaceHttp.index := meta_index (meta dto);
              NamespaceHttp.metaId := meta_id (meta dto);
              NamespaceHttp.info_registrationType := registrationType ns;
              NamespaceHttp.info_depth := depth ns;
              NamespaceHttp.levels := ls;
              NamespaceHttp.info_parentId := p;
              NamespaceHttp.owner := o;
              NamespaceHttp.info_startHeight := sh;
              NamespaceHttp.info_endHeight := eh;
              NamespaceHttp.info_alias := al |}) /\
  (forall ns e,
      namespace dto = Some ns ->
      NamespaceHttp.extractLevels ns = Throw e ->
      NamespaceHttp.toNamespaceInfo PublicAccount_ dto networkType
      = Throw (ThrownDecode e)) /\
  (forall ns ls p e,
      namespace dto = Some ns ->
      NamespaceHttp.extractLevels ns = Ok ls ->
      NamespaceId.createFromEncoded (parentId ns) = Ok p ->
      PublicAccount.createFromPublicKey PublicAccount_
        (ownerPublicKey ns) networkType = Throw e ->
      NamespaceHttp.toNamespaceInfo PublicAccount_ dto networkType
      = Throw (ThrownDecode e)) /\
  (forall ns ls p o sh eh e,
      namespace dto = Some ns ->
      NamespaceHttp.extractLevels ns = Ok ls ->
      NamespaceId.createFromEncoded (parentId ns) = Ok p ->
      PublicAccount.createFromPublicKey PublicAccount_
        (ownerPublicKey ns) networkType = Ok o ->
      UInt64.fromNumericString (startHeight ns) = Ok sh ->
      UInt64.fromNumericString (endHeight ns) = Ok eh ->
      NamespaceHttp.extractAlias ns = Throw e ->
      NamespaceHttp.toNamespaceInfo PublicAccount_ dto networkType
      = Throw (ThrownDecode e)).
Proof.
  unfold NamespaceHttp.toNamespaceInfo. split; [|split; [|split; [|split]]].
  - intros info. destruct (namespace dto) as [ns|]; [|discriminate].
    unfold decoded, bind.
    destruct (NamespaceHttp.extractLevels ns) as [ls|] eqn:H1; [|discriminate].
    destruct (NamespaceId.createFromEncoded (parentId ns)) as [p|] eqn:H2;
      [|discriminate].
    destruct (PublicAccount.createFromPublicKey PublicAccount_ _ _)
      as [o|] eqn:H3; [|discriminate].
    destruct (UInt64.fromNumericString (startHeight ns)) as [sh|] eqn:H4;
      [|discriminate].
    destruct (UInt64.fromNumericString (endHeight ns)) as [eh|] eqn:H5;
      [|discriminate].
    destruct (NamespaceHttp.extractAlias ns) as [al|] eqn:H6; [|discriminate].
    intros [= <-]. exists ns. cbn. rewrite H1, H2, H3, H4, H5, H6.
    repeat split.
  - intros ns ls p o sh eh al -> -> -> -> -> -> ->. reflexivity.
  - intros ns e -> ->. reflexivity.
  - intros ns ls p e -> -> -> ->. reflexivity.
  - intros ns ls p o sh eh e -> -> -> -> -> -> ->. reflexivity.
Qed.

Lemma Forall2_In_left {A B : Type} (P : A -> B -> Prop) :
  forall (l : list A) (l' : list B) (a : A),
    Forall2 P l l' -> In a l -> exists b, In b l' /\ P a b.
Proof.
  intros l l' a H. induction H as [|x y l l' Hxy _ IH]; intros Hin.
  - destruct Hin.
  - destruct Hin as [<- | Hin].
    + exists y. split; [now left | exact Hxy].
    + destruct (IH Hin) as [b [Hb Hp]]. exists b. split; [now right | exact Hp].
Qed.

Lemma mapM_complete {E A B : Type} (f : A -> result E B) :
  forall l bs, Forall2 (fun a b => f a = Ok b) l bs -> mapM f l = Ok bs.
Proof.
  intros l bs H. induction H as [|a b l bs Hab _ IH]; [reflexivity|].
  cbn. now rewrite Hab, IH.
Qed.

(** X17. An account info is built element by element: on success it holds
    one mosaic for each mosaic of the wire object and one activity bucket for
    each wire bucket, in order, each decoded from its own strings, and one
    key for each supplemental key. It is built whenever the address, the
    four numerals of the account and every mosaic and bucket decode, and
    then holds exactly these mosaics and buckets; a single mosaic or bucket
    that does not decode makes the whole mapping fail. *)
Theorem toAccountInfo_elementwise (dto : AccountHttp.AccountInfoDTO) :
  (forall info,
     AccountHttp.toAccountInfo dto = Ok info ->
     Forall2 (fun d m =>
                MosaicId.create (Some (AccountHttp.mosaic_id d))
                = Ok (AccountHttp.id m) /\
                UInt64.fromNumericString (AccountHttp.mosaic_amount d)
                = Ok (AccountHttp.amount m))
             (AccountHttp.dto_mosaics (AccountHttp.account dto))
             (AccountHttp.mosaics info) /\
     Forall2 (fun d b =>
                UInt64.fromNumericString (AccountHttp.bucket_startHeight d)
                = Ok (AccountHttp.startHeight b) /\
                UInt64.fromNumericString (AccountHttp.bucket_totalFeesPaid d)
                = Ok (AccountHttp.totalFeesPaid b) /\
                UInt64.fromNumericString (AccountHttp.bucket_rawScore d)
                = Ok (AccountHttp.rawScore b) /\
                AccountHttp.bucket_beneficiaryCount d
                = AccountHttp.beneficiaryCount b)
             (AccountHttp.dto_activityBuckets (AccountHttp.account dto))
             (AccountHttp.activityBucket info) /\
     Forall2 (fun d k =>
                AccountHttp.keyType d = AccountHttp.accountKey_keyType k /\
                AccountHttp.key d = AccountHttp.accountKey_key k)
             (AccountHttp.dto_supplementalAccountKeys (AccountHttp.account dto))
             (AccountHttp.supplementalAccountKeys info) /\
     Address.createFromEncoded (AccountHttp.dto_address (AccountHttp.account dto))
     = Ok (AccountHttp.address info)) /\
  (forall ad ah pkh bs ms imp imph,
     Address.createFromEncoded (AccountHttp.dto_address (AccountHttp.account dto))
     = Ok ad ->
     UInt64.fromNumericString
       (AccountHttp.dto_addressHeight (AccountHttp.account dto)) = Ok ah ->
     UInt64.fromNumericString
       (AccountHttp.dto_publicKeyHeight (AccountHttp.account dto)) = Ok pkh ->
     Forall2 (fun d b =>
                UInt64.fromNumericString (AccountHttp.bucket_startHeight d)
                = Ok (AccountHttp.startHeight b) /\
                UInt64.fromNumericString (AccountHttp.bucket_totalFeesPaid d)
                = Ok (AccountHttp.totalFeesPaid b) /\
                UInt64.fromNumericString (AccountHttp.bucket_rawScore d)
                = Ok (AccountHttp.rawScore b) /\
                AccountHttp.bucket_beneficiaryCount d
                = AccountHttp.beneficiaryCount b)
             (AccountHttp.dto_activityBuckets (AccountHttp.account dto)) bs ->
     Forall2 (fun d m =>
                MosaicId.create (Some (AccountHttp.mosaic_id d))
                = Ok (AccountHttp.id m) /\
                UInt64.fromNumericString (AccountHttp.mosaic_amount d)
                = Ok (AccountHttp.amount m))
             (AccountHttp.dto_mosaics (AccountHttp.account dto)) ms ->
     UInt64.fromNumericString
       (AccountHttp.dto_importance (AccountHttp.account dto)) = Ok imp ->
     UInt64.fromNumericString
       (AccountHttp.dto_importanceHeight (AccountHttp.account dto)) = Ok imph ->
     exists info,
       AccountHttp.toAccountInfo dto = Ok info /\
       AccountHttp.address info = ad /\
       AccountHttp.mosaics info = ms /\
       AccountHttp.activityBucket info = bs) /\
  (forall d e,
     In d (AccountHttp.dto_mosaics (AccountHttp.account dto)) ->
     UInt64.fromNumericString (AccountHttp.mosaic_amount d) = Throw e ->
     forall info, AccountHttp.toAccountInfo dto <> Ok info) /\
  (forall d e,
     In d (AccountHttp.dto_activityBuckets (AccountHttp.account dto)) ->
     UInt64.fromNumericString (AccountHttp.bucket_rawScore d) = Throw e ->
     forall info, AccountHttp.toAccountInfo dto <> Ok info).
Proof.
  assert (Hmain : forall info,
     AccountHttp.toAccountInfo dto = Ok info ->
     Forall2 (fun d m =>
                MosaicId.create (Some (AccountHttp.mosaic_id d))
                = Ok (AccountHttp.id m) /\
                UInt64.fromNumericString (AccountHttp.mosaic_amount d)
                = Ok (AccountHttp.amount m))
             (AccountHttp.dto_mosaics (AccountHttp.account dto))
             (AccountHttp.mosaics info) /\
     Forall2 (fun d b =>
                UInt64.fromNumericString (AccountHttp.bucket_startHeight d)
                = Ok (AccountHttp.startHeight b) /\
                UInt64.fromNumericString (AccountHttp.bucket_totalFeesPaid d)
                = Ok (AccountHttp.totalFeesPaid b) /\
                UInt64.fromNumericString (AccountHttp.bucket_rawScore d)
                = Ok (AccountHttp.rawScore b) /\
                AccountHttp.bucket_beneficiaryCount d
                = AccountHttp.beneficiaryCount b)
             (AccountHttp.dto_activityBuckets (AccountHttp.account dto))
             (AccountHttp.activityBucket info) /\
     Forall2 (fun d k =>
                AccountHttp.keyType d = AccountHttp.accountKey_keyType k /\
                AccountHttp.key d = AccountHttp.accountKey_key k)
             (AccountHttp.dto_supplementalAccountKeys (AccountHttp.account dto))
             (AccountHttp.supplementalAccountKeys info) /\
     Address.createFromEncoded (AccountHttp.dto_address (AccountHttp.account dto))
     = Ok (AccountHttp.address info)).
  { intros info. unfold AccountHttp.toAccountInfo. unfold bind at 1 2 3 4 5 6 7.
    destruct (Address.createFromEncoded _) as [ad|]; [|discriminate].
    destruct (UInt64.fromNumericString (AccountHttp.dto_addressHeight _));
      [|discriminate].
    destruct (UInt64.fromNumericString (AccountHttp.dto_publicKeyHeight _));
      [|discriminate].
    destruct (mapM _ (AccountHttp.dto_activityBuckets _)) as [bs|] eqn:Hb;
      [|discriminate].
    destruct (mapM _ (AccountHttp.dto_mosaics _)) as [ms|] eqn:Hm;
      [|discriminate].
    destruct (UInt64.fromNumericString (AccountHttp.dto_importance _));
      [|discriminate].
    destruct (UInt64.fromNumericString (AccountHttp.dto_importanceHeight _));
      [|discriminate].
    intros [= <-].
    cbn [AccountHttp.mosaics AccountHttp.activityBucket
         AccountHttp.supplementalAccountKeys AccountHttp.address].
    apply mapM_Ok in Hb, Hm. split; [|split; [|split]].
    - eapply Forall2_impl; [|exact Hm]. cbv beta. intros d m. unfold bind.
      destruct (MosaicId.create _); [|discriminate].
      destruct (UInt64.fromNumericString _); [|discriminate].
      intros [= <-]. split; reflexivity.
    - eapply Forall2_impl; [|exact Hb]. cbv beta. intros d b. unfold bind.
      destruct (UInt64.fromNumericString (AccountHttp.bucket_startHeight d));
        [|discriminate].
      destruct (UInt64.fromNumericString (AccountHttp.bucket_totalFeesPaid d));
        [|discriminate].
      destruct (UInt64.fromNumericString (AccountHttp.bucket_rawScore d));
        [|discriminate].
      intros [= <-]. repeat split.
    - induction (AccountHttp.dto_supplementalAccountKeys (AccountHttp.account dto));
        cbn; constructor; auto.
    - reflexivity. }
  split; [exact Hmain|]. split; [|split].
  - intros ad ah pkh bs ms imp imph Had Hah Hpkh Hbs Hms Himp Himph.
    unfold AccountHttp.toAccountInfo. rewrite Had, Hah, Hpkh.
    cbn [bind].
    rewrite (mapM_complete _ _ bs).
    2:{ eapply Forall2_impl; [|exact Hbs]. cbv beta.
        intros d [sh tf bc rs]; cbn. intros (-> & -> & -> & ->). reflexivity. }
    cbn [bind].
    rewrite (mapM_complete _ _ ms).
    2:{ eapply Forall2_impl; [|exact Hms]. cbv beta.
        intros d [i a]; cbn -[MosaicId.create]. intros (-> & ->). reflexivity. }
    cbn [bind]. rewrite Himp, Himph. cbn [bind].
    eexists. split; [reflexivity|]. repeat split.
  - intros d e Hin He info Hok.
    destruct (Hmain info Hok) as [Hm _].
    destruct (Forall2_In_left _ _ _ _ Hm Hin) as [m [_ [_ Hd]]].
    congruence.
  - intros d e Hin He info Hok.
    destruct (Hmain info Hok) as [_ [Hb _]].
    destruct (Forall2_In_left _ _ _ _ Hb Hin) as [b [_ [_ [_ [Hd _]]]]].
    congruence.
Qed.

(** X18. A block info is built exactly when the total fee, the height, the
    timestamp and the difficulty decode and the signer account, and the
    beneficiary account when the wire object carries a beneficiary key that
    is not the empty string, can be built. Signer and beneficiary are built
    on the block's own network; the info has a beneficiary exactly when the
    wire object carries a non-empty beneficiary key, and it is the account
    built from that key. The signer is built right after the total fee: a
    fee that does not decode is reported whatever the rest holds, and a
    signer that cannot be built before any failure of the height, the
    timestamp, the difficulty or the beneficiary. *)
Theorem toBlockInfo_accounts
    (PublicAccount_ : PublicAccount.Class) (dto : BlockHttp.BlockInfoDTO) :
  let network := BlockHttp.block_network (BlockHttp.block dto) in
  (forall info,
     BlockHttp.toBlockInfo PublicAccount_ dto = Ok info ->
     BlockHttp.networkType info = network /\
     PublicAccount.createFromPublicKey PublicAccount_
       (BlockHttp.block_signerPublicKey (BlockHttp.block dto)) network
     = Ok (BlockHttp.signer info) /\
     (forall b, BlockHttp.beneficiaryPublicKey info = Some b ->
        exists k,
          BlockHttp.block_beneficiaryPublicKey (BlockHttp.block dto) = Some k /\
          k <> EmptyString /\
          PublicAccount.createFromPublicKey PublicAccount_ k network = Ok b) /\
     (BlockHttp.beneficiaryPublicKey info = None <->
      truthy (BlockHttp.block_beneficiaryPublicKey (BlockHttp.block dto))
      = false)) /\
  ((exists info, BlockHttp.toBlockInfo PublicAccount_ dto = Ok info) <->
   (exists f s h t d,
      UInt64.fromNumericString (BlockHttp.meta_totalFee (BlockHttp.meta dto))
      = Ok f /\
      PublicAccount.createFromPublicKey PublicAccount_
        (BlockHttp.block_signerPublicKey (BlockHttp.block dto)) network
      = Ok s /\
      UInt64.fromNumericString (BlockHttp.block_height (BlockHttp.block dto))
      = Ok h /\
      UInt64.fromNumericString (BlockHttp.block_timestamp (BlockHttp.block dto))
      = Ok t /\
      UInt64.fromNumericString (BlockHttp.block_difficulty (BlockHttp.block dto))
      = Ok d /\
      (forall k,
         BlockHttp.block_beneficiaryPublicKey (BlockHttp.block dto) = Some k ->
         k <> EmptyString ->
         exists b,
           PublicAccount.createFromPublicKey PublicAccount_ k network = Ok b))) /\
  (forall e,
     UInt64.fromNumericString (BlockHttp.meta_totalFee (BlockHttp.meta dto))
     = Throw e ->
     BlockHttp.toBlockInfo PublicAccount_ dto = Throw e) /\
  (forall f e,
     UInt64.fromNumericString (BlockHttp.meta_totalFee (BlockHttp.meta dto))
     = Ok f ->
     PublicAccount.createFromPublicKey PublicAccount_
       (BlockHttp.block_signerPublicKey (BlockHttp.block dto)) network
     = Throw e ->
     BlockHttp.toBlockInfo PublicAccount_ dto = Throw e).
Proof.
  cbv zeta. unfold BlockHttp.toBlockInfo, bind.
  split; [|split; [|split]].
  - intros info.
    destruct (UInt64.fromNumericString (BlockHttp.meta_totalFee _));
      [|discriminate].
    destruct (PublicAccount.createFromPublicKey PublicAccount_
                (BlockHttp.block_signerPublicKey _) _) as [s|] eqn:Hs;
      [|discriminate].
    destruct (UInt64.fromNumericString (BlockHttp.block_height _));
      [|discriminate].
    destruct (UInt64.fromNumericString (BlockHttp.block_timestamp _));
      [|discriminate].
    destruct (UInt64.fromNumericString (BlockHttp.block_difficulty _));
      [|discriminate].
    destruct (BlockHttp.block_beneficiaryPublicKey (BlockHttp.block dto))
      as [[|c k]|] eqn:Hk; cbn [truthy fmap].
    + intros [= <-].
      cbn [BlockHttp.networkType BlockHttp.signer BlockHttp.beneficiaryPublicKey].
      split; [reflexivity|]. split; [reflexivity|].
      split; [intros b; discriminate|]. split; reflexivity.
    + destruct (PublicAccount.createFromPublicKey PublicAccount_
                  (String c k) _) as [b|] eqn:Hb; [|discriminate].
      intros [= <-].
      cbn [BlockHttp.networkType BlockHttp.signer BlockHttp.beneficiaryPublicKey].
      split; [reflexivity|]. split; [reflexivity|]. split.
      * intros b' [= <-]. exists (String c k).
        split; [reflexivity|]. split; [discriminate|exact Hb].
      * split; discriminate.
    + intros [= <-].
      cbn [BlockHttp.networkType BlockHttp.signer BlockHttp.beneficiaryPublicKey].
      split; [reflexivity|]. split; [reflexivity|].
      split; [intros b; discriminate|]. split; reflexivity.
  - destruct (UInt64.fromNumericString (BlockHttp.meta_totalFee _)) as [f|];
      [|split; [intros [? ?]; discriminate
               |intros (? & ? & ? & ? & ? & ? & _); discriminate]].
    destruct (PublicAccount.createFromPublicKey PublicAccount_
                (BlockHttp.block_signerPublicKey _) _) as [s|];
      [|split; [intros [? ?]; discriminate
               |intros (? & ? & ? & ? & ? & _ & ? & _); discriminate]].
    destruct (UInt64.fromNumericString (BlockHttp.block_height _)) as [h|];
      [|split; [intros [? ?]; discriminate
               |intros (? & ? & ? & ? & ? & _ & _ & ? & _); discriminate]].
    destruct (UInt64.fromNumericString (BlockHttp.block_timestamp _)) as [t|];
      [|split; [intros [? ?]; discriminate
               |intros (? & ? & ? & ? & ? & _ & _ & _ & ? & _); discriminate]].
    destruct (UInt64.fromNumericString (BlockHttp.block_difficulty _)) as [d|];
      [|split; [intros [? ?]; discriminate
               |intros (? & ? & ? & ? & ? & _ & _ & _ & _ & ? & _); discriminate]].
    destruct (BlockHttp.block_beneficiaryPublicKey (BlockHttp.block dto))
      as [[|c k]|]; cbn [truthy fmap].
    + split; intros _; [|eexists; reflexivity].
      exists f, s, h, t, d. repeat split. intros k [= <-] Hk. contradiction.
    + destruct (PublicAccount.createFromPublicKey PublicAccount_
                  (String c k) _) as [b|] eqn:Hb.
      * split; intros _; [|eexists; reflexivity].
        exists f, s, h, t, d. repeat split. intros k' [= <-] _. now exists b.
      * split; [intros [? ?]; discriminate|].
        intros (? & ? & ? & ? & ? & _ & _ & _ & _ & _ & H).
        destruct (H (String c k) eq_refl ltac:(discriminate)) as [b Hb'].
        congruence.
    + split; intros _; [|eexists; reflexivity].
      exists f, s, h, t, d. repeat split. intros k; discriminate.
  - intros e ->. reflexivity.
  - intros f e -> ->. reflexivity.
Qed.

(** ** The properties at concrete inputs *)

Lemma constructor_requests_witness :
  (optional None cfg_networkType = None \/
   optional None cfg_networkType = Some 0) /\
  (networkType (fst (initial "http://node:3000" None)) = shareReplay /\
   networkIdentityFetches (snd (initial "http://node:3000" None)) = 1%nat /\
   hd_error (requests (snd (initial "http://node:3000" None)))
   = Some {| basePath := "http://node:3000";
             request := NetworkIdentityRequest |}).
Proof.
  split; [left; reflexivity|].
  exact (proj1 (proj2 (constructor_requests "http://node:3000" None))
           (or_introl eq_refl)).
Defined.

Lemma network_type_is_stable_witness :
  let this := fst (initial "http://node:3000" None) in
  let es := [SubscribeNetworkType; NetworkIdentityResponse (inr 152);
             Microtask] in
  let es' := [SubscribeNetworkType; NetworkIdentityResponse (inr 104);
              Microtask] in
  let s := run this (snd (initial "http://node:3000" None)) es in
  let s' := run this (snd (initial "http://node:3000" None)) (es ++ es')%list in
  promise (networkTypeCell s) <> Pending /\
  promise (networkTypeCell s') = promise (networkTypeCell s).
Proof.
  cbv zeta.
  assert (H : promise (networkTypeCell
                (run (fst (initial "http://node:3000" None))
                     (snd (initial "http://node:3000" None))
                     [SubscribeNetworkType; NetworkIdentityResponse (inr 152);
                      Microtask])) <> Pending)
    by (vm_compute; discriminate).
  split; [exact H|].
  exact (proj2 (network_type_is_stable "http://node:3000" None
                  [SubscribeNetworkType; NetworkIdentityResponse (inr 152);
                   Microtask]
                  [SubscribeNetworkType; NetworkIdentityResponse (inr 104);
                   Microtask]) H).
Defined.

Lemma generation_hash_single_fetch_witness :
  optional None cfg_generationHash = None /\
  nodeInfoFetches
    (run (fst (initial "http://node:3000" None))
         (snd (initial "http://node:3000" None))
         [SubscribeGenerationHash;
          NodeInfoResponse
            (inr "57F7DA205008026C776CB6AED843393F04CD458E0AA2D9F1D5F31A402072B2D6");
          Microtask;
          SubscribeGenerationHash]) = 1%nat.
Proof.
  split; [reflexivity|].
  exact (proj1 (generation_hash_single_fetch "http://node:3000" None
                  [SubscribeGenerationHash;
                   NodeInfoResponse
                     (inr "57F7DA205008026C776CB6AED843393F04CD458E0AA2D9F1D5F31A402072B2D6");
                   Microtask;
                   SubscribeGenerationHash] eq_refl)).
Defined.

Lemma generation_hash_supplied_witness :
  let configs :=
    Some {| cfg_networkType := None;
            cfg_generationHash :=
              Some "57F7DA205008026C776CB6AED843393F04CD458E0AA2D9F1D5F31A402072B2D6";
            cfg_websocketUrl := None;
            cfg_websocketInjected := None |} in
  (optional configs cfg_generationHash
   = Some "57F7DA205008026C776CB6AED843393F04CD458E0AA2D9F1D5F31A402072B2D6" /\
   "57F7DA205008026C776CB6AED843393F04CD458E0AA2D9F1D5F31A402072B2D6"
   <> EmptyString) /\
  nodeInfoFetches
    (run (fst (initial "http://node:3000" configs))
         (snd (initial "http://node:3000" configs))
         [SubscribeGenerationHash; SubscribeGenerationHash]) = 0%nat.
Proof.
  cbv zeta.
  assert (H : "57F7DA205008026C776CB6AED843393F04CD458E0AA2D9F1D5F31A402072B2D6"
              <> EmptyString) by discriminate.
  split; [split; [reflexivity|exact H]|].
  exact (proj1 (proj2 (generation_hash_supplied "http://node:3000"
                         (Some {| cfg_networkType := None;
                                  cfg_generationHash :=
                                    Some "57F7DA205008026C776CB6AED843393F04CD458E0AA2D9F1D5F31A402072B2D6";
                                  cfg_websocketUrl := None;
                                  cfg_websocketInjected := None |})
                         "57F7DA205008026C776CB6AED843393F04CD458E0AA2D9F1D5F31A402072B2D6"
                         [SubscribeGenerationHash; SubscribeGenerationHash]
                         eq_refl H))).
Defined.

Lemma namespace_calls_wait_for_network_type_witness :
  let this := fst (initial "http://node:3000" None) in
  let es := [NamespaceCall (NamespaceHttp.GetNamespace "85BBEA6CC462B244");
             SubscribeNetworkType;
             AccountCall (AccountHttp.GetAccountInfo
                            (Address.mk "SDRDGFTDLLCB67D4HPGIMIHPNSRYRJRT7DOBGWZY"));
             Microtask;
             NamespaceCall (NamespaceHttp.GetLinkedMosaicId "85BBEA6CC462B244")] in
  let s := run this (snd (initial "http://node:3000" None)) es in
  (optional None cfg_networkType = None /\
   forallb wellRouted es = true /\
   forall v, promise (networkTypeCell s) <> Fulfilled v) /\
  namespaceRequests s = 0%nat.
Proof.
  cbv zeta.
  assert (H : forall v,
             promise (networkTypeCell
               (run (fst (initial "http://node:3000" None))
                    (snd (initial "http://node:3000" None))
                    [NamespaceCall (NamespaceHttp.GetNamespace "85BBEA6CC462B244");
                     SubscribeNetworkType;
                     AccountCall (AccountHttp.GetAccountInfo
                       (Address.mk "SDRDGFTDLLCB67D4HPGIMIHPNSRYRJRT7DOBGWZY"));
                     Microtask;
                     NamespaceCall
                       (NamespaceHttp.GetLinkedMosaicId "85BBEA6CC462B244")]))
             <> Fulfilled v)
    by (intros v; vm_compute; discriminate).
  split; [split; [reflexivity|split; [reflexivity|exact H]]|].
  exact (namespace_calls_wait_for_network_type "http://node:3000" None
           [NamespaceCall (NamespaceHttp.GetNamespace "85BBEA6CC462B244");
            SubscribeNetworkType;
            AccountCall (AccountHttp.GetAccountInfo
              (Address.mk "SDRDGFTDLLCB67D4HPGIMIHPNSRYRJRT7DOBGWZY"));
            Microtask;
            NamespaceCall (NamespaceHttp.GetLinkedMosaicId "85BBEA6CC462B244")]
           eq_refl eq_refl H).
Defined.

Lemma namespace_calls_sent_once_resolved_witness :
  let this := fst (initial "http://node:3000" None) in
  let es := [NamespaceCall (NamespaceHttp.GetNamespace "85BBEA6CC462B244");
             NamespaceCall (NamespaceHttp.GetLinkedAddress "85BBEA6CC462B244");
             BlockCall (BlockHttp.GetBlockByHeight (UInt64.fromUint 1));
             NetworkIdentityResponse (inr 152)] in
  let s := run this (snd (initial "http://node:3000" None)) es in
  (optional None cfg_networkType = None /\
   forallb wellRouted es = true /\
   promise (networkTypeCell s) = Fulfilled 152) /\
  namespaceRequests (step this s Microtask) = 2%nat.
Proof.
  cbv zeta. split; [repeat split|].
  exact (namespace_calls_sent_once_resolved "http://node:3000" None
           [NamespaceCall (NamespaceHttp.GetNamespace "85BBEA6CC462B244");
            NamespaceCall (NamespaceHttp.GetLinkedAddress "85BBEA6CC462B244");
            BlockCall (BlockHttp.GetBlockByHeight (UInt64.fromUint 1));
            NetworkIdentityResponse (inr 152)] 152 eq_refl eq_refl eq_refl).
Defined.

Lemma namespace_calls_sent_at_once_when_supplied_witness :
  let configs := Some {| cfg_networkType := Some 152;
                         cfg_generationHash := None;
                         cfg_websocketUrl := None;
                         cfg_websocketInjected := None |} in
  let es := [NamespaceCall (NamespaceHttp.GetNamespace "85BBEA6CC462B244");
             SubscribeNetworkType;
             NamespaceCall (NamespaceHttp.GetLinkedMosaicId "85BBEA6CC462B244")] in
  (optional configs cfg_networkType = Some 152 /\ 152 <> 0 /\
   forallb wellRouted es = true) /\
  namespaceRequests
    (run (fst (initial "http://node:3000" configs))
         (snd (initial "http://node:3000" configs)) es) = 2%nat.
Proof.
  cbv zeta.
  assert (H : 152 <> 0) by discriminate.
  split; [split; [reflexivity|split; [exact H|reflexivity]]|].
  exact (namespace_calls_sent_at_once_when_supplied "http://node:3000"
           (Some {| cfg_networkType := Some 152;
                    cfg_generationHash := None;
                    cfg_websocketUrl := None;
                    cfg_websocketInjected := None |}) 152
           [NamespaceCall (NamespaceHttp.GetNamespace "85BBEA6CC462B244");
            SubscribeNetworkType;
            NamespaceCall (NamespaceHttp.GetLinkedMosaicId "85BBEA6CC462B244")]
           eq_refl H eq_refl).
Defined.

Lemma listener_url_from_configuration_witness :
  (optional None cfg_websocketUrl = None \/
   optional None cfg_websocketUrl = Some EmptyString) /\
  listener_url (createListener (fst (initial ("http://node:3000" ++ "/") None)))
  = "http://node:3000" ++ "/ws".
Proof.
  split; [left; reflexivity|].
  exact (proj1 (proj1 (proj2 (listener_url_from_configuration
                                "http://node:3000" None))
                  (or_introl eq_refl))).
Defined.

Lemma extractAlias_follows_the_discriminator_witness :
  let a := {| alias_type := AliasType.Mosaic;
              alias_mosaicId := Some "941299B2B7E1291C";
              alias_address := None |} in
  let ns := namespaceWith (Some a) in
  let m := MosaicId.mk (UInt64.mk 3084986652 2484246962) in
  NamespaceHttp.extractAlias ns = Ok (MosaicAlias m) /\
  exists a', alias ns = Some a' /\ alias_type a' = AliasType.Mosaic /\
             MosaicId.create (alias_mosaicId a') = Ok m.
Proof.
  cbv zeta.
  assert (H : NamespaceHttp.extractAlias
                (namespaceWith
                   (Some {| alias_type := AliasType.Mosaic;
                            alias_mosaicId := Some "941299B2B7E1291C";
                            alias_address := None |}))
              = Ok (MosaicAlias
                      (MosaicId.mk (UInt64.mk 3084986652 2484246962))))
    by (vm_compute; reflexivity).
  split; [exact H|].
  exact (proj1 extractAlias_follows_the_discriminator _ _ H).
Defined.

Lemma linked_values_agree_with_the_alias_witness :
  let a := {| alias_type := AliasType.Mosaic;
              alias_mosaicId := Some "941299B2B7E1291C";
              alias_address := None |} in
  let body := responseWith (Some (namespaceWith (Some a))) in
  let m := MosaicId.mk (UInt64.mk 3084986652 2484246962) in
  NamespaceHttp.getLinkedMosaicId_map body = Ok m /\
  exists ns, namespace body = Some ns /\
    NamespaceHttp.extractAlias ns = Ok (MosaicAlias m) /\
    NamespaceHttp.getLinkedAddress_map body
    = Throw (ThrownError
               ("No address is linked to namespace '" ++ level0 ns ++ "'")).
Proof.
  cbv zeta.
  assert (H : NamespaceHttp.getLinkedMosaicId_map
                (responseWith
                   (Some (namespaceWith
                            (Some {| alias_type := AliasType.Mosaic;
                                     alias_mosaicId := Some "941299B2B7E1291C";
                                     alias_address := None |}))))
              = Ok (MosaicId.mk (UInt64.mk 3084986652 2484246962)))
    by (vm_compute; reflexivity).
  split; [exact H|].
  exact (proj1 (linked_values_agree_with_the_alias _) _ H).
Defined.

Lemma extractLevels_decodes_the_set_levels_witness :
  let ls := [NamespaceId.mk (UInt64.mk 3294802500 2243684972)] in
  NamespaceHttp.extractLevels (namespaceWith None) = Ok ls /\
  length ls = length (setLevels (namespaceWith None)).
Proof.
  cbv zeta.
  assert (H : NamespaceHttp.extractLevels (namespaceWith None)
              = Ok [NamespaceId.mk (UInt64.mk 3294802500 2243684972)])
    by (vm_compute; reflexivity).
  split; [exact H|].
  exact (proj2 (proj2 (proj2 (extractLevels_decodes_the_set_levels
                                (namespaceWith None))) _ H)).
Defined.

Lemma toNamespaceInfo_components_witness :
  let ns := namespaceWith None in
  let dto := responseWith (Some ns) in
  let ls := [NamespaceId.mk (UInt64.mk 3294802500 2243684972)] in
  let p := NamespaceId.mk (UInt64.mk 0 0) in
  let o : PublicAccount.t keyedAccount :=
    ("7B631D803F912B00DC0CBED3014BBD17A302BA50B99D233B9C2D9533B842ABDF", 152) in
  let sh := UInt64.mk 1 0 in
  let eh := UInt64.mk 4294967295 4294967295 in
  (namespace dto = Some ns /\
   NamespaceHttp.extractLevels ns = Ok ls /\
   NamespaceId.createFromEncoded (parentId ns) = Ok p /\
   PublicAccount.createFromPublicKey keyedAccount (ownerPublicKey ns) 152
   = Ok o /\
   UInt64.fromNumericString (startHeight ns) = Ok sh /\
   UInt64.fromNumericString (endHeight ns) = Ok eh /\
   NamespaceHttp.extractAlias ns = Ok EmptyAlias) /\
  NamespaceHttp.toNamespaceInfo keyedAccount dto 152
  = Ok {| NamespaceHttp.active := meta_active (meta dto);
          NamespaceHttp.index := meta_index (meta dto);
          NamespaceHttp.metaId := meta_id (meta dto);
          NamespaceHttp.info_registrationType := registrationType ns;
          NamespaceHttp.info_depth := depth ns;
          NamespaceHttp.levels := ls;
          NamespaceHttp.info_parentId := p;
          NamespaceHttp.owner := o;
          NamespaceHttp.info_startHeight := sh;
          NamespaceHttp.info_endHeight := eh;
          NamespaceHttp.info_alias := EmptyAlias |}.
Proof.
  cbv zeta.
  assert (H1 : NamespaceHttp.extractLevels (namespaceWith None)
               = Ok [NamespaceId.mk (UInt64.mk 3294802500 2243684972)])
    by (vm_compute; reflexivity).
  assert (H2 : NamespaceId.createFromEncoded (parentId (namespaceWith None))
               = Ok (NamespaceId.mk (UInt64.mk 0 0)))
    by (vm_compute; reflexivity).
  assert (H3 : PublicAccount.createFromPublicKey keyedAccount
                 (ownerPublicKey (namespaceWith None)) 152
               = Ok ("7B631D803F912B00DC0CBED3014BBD17A302BA50B99D233B9C2D9533B842ABDF",
                     152))
    by (vm_compute; reflexivity).
  assert (H4 : UInt64.fromNumericString (startHeight (namespaceWith None))
               = Ok (UInt64.mk 1 0))
    by (vm_compute; reflexivity).
  assert (H5 : UInt64.fromNumericString (endHeight (namespaceWith None))
               = Ok (UInt64.mk 4294967295 4294967295))
    by (vm_compute; reflexivity).
  assert (H6 : NamespaceHttp.extractAlias (namespaceWith None) = Ok EmptyAlias)
    by reflexivity.
  split; [repeat split; assumption|].
  exact (proj1 (proj2 (toNamespaceInfo_components keyedAccount
                         (responseWith (Some (namespaceWith None))) 152))
           (namespaceWith None) _ _ _ _ _ _ eq_refl H1 H2 H3 H4 H5 H6).
Defined.

Lemma toAccountInfo_elementwise_witness :
  let good := {| AccountHttp.mosaic_id := "941299B2B7E1291C";
                 AccountHttp.mosaic_amount := "12" |} in
  let bad := {| AccountHttp.mosaic_id := "941299B2B7E1291C";
                AccountHttp.mosaic_amount := "12x" |} in
  let m := {| AccountHttp.id := MosaicId.mk (UInt64.mk 3084986652 2484246962);
              AccountHttp.amount := UInt64.mk 12 0 |} in
  (exists info,
     AccountHttp.toAccountInfo (accountWith [good]) = Ok info /\
     AccountHttp.address info
     = Address.mk "SDRDGFTDLLCB67D4HPGIMIHPNSRYRJRT7DOBGWZY" /\
     AccountHttp.mosaics info = [m] /\
     AccountHttp.activityBucket info = []) /\
  (In bad (AccountHttp.dto_mosaics (AccountHttp.account (accountWith [good; bad]))) /\
   UInt64.fromNumericString (AccountHttp.mosaic_amount bad)
   = Throw MalformedValue) /\
  forall info, AccountHttp.toAccountInfo (accountWith [good; bad]) <> Ok info.
Proof.
  cbv zeta. split; [|split].
  - refine (proj1 (proj2 (toAccountInfo_elementwise
                            (accountWith
                               [{| AccountHttp.mosaic_id := "941299B2B7E1291C";
                                   AccountHttp.mosaic_amount := "12" |}])))
              (Address.mk "SDRDGFTDLLCB67D4HPGIMIHPNSRYRJRT7DOBGWZY")
              (UInt64.mk 1 0) (UInt64.mk 13 0) []
              [{| AccountHttp.id := MosaicId.mk (UInt64.mk 3084986652 2484246962);
                  AccountHttp.amount := UInt64.mk 12 0 |}]
              (UInt64.mk 0 0) (UInt64.mk 0 0) _ _ _ _ _ _ _).
    + vm_compute; reflexivity.
    + vm_compute; reflexivity.
    + vm_compute; reflexivity.
    + constructor.
    + constructor; [split; vm_compute; reflexivity | constructor].
    + vm_compute; reflexivity.
    + vm_compute; reflexivity.
  - split; [right; left; reflexivity | reflexivity].
  - exact (proj1 (proj2 (proj2 (toAccountInfo_elementwise
                           (accountWith
                              [{| AccountHttp.mosaic_id := "941299B2B7E1291C";
                                  AccountHttp.mosaic_amount := "12" |};
                               {| AccountHttp.mosaic_id := "941299B2B7E1291C";
                                  AccountHttp.mosaic_amount := "12x" |}]))))
             {| AccountHttp.mosaic_id := "941299B2B7E1291C";
                AccountHttp.mosaic_amount := "12x" |}
             MalformedValue (or_intror (or_introl eq_refl)) eq_refl).
Defined.

Lemma toBlockInfo_accounts_witness :
  let key := "7B631D803F912B00DC0CBED3014BBD17A302BA50B99D233B9C2D9533B842ABDF" in
  let dto := blockWith (Some key) in
  let network := BlockHttp.block_network (BlockHttp.block dto) in
  (exists f s h t d,
     UInt64.fromNumericString (BlockHttp.meta_totalFee (BlockHttp.meta dto))
     = Ok f /\
     PublicAccount.createFromPublicKey keyedAccount
       (BlockHttp.block_signerPublicKey (BlockHttp.block dto)) network = Ok s /\
     UInt64.fromNumericString (BlockHttp.block_height (BlockHttp.block dto))
     = Ok h /\
     UInt64.fromNumericString (BlockHttp.block_timestamp (BlockHttp.block dto))
     = Ok t /\
     UInt64.fromNumericString (BlockHttp.block_difficulty (BlockHttp.block dto))
     = Ok d /\
     (forall k,
        BlockHttp.block_beneficiaryPublicKey (BlockHttp.block dto) = Some k ->
        k <> EmptyString ->
        exists b,
          PublicAccount.createFromPublicKey keyedAccount k network = Ok b)) /\
  exists info, BlockHttp.toBlockInfo keyedAccount dto = Ok info.
Proof.
  cbv zeta.
  match goal with |- ?A /\ _ => assert (H : A) end.
  { exists (UInt64.mk 0 0),
      ("7B631D803F912B00DC0CBED3014BBD17A302BA50B99D233B9C2D9533B842ABDF", 152),
      (UInt64.mk 1 0), (UInt64.mk 0 0), (UInt64.fromUint 100000000000000).
    repeat split; try (vm_compute; reflexivity).
    intros k [= <-] _. eexists. vm_compute. reflexivity. }
  split; [exact H|].
  exact (proj2 (proj1 (proj2 (toBlockInfo_accounts keyedAccount
                                (blockWith
                                   (Some "7B631D803F912B00DC0CBED3014BBD17A302BA50B99D233B9C2D9533B842ABDF")))))
           H).
Defined.
